(** * Shallow embedding of [etrs89_converter/converter.py]

    The module converts a pandas DataFrame of geographic coordinates to
    ETRS89/UTM.  A float is [PFin q] with [q : Q], or one of the
    non-finite values [PNaN] / [PInf]; the arithmetic numpy does on floats
    (the zone formula, the rounding) is binary64 arithmetic, the exact
    result rounded to the nearest double.
    DataFrames live in a heap (they are Python objects passed by reference
    and mutated in place), the [lru_cache] of transformers and a trace of
    the calls into pyproj are part of the state, and exceptions are the
    error half of a state/error monad.  The pyproj library itself is a set
    of section variables, so every theorem holds for every behaviour of
    [Transformer.from_crs] and [Transformer.transform]. *)

From Stdlib Require Import ZArith QArith Qround Qabs List String Ascii Bool Lia Lqa.
Import ListNotations.
Open Scope string_scope.
Open Scope Z_scope.

(* ------------------------------------------------------------------ *)
(** ** Values, cells and DataFrames *)

(** A float as produced by [pd.to_numeric]: finite, infinite or NaN. *)
Inductive pf : Type :=
| PNaN
| PInf (neg : bool)
| PFin (q : Q).

(** A cell of a DataFrame column. [CNone] is the [None] that fills an
    [np.empty(..., dtype=object)] array. *)
Inductive cell : Type :=
| CStr (s : string)
| CNum (x : pf)
| CInt (z : Z)
| CNone.

(** A DataFrame, column-major: its index labels and its named columns in
    order. *)
Record Frame : Type := mkFrame {
  f_index : list Z;
  f_cols : list (string * list cell)
}.

Definition col_names (f : Frame) : list string := map fst (f_cols f).

Fixpoint mem_str (x : string) (l : list string) : bool :=
  match l with
  | [] => false
  | y :: l' => String.eqb x y || mem_str x l'
  end.

(** [df[name]]: the first column of that name. *)
Fixpoint assoc_col (name : string) (cs : list (string * list cell))
  : option (list cell) :=
  match cs with
  | [] => None
  | (n, c) :: cs' => if String.eqb n name then Some c else assoc_col name cs'
  end.

Definition col_get (f : Frame) (name : string) : list cell :=
  match assoc_col name (f_cols f) with Some c => c | None => [] end.

(** Keep the entries whose mask bit is [true] (boolean indexing). *)
Fixpoint filter_mask {A} (l : list A) (m : list bool) : list A :=
  match l, m with
  | x :: l', b :: m' => if b then x :: filter_mask l' m' else filter_mask l' m'
  | _, _ => []
  end.

(** [df.loc[mask].copy()] *)
Definition loc_mask (f : Frame) (m : list bool) : Frame :=
  mkFrame (filter_mask (f_index f) m)
          (map (fun nc => (fst nc, filter_mask (snd nc) m)) (f_cols f)).

(** Replace the column [name] in place, or append it at the end. *)
Fixpoint assoc_set (name : string) (v : list cell)
  (cs : list (string * list cell)) : list (string * list cell) :=
  match cs with
  | [] => [(name, v)]
  | (n, c) :: cs' =>
      if String.eqb n name then (n, v) :: cs' else (n, c) :: assoc_set name v cs'
  end.

Definition count_true (m : list bool) : Z :=
  Z.of_nat (List.length (filter (fun b => b) m)).

Definition negb_mask (m : list bool) : list bool := map negb m.

(** [df.reset_index(drop=True)]: positional labels 0 .. n-1. *)
Definition reset_index (f : Frame) : Frame :=
  mkFrame (map Z.of_nat (seq 0 (List.length (f_index f)))) (f_cols f).

(** [pd.concat([a, b], axis=1)] of two frames with the same index. *)
Definition concat_cols (a b : Frame) : Frame :=
  mkFrame (f_index a) (f_cols a ++ f_cols b)%list.

(* ------------------------------------------------------------------ *)
(** ** Numeric parsing: [astype(str)], [str.replace] and [pd.to_numeric] *)

(** [series.str.replace(",", ".", regex=False)]: every comma. *)
Definition replace_comma (s : string) : string :=
  string_of_list_ascii
    (map (fun c => if Ascii.eqb c "," then "."%char else c)
         (list_ascii_of_string s)).

Definition is_digit (c : ascii) : bool :=
  let n := nat_of_ascii c in (48 <=? n)%nat && (n <=? 57)%nat.

Definition digit_val (c : ascii) : Z := Z.of_nat (nat_of_ascii c) - 48.

Fixpoint span_digits (cs : list ascii) : list ascii * list ascii :=
  match cs with
  | c :: cs' =>
      if is_digit c then let (ds, r) := span_digits cs' in (c :: ds, r)
      else ([], cs)
  | [] => ([], [])
  end.

Definition digits_value (ds : list ascii) : Z :=
  fold_left (fun acc c => acc * 10 + digit_val c) ds 0.

Fixpoint drop_spaces (cs : list ascii) : list ascii :=
  match cs with
  | c :: cs' => if Ascii.eqb c " " then drop_spaces cs' else cs
  | [] => []
  end.

Definition trim (cs : list ascii) : list ascii :=
  rev (drop_spaces (rev (drop_spaces cs))).

(** Optional sign of a mantissa or exponent: [true] when negative. *)
Definition take_sign (cs : list ascii) : bool * list ascii :=
  match cs with
  | c :: cs' =>
      if Ascii.eqb c "-" then (true, cs')
      else if Ascii.eqb c "+" then (false, cs') else (false, cs)
  | [] => (false, [])
  end.

(** [m * 10 ^ e] as a rational. *)
Definition scale10 (m e : Z) : Q :=
  if 0 <=? e then inject_Z (m * 10 ^ e) else (m # Z.to_pos (10 ^ (- e)))%Q.

(** The exponent part [e[+-]ddd], or nothing. *)
Definition parse_exponent (cs : list ascii) : option Z :=
  match cs with
  | [] => Some 0
  | c :: cs' =>
      if Ascii.eqb c "e" || Ascii.eqb c "E" then
        let (neg, r) := take_sign cs' in
        let (ds, r') := span_digits r in
        match ds, r' with
        | _ :: _, [] => Some (if neg then - digits_value ds else digits_value ds)
        | _, _ => None
        end
      else None
  end.

(** A decimal literal: sign, digits, optional fraction, optional exponent,
    surrounding blanks allowed; [nan] and [inf] spelled in lower case.
    Anything else is not a number: [errors="coerce"] turns it into NaN. *)
Definition to_numeric (s : string) : pf :=
  let cs := trim (list_ascii_of_string s) in
  let (neg, r) := take_sign cs in
  if String.eqb (string_of_list_ascii r) "nan" then PNaN
  else if String.eqb (string_of_list_ascii r) "inf" then PInf neg
  else
    let (ids, r1) := span_digits r in
    let (fds, r2) :=
      match r1 with
      | c :: r1' => if Ascii.eqb c "." then span_digits r1' else ([], r1)
      | [] => ([], [])
      end in
    match (ids ++ fds)%list, parse_exponent r2 with
    | _ :: _, Some e =>
        let m := digits_value ((ids ++ fds)%list) in
        PFin (scale10 (if neg then - m else m) (e - Z.of_nat (List.length fds)))
    | _, _ => PNaN
    end.

(** One cell through [astype(str)], the optional comma replacement and
    [pd.to_numeric(errors="coerce")].  The text of a number ([str] of a
    float or an int) contains no comma and parses back to the same value;
    [str(None)] is ["None"], which is not a number. *)
Definition to_float_cell (use_decimal_comma : bool) (c : cell) : pf :=
  match c with
  | CStr s => to_numeric (if use_decimal_comma then replace_comma s else s)
  | CNum x => x
  | CInt z => PFin (inject_Z z)
  | CNone => PNaN
  end.

(** [to_float_series] *)
Definition to_float_series (use_decimal_comma : bool) (series : list cell)
  : list pf :=
  map (to_float_cell use_decimal_comma) series.

(** [Series.between(lo, hi)]: inclusive on both sides, false on NaN. *)
Definition between (x : pf) (lo hi : Q) : bool :=
  match x with
  | PFin q => Qle_bool lo q && Qle_bool q hi
  | _ => false
  end.

(** [lat_s.between(-90, 90) & lon_s.between(-180, 180)] *)
Definition valid_mask (lat_s lon_s : list pf) : list bool :=
  map (fun p => between (fst p) (-90)%Q 90%Q && between (snd p) (-180)%Q 180%Q)
      (combine lat_s lon_s).

(* ------------------------------------------------------------------ *)
(** ** Binary64 arithmetic

    numpy computes the zones and the rounding of the coordinates in IEEE
    754 double precision; these are its operations on [pf]. *)

(** Round half to even of a rational. *)
Definition round_half_even (y : Q) : Z :=
  let fl := Qfloor y in
  let fr := (y - inject_Z fl)%Q in
  match Qcompare fr (1 # 2) with
  | Lt => fl
  | Gt => fl + 1
  | Eq => if Z.even fl then fl else fl + 1
  end.
(** [a < b] on rationals, as a boolean. *)
Definition qltb (a b : Q) : bool := match Qcompare a b with Lt => true | _ => false end.
(** [2 ^ e] as a rational, for every integer [e]. *)
Definition pow2Q (e : Z) : Q :=
  if 0 <=? e then inject_Z (2 ^ e) else 1 # Z.to_pos (2 ^ (- e)).
(** [floor(log2 a)] of a positive rational in lowest terms: the
    difference of the bit lengths of numerator and denominator is the
    answer or one above it. *)
Definition qlog2 (a : Q) : Z :=
  let e := Z.log2 (Qnum a) - Z.log2 (Zpos (Qden a)) in
  if qltb a (pow2Q e) then e - 1 else e.
(** The binary64 value of an exact real result, rounded to nearest with
    ties to even: 53 significant bits, the last of weight at least
    [2^-1074] (subnormals), and an infinity of the result's sign when the
    rounded magnitude reaches [2^1024].  Zeros carry no sign. *)
Definition fl64 (x : Q) : pf :=
  let x := Qred x in
  if Qeq_bool x 0 then PFin 0 else
  let a := Qabs x in
  let s := Z.max (qlog2 a - 52) (-1074) in
  let m := round_half_even (a / pow2Q s) in
  if (0 <=? s) && (2 ^ 1024 <=? m * 2 ^ s) then PInf (qltb x 0)
  else PFin (Qred (if qltb x 0 then - (inject_Z m * pow2Q s) else inject_Z m * pow2Q s))%Q.
(** Whether [fl64] gives back the integer [j] itself. *)
Definition fl64_exact_int (j : Z) : bool :=
  match fl64 (inject_Z j) with
  | PFin r => (Qnum r =? j) && (Qden r =? 1)%positive
  | _ => false
  end.

(** Negation of a float. *)
Definition pf_neg (x : pf) : pf :=
  match x with PNaN => PNaN | PInf n => PInf (negb n) | PFin q => PFin (- q)%Q end.
(** IEEE 754 addition, subtraction, multiplication and division of
    floats: the exact result rounded by [fl64], with the rules for NaN,
    infinities and division by zero. *)
Definition pf_add (x y : pf) : pf :=
  match x, y with
  | PNaN, _ | _, PNaN => PNaN
  | PInf a, PInf b => if Bool.eqb a b then PInf a else PNaN
  | PInf a, PFin _ | PFin _, PInf a => PInf a
  | PFin p, PFin q => fl64 (p + q)
  end.
Definition pf_sub (x y : pf) : pf := pf_add x (pf_neg y).
Definition pf_mul (x y : pf) : pf :=
  match x, y with
  | PNaN, _ | _, PNaN => PNaN
  | PInf a, PInf b => PInf (xorb a b)
  | PInf a, PFin q | PFin q, PInf a =>
      if Qeq_bool q 0 then PNaN else PInf (xorb a (qltb q 0))
  | PFin p, PFin q => fl64 (p * q)
  end.
Definition pf_div (x y : pf) : pf :=
  match x, y with
  | PNaN, _ | _, PNaN => PNaN
  | PInf _, PInf _ => PNaN
  | PInf a, PFin q => PInf (xorb a (qltb q 0))
  | PFin _, PInf _ => PFin 0
  | PFin p, PFin q =>
      if Qeq_bool q 0 then (if Qeq_bool p 0 then PNaN else PInf (qltb p 0))
      else fl64 (p / q)
  end.
(** Truncation toward zero of a rational. *)
Definition qtrunc (q : Q) : Z := Z.quot (Qnum q) (Zpos (Qden q)).
(** C's [fmod]: exact, with the sign of the dividend; NaN for an
    infinite dividend or a zero divisor. *)
Definition pf_fmod (x y : pf) : pf :=
  match x, y with
  | PFin p, PFin q => if Qeq_bool q 0 then PNaN else PFin (p - q * inject_Z (qtrunc (p / q)))%Q
  | PFin p, PInf _ => PFin p
  | _, _ => PNaN
  end.
(** The truth value of a double in C ([NaN] is true), its sign test
    [isless(x, 0)] and [isgreater(x, c)]. *)
Definition pf_nonzero (x : pf) : bool := match x with PFin q => negb (Qeq_bool q 0) | _ => true end.
Definition pf_isneg (x : pf) : bool := match x with PFin q => qltb q 0 | PInf n => n | PNaN => false end.
Definition pf_gt (x : pf) (c : Q) : bool := match x with PFin q => qltb c q | PInf n => negb n | PNaN => false end.
(** [floor] and [rint] (half to even) of a float; NaN and infinities
    are kept. *)
Definition pf_floor (x : pf) : pf := match x with PFin q => PFin (inject_Z (Qfloor q)) | _ => x end.
Definition pf_rint (x : pf) : pf := match x with PFin q => PFin (inject_Z (round_half_even q)) | _ => x end.
(** [np.floor_divide] on float64 ([npy_divmod]):
    [mod = fmod(a, b); div = (a - mod) / b], one less when [mod] and [b]
    differ in sign, then [floor(div)], plus one when [div - floor(div)]
    exceeds one half; [a / b] for a zero divisor. *)
Definition floor_divide (a b : pf) : pf :=
  if negb (pf_nonzero b) then pf_div a b else
  let md := pf_fmod a b in
  let div := pf_div (pf_sub a md) b in
  let div := if pf_nonzero md && negb (Bool.eqb (pf_isneg b) (pf_isneg md))
             then pf_sub div (PFin 1) else div in
  if pf_nonzero div then
    let fd := pf_floor div in
    if pf_gt (pf_sub div fd) (1 # 2) then pf_add fd (PFin 1) else fd
  else PFin 0.
(** [astype(int)] of one float: truncation toward zero; NaN, infinities
    and values outside the int64 range give [INT64_MIN], as the x86-64
    conversion does. *)
Definition astype_int (x : pf) : Z :=
  match x with
  | PFin q => let t := qtrunc q in
              if (- 2 ^ 63 <=? t) && (t <? 2 ^ 63) then t else - 2 ^ 63
  | _ => - 2 ^ 63
  end.
(* ------------------------------------------------------------------ *)
(** ** Zones, CRS codes and rounding *)

(** [np.clip(a, lo, hi)] on one element. *)
Definition clip (a lo hi : Z) : Z := Z.min (Z.max a lo) hi.

(** [((lon + 180.0) // 6.0).astype(int) + 1] on one element, in binary64:
    the sum is rounded, then floor-divided by [6.0].  The final [+ 1]
    cannot overflow: [astype_int] never exceeds [2^63 - 1024], the largest
    double below [2^63]. *)
Definition raw_zone (lon : pf) : Z :=
  astype_int (floor_divide (pf_add lon (PFin 180)) (PFin 6)) + 1.

(** The per-row zone of [auto] mode: the clipped raw zone. *)
Definition auto_zone (lon : pf) : Z := clip (raw_zone lon) 29 31.

(** The zone as the specification words it:
    [clamp(floor((lon + 180) / 6) + 1, 29, 31)]. *)
Definition clamp (x lo hi : Z) : Z := Z.max lo (Z.min x hi).

Definition spec_zone (lon : Q) : Z := clamp (Qfloor ((lon + 180) / 6)%Q + 1) 29 31.

Definition digit_char (d : Z) : ascii := ascii_of_nat (Z.to_nat d + 48).

Fixpoint dec_digits (fuel : nat) (n : Z) (acc : string) : string :=
  match fuel with
  | O => acc
  | S f =>
      let acc' := String (digit_char (n mod 10)) acc in
      if n <? 10 then acc' else dec_digits f (n / 10) acc'
  end.

(** Decimal text of a non-negative integer. *)
Definition dec_string (n : Z) : string :=
  dec_digits (S (Z.to_nat (Z.log2 (Z.max n 1)))) n "".

(** [f"{z:02d}"]: at least two characters, zero padded after the sign. *)
Definition fmt02 (z : Z) : string :=
  if z <? 0 then "-" ++ dec_string (- z)
  else let s := dec_string z in
       if (String.length s <? 2)%nat then "0" ++ s else s.

(** [f"EPSG:258{int(zone):02d}"] *)
Definition epsg_of (zone : Z) : string := "EPSG:258" ++ fmt02 zone.

(** [power_of_ten(n)] of numpy's [PyArray_Round]: a table up to [1e8],
    then [1e9] multiplied by [10.] once per further power. *)
Definition power_of_ten (n : Z) : pf :=
  if n <? 9 then PFin (inject_Z (10 ^ n))
  else Nat.iter (Z.to_nat (n - 9)) (fun r => pf_mul r (PFin 10)) (PFin (inject_Z (10 ^ 9))).

(** [Series.round(d)] on one float, as numpy's [PyArray_Round] does it:
    [rint(x * f) / f] with [f = 10.0 ** d] for [d >= 0], and
    [rint(x / f) * f] with [f = 10.0 ** -d] otherwise, every operation in
    binary64. *)
Definition round_pf (d : Z) (x : pf) : pf :=
  if 0 <=? d then pf_div (pf_rint (pf_mul x (power_of_ten d))) (power_of_ten d)
  else pf_mul (pf_rint (pf_div x (power_of_ten (- d)))) (power_of_ten (- d)).

Definition round_cell (d : Z) (c : cell) : cell :=
  match c with CNum x => CNum (round_pf d x) | _ => c end.

(** [np.unique]: sorted, without duplicates. *)
Fixpoint insert_sorted (z : Z) (l : list Z) : list Z :=
  match l with
  | [] => [z]
  | y :: l' =>
      if z <? y then z :: l
      else if z =? y then l else y :: insert_sorted z l'
  end.

Definition unique_sorted (l : list Z) : list Z :=
  fold_right insert_sorted [] l.

(** [arr[mask] = vals] for numpy arrays: the number of selected positions
    must equal the number of values, else numpy raises [ValueError]. *)
Fixpoint assign_mask {A} (arr : list A) (m : list bool) (vals : list A)
  : option (list A) :=
  match arr, m with
  | x :: arr', b :: m' =>
      if b then
        match vals with
        | v :: vals' =>
            option_map (cons v) (assign_mask arr' m' vals')
        | [] => None
        end
      else option_map (cons x) (assign_mask arr' m' vals)
  | _, _ => match vals with [] => Some arr | _ => None end
  end.

(* ------------------------------------------------------------------ *)
(** ** Exceptions, state and the monad *)

Inductive exn : Type :=
| ValueError (msg : string)
| ProjError (msg : string)
| KeyError (msg : string).

(** The calls into pyproj, in order. *)
Inductive event : Type :=
| EFromCrs (src dst : string)
| ETransform (src dst : string) (n : nat).

(* ------------------------------------------------------------------ *)
(** ** [_default_index] of the Streamlit app [etrs89_converter_app.py] *)

(** [str.lower()] on one character of an ASCII string. *)
Definition py_lower (c : ascii) : ascii :=
  let n := nat_of_ascii c in
  if (65 <=? n)%nat && (n <=? 90)%nat then ascii_of_nat (n + 32) else c.

(** [str.isspace()] on one ASCII character: the separators of [str.split()]. *)
Definition py_isspace (c : ascii) : bool :=
  let n := nat_of_ascii c in
  ((9 <=? n)%nat && (n <=? 13)%nat) || ((28 <=? n)%nat && (n <=? 32)%nat).

(** [''.join(str(c).lower().split())]: lower case, every whitespace
    character removed. *)
Definition normalize (c : string) : string :=
  string_of_list_ascii
    (filter (fun ch => negb (py_isspace ch)) (map py_lower (list_ascii_of_string c))).

(** [needle in s] on strings. *)
Fixpoint str_contains (needle s : string) : bool :=
  prefix needle s ||
  match s with
  | EmptyString => false
  | String _ s' => str_contains needle s'
  end.

(** The inner loop [for needle in needle_list: if needle in norm]. *)
Definition col_matches (needle_list : list string) (c : string) : bool :=
  let norm := normalize c in
  existsb (fun needle => str_contains needle norm) needle_list.

(** The outer loop [for i, c in enumerate(cols)], from position [i]. *)
Fixpoint default_index_from (i : nat) (cols : list string) (needle_list : list string) : nat :=
  match cols with
  | [] => 0%nat
  | c :: cols' =>
      if col_matches needle_list c then i else default_index_from (S i) cols' needle_list
  end.

(** [_default_index(cols, needle_list)] of the Streamlit app. *)
Definition default_index (cols : list string) (needle_list : list string) : nat :=
  default_index_from 0 cols needle_list.

Definition lat_needles : list string := ["latitud"; "latitude"; "lat"].
Definition lon_needles : list string := ["longitud"; "longitude"; "long"; "lon"; "lng"].

(* ------------------------------------------------------------------ *)
(** ** A concrete pyproj and sample tables *)

(** A stand-in for pyproj used to run the converter on samples: the
    handle is the destination code, the grid of zone 30 is missing, and a
    point is returned unchanged. *)
Definition demo_from_crs (src dst : string) : string + string := inr dst.

Definition demo_transform_fails (h : string) (lons lats : list pf) : option string :=
  if String.eqb h "EPSG:25830" then Some "grid not found" else None.

Definition demo_transform_point (h : string) (lon lat : pf) : pf * pf := (lon, lat).

(** Five rows: zone 30 (its group fails), zone 31, an unparseable
    latitude, a latitude out of range, zone 29. *)
Definition demo_table : Frame :=
  mkFrame [0; 1; 2; 3; 4]
    [("Punto", [CStr "A"; CStr "B"; CStr "C"; CStr "D"; CStr "E"]);
     ("Lat", [CNum (PFin 40); CStr "41.8"; CStr "n/d"; CInt 100; CNum (PFin 40)]);
     ("Lon", [CNum (PFin (-3)); CStr "1.0"; CInt 0; CInt 0; CNum (PFin (-8))])].

(** One row written with decimal commas. *)
Definition demo_comma_table : Frame :=
  mkFrame [0] [("Lat", [CStr "41,84346"]); ("Lon", [CStr "1,03335"])].

(** A row written with decimal commas and a row with an unparseable
    latitude. *)
Definition demo_mixed_comma_table : Frame :=
  mkFrame [0; 1] [("Lat", [CStr "41,84346"; CStr "n/d"]); ("Lon", [CStr "1,03335"; CInt 0])].

(** One row whose longitude lies just west of the meridian 0, the
    boundary of the zones 30 and 31. *)
Definition demo_edge_table : Frame :=
  mkFrame [0] [("Lat", [CNum (PFin 40)]); ("Lon", [CStr "-1e-16"])].

Section Converter.

(** pyproj: [Transformer.from_crs] may fail with a [ProjError]; a call to
    [transform] on arrays either fails as a whole with a [ProjError] or
    transforms every point. *)
Variable Handle : Type.
Variable from_crs : string -> string -> string + Handle.
Variable transform_fails : Handle -> list pf -> list pf -> option string.
Variable transform_point : Handle -> pf -> pf -> pf * pf.

Record St : Type := mkSt {
  heap : list Frame;
  cache : list ((string * string) * Handle);
  trace : list event
}.

Definition loc := nat.

Definition M (A : Type) : Type := St -> (exn + A) * St.

Definition ret {A} (a : A) : M A := fun s => (inr a, s).

Definition bind {A B} (m : M A) (k : A -> M B) : M B :=
  fun s => match m s with
           | (inl e, s') => (inl e, s')
           | (inr a, s') => k a s'
           end.

Definition raise {A} (e : exn) : M A := fun s => (inl e, s).

Notation "x <- m ;; k" := (bind m (fun x => k))
  (at level 61, m at next level, right associativity).
Notation "m ;;; k" := (bind m (fun _ => k)) (at level 61, right associativity).

(** [try m except ProjError as exc]: the handler receives the message. *)
Definition catch_proj {A} (m : M A) : M (string + A) :=
  fun s => match m s with
           | (inl (ProjError msg), s') => (inr (inl msg), s')
           | (inl e, s') => (inl e, s')
           | (inr a, s') => (inr (inr a), s')
           end.

Definition log (ev : event) : M unit :=
  fun s => (inr tt, mkSt (heap s) (cache s) (trace s ++ [ev])%list).

(** A new Python object. *)
Definition alloc (f : Frame) : M loc :=
  fun s => (inr (List.length (heap s)), mkSt (heap s ++ [f])%list (cache s) (trace s)).

Definition read (l : loc) : M Frame :=
  fun s => match nth_error (heap s) l with
           | Some f => (inr f, s)
           | None => (inl (KeyError "dangling object"), s)
           end.

Fixpoint update_nth {A} (l : list A) (n : nat) (x : A) : list A :=
  match l, n with
  | [], _ => []
  | _ :: l', O => x :: l'
  | y :: l', S n' => y :: update_nth l' n' x
  end.

(** In-place mutation of an object. *)
Definition write (l : loc) (f : Frame) : M unit :=
  fun s => (inr tt, mkSt (update_nth (heap s) l f) (cache s) (trace s)).

(** [obj[name] = values] on a DataFrame: pandas raises [ValueError] when
    the length differs from the length of the index. *)
Definition set_col (l : loc) (name : string) (v : list cell) : M unit :=
  f <- read l ;;
  if Nat.eqb (List.length v) (List.length (f_index f)) then
    write l (mkFrame (f_index f) (assoc_set name v (f_cols f)))
  else raise (ValueError "Length of values does not match length of index").

(** [obj[name] = scalar]: broadcast to every row. *)
Definition set_scalar (l : loc) (name : string) (c : cell) : M unit :=
  f <- read l ;;
  set_col l name (repeat c (List.length (f_index f))).

Fixpoint cache_lookup (k : string * string) (c : list ((string * string) * Handle))
  : option Handle :=
  match c with
  | [] => None
  | (k', h) :: c' =>
      if String.eqb (fst k) (fst k') && String.eqb (snd k) (snd k')
      then Some h else cache_lookup k c'
  end.

(** [_get_transformer]: memoised by [lru_cache]; a failing [from_crs]
    is not cached. *)
Definition get_transformer (input_epsg output_epsg : string) : M Handle :=
  fun s =>
    match cache_lookup (input_epsg, output_epsg) (cache s) with
    | Some h => (inr h, s)
    | None =>
        let s1 := mkSt (heap s) (cache s) (trace s ++ [EFromCrs input_epsg output_epsg])%list in
        match from_crs input_epsg output_epsg with
        | inl msg => (inl (ProjError msg), s1)
        | inr h =>
            (inr h, mkSt (heap s1) (((input_epsg, output_epsg), h) :: cache s1) (trace s1))
        end
    end.

(** [transformer.transform(lon, lat)] on arrays, [always_xy=True]. The
    CRS pair is recorded in the trace for the handle's cache key. *)
Definition transform (src dst : string) (h : Handle) (lons lats : list pf)
  : M (list pf * list pf) :=
  log (ETransform src dst (List.length lons)) ;;;
  match transform_fails h lons lats with
  | Some msg => raise (ProjError msg)
  | None =>
      let xy := map (fun p => transform_point h (fst p) (snd p)) (combine lons lats) in
      ret (map fst xy, map snd xy)
  end.

(* ------------------------------------------------------------------ *)
(** ** [convert_dataframe] *)

(** The arrays threaded through the [for zone in np.unique(zones)] loop. *)
Record AutoAcc : Type := mkAcc {
  a_xs : list pf;
  a_ys : list pf;
  a_epsgs : list cell;
  a_failed : list bool;
  a_last : option string
}.

(** [arr[mask] = vals] inside the monad. *)
Definition massign {A} (arr : list A) (m : list bool) (vals : list A) : M (list A) :=
  match assign_mask arr m vals with
  | Some arr' => ret arr'
  | None => raise (ValueError "cannot assign input values to the output values")
  end.

(** One iteration of the loop of [auto] mode. *)
Definition auto_step (input_epsg : string) (zones : list Z) (lon_v lat_v : list pf)
  (acc : AutoAcc) (zone : Z) : M AutoAcc :=
  let epsg := epsg_of zone in
  let mask := map (Z.eqb zone) zones in
  r <- catch_proj
         (t <- get_transformer input_epsg epsg ;;
          transform input_epsg epsg t (filter_mask lon_v mask) (filter_mask lat_v mask)) ;;
  match r with
  | inl exc =>
      ret (mkAcc (a_xs acc) (a_ys acc) (a_epsgs acc)
                 (map (fun p : bool * bool => fst p || snd p) (combine (a_failed acc) mask))
                 (Some exc))
  | inr (x, y) =>
      xs <- massign (a_xs acc) mask x ;;
      ys <- massign (a_ys acc) mask y ;;
      let epsgs := map (fun p : cell * bool => if snd p then CStr epsg else fst p)
                       (combine (a_epsgs acc) mask) in
      ret (mkAcc xs ys epsgs (a_failed acc) (a_last acc))
  end.

Fixpoint auto_loop (input_epsg : string) (zones : list Z) (lon_v lat_v : list pf)
  (zs : list Z) (acc : AutoAcc) : M AutoAcc :=
  match zs with
  | [] => ret acc
  | z :: zs' =>
      acc' <- auto_step input_epsg zones lon_v lat_v acc z ;;
      auto_loop input_epsg zones lon_v lat_v zs' acc'
  end.

Definition str_last (e : option string) : string :=
  match e with Some m => m | None => "None" end.

(** The four result columns of [auto] mode on the frame [df_out]. *)
Definition auto_results (df_out : loc) (xs ys : list pf) (epsgs : list cell)
  (husos : list Z) : M loc :=
  o <- read df_out ;;
  results <- alloc (mkFrame (f_index o) []) ;;
  set_col results "X_ETRS89" (map CNum xs) ;;;
  set_col results "Y_ETRS89" (map CNum ys) ;;;
  set_col results "EPSG_destino" epsgs ;;;
  set_col results "Huso" (map CInt husos) ;;;
  ret results.

Definition convert_dataframe (df : loc) (lat_col lon_col mode : string)
  (fixed_zone : option Z) (use_decimal_comma : bool) (input_epsg : string)
  (round_decimals : Z) : M (Frame * Z * Z) :=
  f <- read df ;;
  if negb (mem_str lat_col (col_names f)) then
    raise (ValueError ("Column '" ++ lat_col ++ "' not found in DataFrame"))
  else if negb (mem_str lon_col (col_names f)) then
    raise (ValueError ("Column '" ++ lon_col ++ "' not found in DataFrame"))
  else
  df2 <- alloc f ;;
  f2 <- read df2 ;;
  let lat_s := to_float_series use_decimal_comma (col_get f2 lat_col) in
  let lon_s := to_float_series use_decimal_comma (col_get f2 lon_col) in
  let valid := valid_mask lat_s lon_s in
  let n_all := Z.of_nat (List.length (f_index f2)) in
  let n_valid := count_true valid in
  let n_drop := n_all - n_valid in
  if n_valid =? 0 then
    raise (ValueError "No valid rows with latitudes/longitudes in range.")
  else
  df_out <- alloc (loc_mask f2 valid) ;;
  let lat_v := filter_mask lat_s valid in
  let lon_v := filter_mask lon_s valid in
  branch <-
    (if String.eqb mode "force_31n" then
       o <- read df_out ;;
       results <- alloc (mkFrame (f_index o) []) ;;
       t <- get_transformer input_epsg "EPSG:25831" ;;
       xy <- transform input_epsg "EPSG:25831" t lon_v lat_v ;;
       set_col results "X_ETRS89" (map CNum (fst xy)) ;;;
       set_col results "Y_ETRS89" (map CNum (snd xy)) ;;;
       set_scalar results "EPSG_destino" (CStr "EPSG:25831") ;;;
       set_scalar results "Huso" (CInt 31) ;;;
       ret (df_out, results, n_valid, n_drop)
     else if String.eqb mode "auto" then
       let zones := map auto_zone lon_v in
       let n := List.length zones in
       acc <- auto_loop input_epsg zones lon_v lat_v (unique_sorted zones)
                (mkAcc (repeat PNaN n) (repeat PNaN n) (repeat CNone n)
                       (repeat false n) None) ;;
       let husos := zones in
       let failed := a_failed acc in
       if existsb (fun b => b) failed then
         let n_fail := count_true failed in
         let keep := negb_mask failed in
         o <- read df_out ;;
         df_out' <- alloc (loc_mask o keep) ;;
         let n_valid' := n_valid - n_fail in
         let n_drop' := n_drop + n_fail in
         if n_valid' =? 0 then
           raise (ValueError ("Coordinate transformation failed for all rows: "
                              ++ str_last (a_last acc)))
         else
           results <- auto_results df_out' (filter_mask (a_xs acc) keep)
                        (filter_mask (a_ys acc) keep)
                        (filter_mask (a_epsgs acc) keep) (filter_mask husos keep) ;;
           ret (df_out', results, n_valid', n_drop')
       else
         results <- auto_results df_out (a_xs acc) (a_ys acc) (a_epsgs acc) husos ;;
         ret (df_out, results, n_valid, n_drop)
     else if String.eqb mode "fixed" then
       o <- read df_out ;;
       results <- alloc (mkFrame (f_index o) []) ;;
       match fixed_zone with
       | None => raise (ValueError "fixed_zone must be provided when mode='fixed'")
       | Some z =>
           if negb ((z =? 29) || (z =? 30) || (z =? 31)) then
             raise (ValueError "fixed_zone must be one of 29, 30, or 31")
           else
             let epsg := epsg_of z in
             t <- get_transformer input_epsg epsg ;;
             xy <- transform input_epsg epsg t lon_v lat_v ;;
             set_col results "X_ETRS89" (map CNum (fst xy)) ;;;
             set_col results "Y_ETRS89" (map CNum (snd xy)) ;;;
             set_scalar results "EPSG_destino" (CStr epsg) ;;;
             set_scalar results "Huso" (CInt z) ;;;
             ret (df_out, results, n_valid, n_drop)
       end
     else raise (ValueError ("Unknown mode: " ++ mode))) ;;
  let '(df_out_f, results, n_valid_f, n_drop_f) := branch in
  r1 <- read results ;;
  set_col results "X_ETRS89" (map (round_cell round_decimals) (col_get r1 "X_ETRS89")) ;;;
  r2 <- read results ;;
  set_col results "Y_ETRS89" (map (round_cell round_decimals) (col_get r2 "Y_ETRS89")) ;;;
  o <- read df_out_f ;;
  r3 <- read results ;;
  ret (concat_cols (reset_index o) (reset_index r3), n_valid_f, n_drop_f).

(* ------------------------------------------------------------------ *)
(** ** The earlier [convert_dataframe] of [src/converter.py] *)

(** [Transformer.from_crs(input_epsg, epsg, always_xy=True)] called
    directly, without the cache. *)
Definition legacy_from_crs (input_epsg output_epsg : string) : M Handle :=
  fun s =>
    let s1 := mkSt (heap s) (cache s) (trace s ++ [EFromCrs input_epsg output_epsg])%list in
    match from_crs input_epsg output_epsg with
    | inl msg => (inl (ProjError msg), s1)
    | inr h => (inr h, s1)
    end.

(** [try m except Exception]: every exception is caught. *)
Definition catch_all {A} (m : M A) : M (exn + A) :=
  fun s => match m s with
           | (inl e, s') => (inr (inl e), s')
           | (inr a, s') => (inr (inr a), s')
           end.

(** [df[name]]: pandas raises [KeyError(name)] for a missing column. *)
Definition get_col (l : loc) (name : string) : M (list cell) :=
  f <- read l ;;
  if mem_str name (col_names f) then ret (col_get f name)
  else raise (KeyError name).

(** [if zone < 29: zone = 29] then [if zone > 31: zone = 31]. *)
Definition legacy_zone (zone : Z) : Z :=
  let zone := if zone <? 29 then 29 else zone in
  if zone >? 31 then 31 else zone.

(** The lists [xs, ys, epsgs, husos] of the per-row loop. *)
Record LegacyAcc : Type := mkLAcc {
  l_xs : list pf;
  l_ys : list pf;
  l_epsgs : list cell;
  l_husos : list Z
}.

(** One iteration of [for lon, lat, zone in zip(lon_v, lat_v, zones)];
    [transformer.transform(lon, lat)] on one point. *)
Definition legacy_row (input_epsg : string) (acc : LegacyAcc) (r : pf * pf * Z)
  : M LegacyAcc :=
  let '(lon, lat, zone) := r in
  let zone := legacy_zone zone in
  let epsg := epsg_of zone in
  res <- catch_all (t <- legacy_from_crs input_epsg epsg ;;
                    transform input_epsg epsg t [lon] [lat]) ;;
  let '(x, y) := match res with
                 | inr (xs, ys) => (hd PNaN xs, hd PNaN ys)
                 | inl _ => (PNaN, PNaN)
                 end in
  ret (mkLAcc (l_xs acc ++ [x]) (l_ys acc ++ [y])
              (l_epsgs acc ++ [CStr epsg]) (l_husos acc ++ [zone]))%list.

Fixpoint legacy_auto_loop (input_epsg : string) (acc : LegacyAcc) (rows : list (pf * pf * Z))
  : M LegacyAcc :=
  match rows with
  | [] => ret acc
  | r :: rows' =>
      acc' <- legacy_row input_epsg acc r ;;
      legacy_auto_loop input_epsg acc' rows'
  end.

Definition legacy_convert_dataframe (df : loc) (lat_col lon_col mode : string)
  (fixed_zone : option Z) (use_decimal_comma : bool) (input_epsg : string)
  : M (Frame * Z * Z) :=
  f <- read df ;;
  df2 <- alloc f ;;
  lat_c <- get_col df2 lat_col ;;
  let lat_s := to_float_series use_decimal_comma lat_c in
  lon_c <- get_col df2 lon_col ;;
  let lon_s := to_float_series use_decimal_comma lon_c in
  f2 <- read df2 ;;
  let valid := valid_mask lat_s lon_s in
  let n_all := Z.of_nat (List.length (f_index f2)) in
  let n_valid := count_true valid in
  let n_drop := n_all - n_valid in
  if n_valid =? 0 then
    raise (ValueError "No valid rows with latitudes/longitudes in range.")
  else
  df_out <- alloc (loc_mask f2 valid) ;;
  let lat_v := filter_mask lat_s valid in
  let lon_v := filter_mask lon_s valid in
  o <- read df_out ;;
  results <- alloc (mkFrame (f_index o) []) ;;
  (if String.eqb mode "force_31n" then
     t <- legacy_from_crs input_epsg "EPSG:25831" ;;
     xy <- transform input_epsg "EPSG:25831" t lon_v lat_v ;;
     set_col results "X_ETRS89" (map CNum (fst xy)) ;;;
     set_col results "Y_ETRS89" (map CNum (snd xy)) ;;;
     set_scalar results "EPSG_destino" (CStr "EPSG:25831") ;;;
     set_scalar results "Huso" (CInt 31)
   else if String.eqb mode "auto" then
     let zones := map raw_zone lon_v in
     acc <- legacy_auto_loop input_epsg (mkLAcc [] [] [] [])
              (combine (combine lon_v lat_v) zones) ;;
     set_col results "X_ETRS89" (map CNum (l_xs acc)) ;;;
     set_col results "Y_ETRS89" (map CNum (l_ys acc)) ;;;
     set_col results "EPSG_destino" (l_epsgs acc) ;;;
     set_col results "Huso" (map CInt (l_husos acc))
   else if String.eqb mode "fixed" then
     match fixed_zone with
     | None => raise (ValueError "fixed_zone must be provided when mode='fixed'")
     | Some z =>
         let epsg := epsg_of z in
         t <- legacy_from_crs input_epsg epsg ;;
         xy <- transform input_epsg epsg t lon_v lat_v ;;
         set_col results "X_ETRS89" (map CNum (fst xy)) ;;;
         set_col results "Y_ETRS89" (map CNum (snd xy)) ;;;
         set_scalar results "EPSG_destino" (CStr epsg) ;;;
         set_scalar results "Huso" (CInt z)
     end
   else raise (ValueError ("Unknown mode: " ++ mode))) ;;;
  r1 <- read results ;;
  set_col results "X_ETRS89" (map (round_cell 3) (col_get r1 "X_ETRS89")) ;;;
  r2 <- read results ;;
  set_col results "Y_ETRS89" (map (round_cell 3) (col_get r2 "Y_ETRS89")) ;;;
  o' <- read df_out ;;
  r3 <- read results ;;
  ret (concat_cols (reset_index o') (reset_index r3), n_valid, n_drop).

(* ------------------------------------------------------------------ *)
(** ** Reasoning vocabulary *)

(** Weakest precondition: the normal outcome satisfies [Q], a raised
    exception satisfies [E]. *)
Definition wp {A} (m : M A) (Q : A -> St -> Prop) (E : exn -> St -> Prop)
  (s : St) : Prop :=
  match m s with
  | (inr a, s') => Q a s'
  | (inl e, s') => E e s'
  end.

(** A computation that leaves every Python object as it is. *)
Definition heap_pure {A} (m : M A) : Prop :=
  forall s, heap (snd (m s)) = heap s.

(** Every entry of the [lru_cache] is what [from_crs] returns for its key:
    true of the empty cache, and kept by [_get_transformer]. *)
Definition coherent (s : St) : Prop :=
  forall k h, cache_lookup k (cache s) = Some h -> from_crs (fst k) (snd k) = inr h.

(** A well-formed DataFrame: every column is as long as the index. *)
Definition wf_frame (f : Frame) : Prop :=
  Forall (fun nc => List.length (snd nc) = List.length (f_index f)) (f_cols f).

(** [valid] of lines 68-71, computed from the input frame. *)
Definition valid_rows (f : Frame) (lat_col lon_col : string) (dc : bool) : list bool :=
  valid_mask (to_float_series dc (col_get f lat_col))
             (to_float_series dc (col_get f lon_col)).

Definition lat_valid (f : Frame) (lat_col lon_col : string) (dc : bool) : list pf :=
  filter_mask (to_float_series dc (col_get f lat_col)) (valid_rows f lat_col lon_col dc).

Definition lon_valid (f : Frame) (lat_col lon_col : string) (dc : bool) : list pf :=
  filter_mask (to_float_series dc (col_get f lon_col)) (valid_rows f lat_col lon_col dc).

Definition memZ (z : Z) (l : list Z) : bool := existsb (Z.eqb z) l.

(** What the [try] block of the loop yields for the zone group [z] when
    the cache agrees with [from_crs]: the failing message, or the handle. *)
Definition group_outcome (input_epsg : string) (zones : list Z) (lon_v lat_v : list pf)
  (z : Z) : string + Handle :=
  let mask := map (Z.eqb z) zones in
  match from_crs input_epsg (epsg_of z) with
  | inl msg => inl msg
  | inr h =>
      match transform_fails h (filter_mask lon_v mask) (filter_mask lat_v mask) with
      | Some msg => inl msg
      | None => inr h
      end
  end.

Definition is_inl {A B} (x : A + B) : bool := match x with inl _ => true | inr _ => false end.

(** [last_error] after the groups [P] were tried, in order. *)
Definition last_error (input_epsg : string) (zones : list Z) (lon_v lat_v : list pf)
  (P : list Z) : option string :=
  fold_left (fun acc z => match group_outcome input_epsg zones lon_v lat_v z with
                          | inl m => Some m
                          | inr _ => acc
                          end) P None.

(** The loop arrays after the groups [P] were tried, row by row; a row is
    [(zone, (lon, lat))]. *)
Definition row_entry (input_epsg : string) (zones : list Z) (lon_v lat_v : list pf)
  (P : list Z) (r : Z * (pf * pf)) : pf * pf * cell * bool :=
  let z := fst r in
  if memZ z P then
    match group_outcome input_epsg zones lon_v lat_v z with
    | inr h => let xy := transform_point h (fst (snd r)) (snd (snd r)) in
               (fst xy, snd xy, CStr (epsg_of z), false)
    | inl _ => (PNaN, PNaN, CNone, true)
    end
  else (PNaN, PNaN, CNone, false).

Definition expected_acc (input_epsg : string) (zones : list Z) (lon_v lat_v : list pf)
  (P : list Z) : AutoAcc :=
  let es := map (row_entry input_epsg zones lon_v lat_v P)
                (combine zones (combine lon_v lat_v)) in
  mkAcc (map (fun e => fst (fst (fst e))) es) (map (fun e => snd (fst (fst e))) es)
        (map (fun e => snd (fst e)) es) (map snd es)
        (last_error input_epsg zones lon_v lat_v P).

(** The rows of [auto] mode after the range filter, as
    [(zone, (lon, lat))]. *)
Definition auto_rows (f : Frame) (lat_col lon_col : string) (dc : bool)
  : list (Z * (pf * pf)) :=
  let lon_v := lon_valid f lat_col lon_col dc in
  combine (map auto_zone lon_v) (combine lon_v (lat_valid f lat_col lon_col dc)).

(** The outcome of the [try] block for the zone group [z] in [auto] mode. *)
Definition auto_outcome (input_epsg : string) (f : Frame) (lat_col lon_col : string)
  (dc : bool) (z : Z) : string + Handle :=
  let lon_v := lon_valid f lat_col lon_col dc in
  group_outcome input_epsg (map auto_zone lon_v) lon_v (lat_valid f lat_col lon_col dc) z.

(** [failed] at the end of the loop: the rows whose zone group failed. *)
Definition auto_failed (input_epsg : string) (f : Frame) (lat_col lon_col : string)
  (dc : bool) : list bool :=
  map (fun r => is_inl (auto_outcome input_epsg f lat_col lon_col dc (fst r)))
      (auto_rows f lat_col lon_col dc).

(** The rows that stay in the output. *)
Definition auto_kept (input_epsg : string) (f : Frame) (lat_col lon_col : string)
  (dc : bool) : list (Z * (pf * pf)) :=
  filter (fun r => negb (is_inl (auto_outcome input_epsg f lat_col lon_col dc (fst r))))
         (auto_rows f lat_col lon_col dc).

(** The projected coordinates of a row whose group succeeded. *)
Definition auto_xy (input_epsg : string) (f : Frame) (lat_col lon_col : string)
  (dc : bool) (r : Z * (pf * pf)) : pf * pf :=
  match auto_outcome input_epsg f lat_col lon_col dc (fst r) with
  | inr h => transform_point h (fst (snd r)) (snd (snd r))
  | inl _ => (PNaN, PNaN)
  end.

(** The last message stored in [last_error] by the loop. *)
Definition auto_last_error (input_epsg : string) (f : Frame) (lat_col lon_col : string)
  (dc : bool) : option string :=
  let lon_v := lon_valid f lat_col lon_col dc in
  let zones := map auto_zone lon_v in
  last_error input_epsg zones lon_v (lat_valid f lat_col lon_col dc) (unique_sorted zones).

(** The table returned by [auto] mode: the input rows that passed the
    range filter and whose zone group succeeded, then the four result
    columns (coordinates rounded to [d] decimals). *)
Definition auto_out (input_epsg : string) (f : Frame) (lat_col lon_col : string)
  (dc : bool) (d : Z) : Frame :=
  let V := valid_rows f lat_col lon_col dc in
  let keep := negb_mask (auto_failed input_epsg f lat_col lon_col dc) in
  let kept := auto_kept input_epsg f lat_col lon_col dc in
  concat_cols
    (reset_index (loc_mask (loc_mask f V) keep))
    (reset_index
       (mkFrame (filter_mask (filter_mask (f_index f) V) keep)
          [("X_ETRS89", map (fun r => CNum (round_pf d (fst (auto_xy input_epsg f lat_col lon_col dc r)))) kept);
           ("Y_ETRS89", map (fun r => CNum (round_pf d (snd (auto_xy input_epsg f lat_col lon_col dc r)))) kept);
           ("EPSG_destino", map (fun r => CStr (epsg_of (fst r))) kept);
           ("Huso", map (fun r => CInt (fst r)) kept)])).

(** The table returned by the single-zone modes ([force_31n], and
    [fixed] with an accepted zone) with the handle [h] for [EPSG:258zz]:
    the input rows that passed the range filter, then the four result
    columns (coordinates rounded to [d] decimals). *)
Definition single_out (f : Frame) (lat_col lon_col : string) (dc : bool) (d : Z)
  (z : Z) (h : Handle) : Frame :=
  let V := valid_rows f lat_col lon_col dc in
  let xy := map (fun p => transform_point h (fst p) (snd p))
                (combine (lon_valid f lat_col lon_col dc) (lat_valid f lat_col lon_col dc)) in
  let n := List.length (filter_mask (f_index f) V) in
  concat_cols
    (reset_index (loc_mask f V))
    (reset_index
       (mkFrame (filter_mask (f_index f) V)
          [("X_ETRS89", map (fun p => CNum (round_pf d (fst p))) xy);
           ("Y_ETRS89", map (fun p => CNum (round_pf d (snd p))) xy);
           ("EPSG_destino", repeat (CStr (epsg_of z)) n);
           ("Huso", repeat (CInt z) n)])).

(** The names of the four columns the call appends. *)
Definition result_names : list string := ["X_ETRS89"; "Y_ETRS89"; "EPSG_destino"; "Huso"].

(** From [s] to [s']: every cached transformer is still cached, under
    the same key, and the pyproj calls made in between never include
    [Transformer.from_crs] for a pair that was cached in [s]. *)
Definition grows (s s' : St) : Prop :=
  (forall k h, cache_lookup k (cache s) = Some h -> cache_lookup k (cache s') = Some h) /\
  exists new, trace s' = (trace s ++ new)%list /\
    forall i o, cache_lookup (i, o) (cache s) <> None -> ~ In (EFromCrs i o) new.

Definition mono {A} (m : M A) : Prop := forall s, grows s (snd (m s)).

(** The rows of the legacy [auto] loop: longitude, latitude and raw zone
    of every row that passed the range filter. *)
Definition legacy_rows (f : Frame) (lat_col lon_col : string) (dc : bool)
  : list (pf * pf * Z) :=
  combine (combine (lon_valid f lat_col lon_col dc) (lat_valid f lat_col lon_col dc))
          (map raw_zone (lon_valid f lat_col lon_col dc)).

(** The coordinates the legacy loop records for a row: NaN when
    [from_crs] or [transform] raises. *)
Definition legacy_row_xy (input_epsg : string) (r : pf * pf * Z) : pf * pf :=
  let '(lon, lat, zone) := r in
  match from_crs input_epsg (epsg_of (legacy_zone zone)) with
  | inl _ => (PNaN, PNaN)
  | inr h =>
      match transform_fails h [lon] [lat] with
      | Some _ => (PNaN, PNaN)
      | None => transform_point h lon lat
      end
  end.

(** The table returned by the legacy [auto] mode: every row that passed
    the range filter, with its own zone and CRS. *)
Definition legacy_auto_out (input_epsg : string) (f : Frame) (lat_col lon_col : string)
  (dc : bool) : Frame :=
  let V := valid_rows f lat_col lon_col dc in
  let rows := legacy_rows f lat_col lon_col dc in
  let xy := map (legacy_row_xy input_epsg) rows in
  let zs := map (fun r => legacy_zone (snd r)) rows in
  concat_cols
    (reset_index (loc_mask f V))
    (reset_index
       (mkFrame (filter_mask (f_index f) V)
          [("X_ETRS89", map (fun p => CNum (round_pf 3 (fst p))) xy);
           ("Y_ETRS89", map (fun p => CNum (round_pf 3 (snd p))) xy);
           ("EPSG_destino", map (fun z => CStr (epsg_of z)) zs);
           ("Huso", map CInt zs)])).

(** The pyproj calls of one iteration of the legacy loop:
    [Transformer.from_crs], then [transform] when that succeeded. *)
Definition legacy_row_events (input_epsg : string) (r : pf * pf * Z) : list event :=
  let '(lon, lat, zone) := r in
  let epsg := epsg_of (legacy_zone zone) in
  EFromCrs input_epsg epsg ::
    match from_crs input_epsg epsg with
    | inl _ => []
    | inr _ => [ETransform input_epsg epsg 1]
    end.

(** The CRS pairs passed to [Transformer.from_crs], in call order. *)
Fixpoint from_crs_calls (t : list event) : list (string * string) :=
  match t with
  | [] => []
  | EFromCrs i o :: t' => (i, o) :: from_crs_calls t'
  | _ :: t' => from_crs_calls t'
  end.

(** The objects of [h0] are still there, unchanged, in [h1]. *)
Definition hkeep (h0 h1 : list Frame) : Prop :=
  (List.length h0 <= List.length h1)%nat /\
  forall l, (l < List.length h0)%nat -> nth_error h1 l = nth_error h0 l.

(* ------------------------------------------------------------------ *)
(** ** Rules of the weakest precondition *)

Lemma wp_bind {A B} (m : M A) (k : A -> M B) Q E s :
  wp m (fun a => wp (k a) Q E) E s -> wp (bind m k) Q E s.
Proof. unfold wp, bind. destruct (m s) as [[e|a] s']; auto. Qed.

Lemma wp_ret {A} (a : A) Q E s : Q a s -> wp (ret a) Q E s.
Proof. exact (fun H => H). Qed.

Lemma wp_raise {A} (e : exn) (Q : A -> St -> Prop) E s : E e s -> wp (raise e) Q E s.
Proof. exact (fun H => H). Qed.

Lemma wp_read l (Q : Frame -> St -> Prop) E s :
  (forall f, nth_error (heap s) l = Some f -> Q f s) ->
  (nth_error (heap s) l = None -> E (KeyError "dangling object") s) ->
  wp (read l) Q E s.
Proof. unfold wp, read. destruct (nth_error (heap s) l); auto. Qed.

Lemma wp_alloc f (Q : loc -> St -> Prop) E s :
  Q (List.length (heap s)) (mkSt (heap s ++ [f])%list (cache s) (trace s)) ->
  wp (alloc f) Q E s.
Proof. exact (fun H => H). Qed.

Lemma wp_write l f (Q : unit -> St -> Prop) E s :
  Q tt (mkSt (update_nth (heap s) l f) (cache s) (trace s)) -> wp (write l f) Q E s.
Proof. exact (fun H => H). Qed.

Lemma wp_conseq {A} (m : M A) (Q Q' : A -> St -> Prop) (E E' : exn -> St -> Prop) s :
  (forall a s', Q a s' -> Q' a s') -> (forall e s', E e s' -> E' e s') ->
  wp m Q E s -> wp m Q' E' s.
Proof. unfold wp. destruct (m s) as [[e|a] s']; auto. Qed.

Lemma wp_if {A} (b : bool) (m1 m2 : M A) Q E s :
  (b = true -> wp m1 Q E s) -> (b = false -> wp m2 Q E s) ->
  wp (if b then m1 else m2) Q E s.
Proof. destruct b; auto. Qed.

(** Computations that touch no object. *)
Lemma hp_ret {A} (a : A) : heap_pure (ret a).
Proof. intro s. reflexivity. Qed.

Lemma hp_raise {A} e : heap_pure (@raise A e).
Proof. intro s. reflexivity. Qed.

Lemma hp_bind {A B} (m : M A) (k : A -> M B) :
  heap_pure m -> (forall a, heap_pure (k a)) -> heap_pure (bind m k).
Proof.
  intros Hm Hk s. unfold bind. specialize (Hm s).
  destruct (m s) as [[e|a] s'] eqn:Es; simpl in *; auto.
  rewrite Hk. exact Hm.
Qed.

Lemma hp_log ev : heap_pure (log ev).
Proof. intro s. reflexivity. Qed.

Lemma hp_get_transformer i o : heap_pure (get_transformer i o).
Proof.
  intro s. unfold get_transformer.
  destruct (cache_lookup _ _); [reflexivity|].
  destruct (from_crs i o); reflexivity.
Qed.

Lemma hp_transform src dst h lons lats : heap_pure (transform src dst h lons lats).
Proof.
  apply hp_bind; [apply hp_log|]. intros _.
  destruct (transform_fails h lons lats); [apply hp_raise | apply hp_ret].
Qed.

Lemma hp_catch_proj {A} (m : M A) : heap_pure m -> heap_pure (catch_proj m).
Proof.
  intros Hm s. specialize (Hm s). unfold catch_proj.
  destruct (m s) as [[[]|a] s']; exact Hm.
Qed.

Lemma hp_massign {A} (arr : list A) m vals : heap_pure (massign arr m vals).
Proof. unfold massign. destruct (assign_mask arr m vals); intro s; reflexivity. Qed.

Lemma hp_auto_step ie zones lon_v lat_v acc z :
  heap_pure (auto_step ie zones lon_v lat_v acc z).
Proof.
  unfold auto_step. apply hp_bind.
  - apply hp_catch_proj. apply hp_bind; [apply hp_get_transformer|].
    intros. apply hp_transform.
  - intros [msg|[x y]]; [apply hp_ret|].
    apply hp_bind; [apply hp_massign|]. intros.
    apply hp_bind; [apply hp_massign|]. intros. apply hp_ret.
Qed.

Lemma hp_auto_loop ie zones lon_v lat_v zs :
  forall acc, heap_pure (auto_loop ie zones lon_v lat_v zs acc).
Proof.
  induction zs as [|z zs IH]; intro acc; simpl.
  - apply hp_ret.
  - apply hp_bind; [apply hp_auto_step | intro; apply IH].
Qed.

Lemma wp_heap_pure {A} (m : M A) Q E s :
  heap_pure m ->
  (forall a s', heap s' = heap s -> Q a s') ->
  (forall e s', heap s' = heap s -> E e s') ->
  wp m Q E s.
Proof.
  intros Hp HQ HE. specialize (Hp s). unfold wp.
  destruct (m s) as [[e|a] s']; simpl in Hp; auto.
Qed.

(* ------------------------------------------------------------------ *)
(** ** Heap lemmas *)

Lemma nth_error_snoc {A} (l : list A) x : nth_error (l ++ [x])%list (List.length l) = Some x.
Proof. rewrite nth_error_app2 by lia. rewrite Nat.sub_diag. reflexivity. Qed.

Lemma nth_error_snoc_lt {A} (l : list A) x n :
  (n < List.length l)%nat -> nth_error (l ++ [x])%list n = nth_error l n.
Proof. intro. apply nth_error_app1. exact H. Qed.

Lemma update_nth_length {A} (l : list A) n x : List.length (update_nth l n x) = List.length l.
Proof. revert n; induction l; intros [|n]; simpl; auto. Qed.

Lemma nth_error_update_same {A} (l : list A) n x :
  (n < List.length l)%nat -> nth_error (update_nth l n x) n = Some x.
Proof.
  revert n; induction l; intros [|n] H; simpl in *; try lia; auto.
  apply IHl. lia.
Qed.

Lemma nth_error_update_other {A} (l : list A) n m x :
  n <> m -> nth_error (update_nth l n x) m = nth_error l m.
Proof.
  revert n m; induction l as [|a l IH]; intros [|n] [|m] H; simpl;
    try reflexivity; try congruence.
  apply IH. congruence.
Qed.

Lemma hkeep_refl h : hkeep h h.
Proof. split; auto. Qed.

Lemma hkeep_len h0 h1 : hkeep h0 h1 -> (List.length h0 <= List.length h1)%nat.
Proof. intros [H _]. exact H. Qed.

Lemma hkeep_snoc h0 h1 x : hkeep h0 h1 -> hkeep h0 (h1 ++ [x])%list.
Proof.
  intros [Hl Hn]. split.
  - rewrite length_app. simpl. lia.
  - intros l Hlt. rewrite nth_error_snoc_lt by lia. auto.
Qed.

Lemma hkeep_update h0 h1 n x :
  hkeep h0 h1 -> (List.length h0 <= n)%nat -> hkeep h0 (update_nth h1 n x).
Proof.
  intros [Hl Hn] Hle. split.
  - rewrite update_nth_length. exact Hl.
  - intros l Hlt. rewrite nth_error_update_other by lia. auto.
Qed.

Ltac solve_hkeep :=
  repeat match goal with H : heap ?s = _ |- context [heap ?s] => rewrite H end;
  repeat first
    [ apply hkeep_refl
    | apply hkeep_snoc
    | apply hkeep_update; [| try (etransitivity; [apply hkeep_len | ]) ]
    | assumption
    | lia ].

Lemma wp_get_transformer_any i o (Q : Handle -> St -> Prop) E s :
  (forall h s', heap s' = heap s -> Q h s') ->
  (forall e s', heap s' = heap s -> E e s') ->
  wp (get_transformer i o) Q E s.
Proof. apply wp_heap_pure, hp_get_transformer. Qed.

Lemma wp_transform_any src dst h lons lats (Q : list pf * list pf -> St -> Prop) E s :
  (forall a s', heap s' = heap s -> Q a s') ->
  (forall e s', heap s' = heap s -> E e s') ->
  wp (transform src dst h lons lats) Q E s.
Proof. apply wp_heap_pure, hp_transform. Qed.

Lemma wp_auto_loop_any ie zones lon_v lat_v zs acc (Q : AutoAcc -> St -> Prop) E s :
  (forall a s', heap s' = heap s -> Q a s') ->
  (forall e s', heap s' = heap s -> E e s') ->
  wp (auto_loop ie zones lon_v lat_v zs acc) Q E s.
Proof. apply wp_heap_pure, hp_auto_loop. Qed.

(** One step of symbolic execution through the monadic program. *)
Ltac wp_step :=
  match goal with
  | |- wp (bind _ _) _ _ _ => apply wp_bind
  | |- wp (ret _) _ _ _ => apply wp_ret
  | |- wp (raise _) _ _ _ => apply wp_raise
  | |- wp (read _) _ _ _ => apply wp_read; [intros ? ?| intros ?]
  | |- wp (alloc _) _ _ _ => apply wp_alloc
  | |- wp (write _ _) _ _ _ => apply wp_write
  | |- wp (set_col _ _ _) _ _ _ => unfold set_col
  | |- wp (set_scalar _ _ _) _ _ _ => unfold set_scalar
  | |- wp (auto_results _ _ _ _ _) _ _ _ => unfold auto_results
  | |- wp (if _ then _ else _) _ _ _ => apply wp_if; intro
  | |- wp (get_transformer _ _) _ _ _ =>
      apply wp_get_transformer_any; intros ? ? ?
  | |- wp (transform _ _ _ _ _) _ _ _ =>
      apply wp_transform_any; intros ? ? ?
  | |- wp (auto_loop _ _ _ _ _ _) _ _ _ =>
      apply wp_auto_loop_any; intros ? ? ?
  | |- wp (match ?x with _ => _ end) _ _ _ => destruct x eqn:?
  end.

(* ------------------------------------------------------------------ *)
(** ** Early exits *)

(** C9: a missing latitude or longitude column is reported by a
    [ValueError] naming the column, before the copy of the frame, any
    parsing or any call into pyproj: the state is left as it was. *)
Theorem missing_column_error s df f lat_col lon_col mode fz dc ie d :
  nth_error (heap s) df = Some f ->
  (mem_str lat_col (col_names f) = false ->
   convert_dataframe df lat_col lon_col mode fz dc ie d s
   = (inl (ValueError ("Column '" ++ lat_col ++ "' not found in DataFrame")), s)) /\
  (mem_str lat_col (col_names f) = true -> mem_str lon_col (col_names f) = false ->
   convert_dataframe df lat_col lon_col mode fz dc ie d s
   = (inl (ValueError ("Column '" ++ lon_col ++ "' not found in DataFrame")), s)).
Proof.
  intros Hf. split.
  - intros Hlat. unfold convert_dataframe, bind at 1, read at 1.
    rewrite Hf, Hlat. reflexivity.
  - intros Hlat Hlon. unfold convert_dataframe, bind at 1, read at 1.
    rewrite Hf, Hlat, Hlon. reflexivity.
Qed.

(** The run of the call on a table that lacks one of the two columns. *)
Lemma missing_column_run s df f lat_col lon_col mode fz dc ie d :
  nth_error (heap s) df = Some f ->
  (mem_str lat_col (col_names f) = false ->
   fst (convert_dataframe df lat_col lon_col mode fz dc ie d s)
   = inl (ValueError ("Column '" ++ lat_col ++ "' not found in DataFrame"))) /\
  (mem_str lat_col (col_names f) = true -> mem_str lon_col (col_names f) = false ->
   fst (convert_dataframe df lat_col lon_col mode fz dc ie d s)
   = inl (ValueError ("Column '" ++ lon_col ++ "' not found in DataFrame"))).
Proof.
  intros Hf. split.
  - intros Hlat. unfold convert_dataframe, bind at 1, read at 1.
    rewrite Hf, Hlat. reflexivity.
  - intros Hlat Hlon. unfold convert_dataframe, bind at 1, read at 1.
    rewrite Hf, Hlat, Hlon. reflexivity.
Qed.

(** The run of the call on a table where no row passes the range filter. *)
Lemma no_valid_rows_run s df f lat_col lon_col mode fz dc ie d :
  nth_error (heap s) df = Some f ->
  mem_str lat_col (col_names f) = true ->
  mem_str lon_col (col_names f) = true ->
  count_true (valid_rows f lat_col lon_col dc) = 0 ->
  let r := convert_dataframe df lat_col lon_col mode fz dc ie d s in
  fst r = inl (ValueError "No valid rows with latitudes/longitudes in range.") /\
  trace (snd r) = trace s /\ cache (snd r) = cache s.
Proof.
  intros Hf Hlat Hlon H0.
  assert (W : wp (convert_dataframe df lat_col lon_col mode fz dc ie d)
                 (fun _ _ => False)
                 (fun e s' => e = ValueError "No valid rows with latitudes/longitudes in range."
                              /\ trace s' = trace s /\ cache s' = cache s) s).
  { unfold convert_dataframe. apply wp_bind, wp_read; [|congruence].
    intros f' Hf'. rewrite Hf in Hf'. injection Hf' as <-.
    cbv beta. rewrite Hlat, Hlon. cbn [negb].
    apply wp_bind, wp_alloc. apply wp_bind, wp_read.
    2: { cbn [heap]. rewrite nth_error_snoc. discriminate. }
    intros f2 Hf2. cbn [heap] in Hf2. rewrite nth_error_snoc in Hf2.
    injection Hf2 as <-. cbv beta zeta.
    unfold valid_rows in H0. rewrite H0. cbn. auto. }
  unfold wp in W. cbv zeta.
  destruct (convert_dataframe df lat_col lon_col mode fz dc ie d s) as [[e|a] s'].
  - destruct W as (-> & ? & ?). auto.
  - contradiction.
Qed.

(** A call that returns had both columns and some row in range. *)
Lemma returns_inputs s df lat_col lon_col mode fz dc ie d a :
  fst (convert_dataframe df lat_col lon_col mode fz dc ie d s) = inr a ->
  exists f, nth_error (heap s) df = Some f /\
    mem_str lat_col (col_names f) = true /\ mem_str lon_col (col_names f) = true /\
    count_true (valid_rows f lat_col lon_col dc) <> 0.
Proof.
  intros H.
  destruct (nth_error (heap s) df) as [f|] eqn:Hf.
  2: { unfold convert_dataframe, bind at 1, read at 1 in H. rewrite Hf in H. discriminate. }
  exists f. split; [reflexivity|].
  destruct (mem_str lat_col (col_names f)) eqn:Hlat.
  2: { unfold convert_dataframe, bind at 1, read at 1 in H. rewrite Hf, Hlat in H. discriminate. }
  destruct (mem_str lon_col (col_names f)) eqn:Hlon.
  2: { unfold convert_dataframe, bind at 1, read at 1 in H. rewrite Hf, Hlat, Hlon in H.
       discriminate. }
  split; [reflexivity|split; [reflexivity|]]. intros H0.
  destruct (no_valid_rows_run s df f lat_col lon_col mode fz dc ie d Hf Hlat Hlon H0) as [E _].
  rewrite E in H. discriminate.
Qed.

(** C4: when no row survives the range filter the call raises the
    no-valid-rows [ValueError]; no transformer is built or used (the trace
    of pyproj calls and the cache are as before) and no frame is
    returned. *)
Theorem no_valid_rows_error s df f lat_col lon_col mode fz dc ie d :
  nth_error (heap s) df = Some f ->
  mem_str lat_col (col_names f) = true ->
  mem_str lon_col (col_names f) = true ->
  count_true (valid_rows f lat_col lon_col dc) = 0 ->
  let r := convert_dataframe df lat_col lon_col mode fz dc ie d s in
  fst r = inl (ValueError "No valid rows with latitudes/longitudes in range.") /\
  trace (snd r) = trace s /\ cache (snd r) = cache s.
Proof. exact (no_valid_rows_run s df f lat_col lon_col mode fz dc ie d). Qed.

(* ------------------------------------------------------------------ *)
(** ** Counters *)

(** C1: whenever the call returns, [n_valid + n_drop] is the number of
    rows of the input frame, in every mode (in [auto] mode after the rows
    of failed zone groups moved from [n_valid] to [n_drop]). *)
Theorem counters_sum s df f lat_col lon_col mode fz dc ie d out n_valid n_drop :
  nth_error (heap s) df = Some f ->
  fst (convert_dataframe df lat_col lon_col mode fz dc ie d s) = inr (out, n_valid, n_drop) ->
  n_valid + n_drop = Z.of_nat (List.length (f_index f)).
Proof.
  intros Hf Hres.
  assert (W : wp (convert_dataframe df lat_col lon_col mode fz dc ie d)
                 (fun r _ => snd (fst r) + snd r = Z.of_nat (List.length (f_index f)))
                 (fun _ _ => True) s).
  { unfold convert_dataframe. apply wp_bind, wp_read; [|auto].
    intros f' Hf'. rewrite Hf in Hf'. injection Hf' as <-. cbv beta.
    destruct (negb (mem_str lat_col (col_names f))); [apply wp_raise; auto|].
    destruct (negb (mem_str lon_col (col_names f))); [apply wp_raise; auto|].
    apply wp_bind, wp_alloc. apply wp_bind, wp_read.
    2: { cbn [heap]. rewrite nth_error_snoc. discriminate. }
    intros f2 Hf2. cbn [heap] in Hf2. rewrite nth_error_snoc in Hf2.
    injection Hf2 as <-. cbv beta zeta.
    apply wp_if; intro Hz; [apply wp_raise; auto|].
    apply wp_bind, wp_alloc. apply wp_bind.
    apply wp_conseq with
      (Q := fun b _ => snd (fst b) + snd b = Z.of_nat (List.length (f_index f)))
      (E := fun _ _ => True); [| auto |].
    - intros [[[o r] nv] nd] s' Heq. cbn beta iota.
      repeat (wp_step; cbv beta iota; cbn [fst snd heap cache trace] in *; auto).
    - repeat (wp_step; cbv beta iota zeta; cbn [fst snd heap cache trace] in *; auto); lia. }
  unfold wp in W. destruct (convert_dataframe df lat_col lon_col mode fz dc ie d s) as [[e|a] s'].
  - discriminate.
  - cbn in Hres. injection Hres as ->. exact W.
Qed.

(* ------------------------------------------------------------------ *)
(** ** Frame effect *)

(** C10: every object that exists before the call, the input DataFrame
    among them, is unchanged after it, whether the call returns or
    raises: all writes go to frames allocated by the call itself. *)
Theorem input_unchanged s df lat_col lon_col mode fz dc ie d l :
  (l < List.length (heap s))%nat ->
  nth_error (heap (snd (convert_dataframe df lat_col lon_col mode fz dc ie d s))) l
  = nth_error (heap s) l.
Proof.
  intros Hl.
  assert (W : wp (convert_dataframe df lat_col lon_col mode fz dc ie d)
                 (fun _ s' => hkeep (heap s) (heap s'))
                 (fun _ s' => hkeep (heap s) (heap s')) s).
  { unfold convert_dataframe. apply wp_bind, wp_read; [|intros; apply hkeep_refl].
    intros f Hf. cbv beta.
    destruct (negb (mem_str lat_col (col_names f))); [apply wp_raise, hkeep_refl|].
    destruct (negb (mem_str lon_col (col_names f))); [apply wp_raise, hkeep_refl|].
    apply wp_bind, wp_alloc. apply wp_bind, wp_read; [intros f2 Hf2|intros; solve_hkeep].
    cbv beta zeta. apply wp_if; intros; [apply wp_raise; solve_hkeep|].
    apply wp_bind, wp_alloc. apply wp_bind.
    apply wp_conseq with
      (Q := fun b s' => hkeep (heap s) (heap s') /\
                        (List.length (heap s) <= snd (fst (fst b)))%nat)
      (E := fun _ s' => hkeep (heap s) (heap s')); [| auto |].
    - intros [[[o r] nv] nd] s' [Hk Hr]. cbn beta iota.
      repeat (wp_step; cbv beta iota; cbn [fst snd heap cache trace] in *); solve_hkeep.
    - repeat (wp_step; cbv beta iota zeta; cbn [fst snd heap cache trace] in *);
        try split; solve_hkeep. }
  unfold wp in W.
  destruct (convert_dataframe df lat_col lon_col mode fz dc ie d s) as [[e|a] s'];
    apply W; exact Hl.
Qed.

(* ------------------------------------------------------------------ *)
(** ** Result columns of the single-zone modes *)

Ltac len_simpl :=
  repeat (rewrite ?length_app, ?update_nth_length; cbn [List.length]).

(** Resolve a read of the heap built during the run. *)
Ltac heap_simpl H :=
  repeat match type of H with
         | context [heap ?s] =>
             match goal with E : heap s = _ |- _ => rewrite E in H end
         end;
  repeat first
    [ rewrite nth_error_update_same in H by (len_simpl; lia)
    | rewrite nth_error_update_other in H by (len_simpl; lia)
    | rewrite nth_error_snoc in H
    | rewrite nth_error_snoc_lt in H by (len_simpl; lia) ];
  try match type of H with
      | nth_error ?h ?l = _ =>
          match goal with
          | H2 : nth_error h l = Some _ |- _ =>
              tryif constr_eq H2 H then fail else rewrite H2 in H
          end
      end;
  try (injection H as <-);
  try discriminate H.

Ltac run_step :=
  match goal with
  | |- wp (read _) _ _ _ =>
      let f := fresh "f" in let H := fresh "Hr" in
      apply wp_read;
      [intros f H; cbn [heap cache trace] in H; heap_simpl H
      | intros H; cbn [heap cache trace] in H; heap_simpl H]
  | |- wp (if _ then _ else _) _ _ _ =>
      let H := fresh "Hb" in
      apply wp_if; intro H; try (simpl in H; discriminate H)
  | |- _ => wp_step
  end; cbv beta iota zeta; cbn [fst snd heap cache trace] in *.

(** C8: in [force_31n] mode every row of a returned table carries zone 31
    and the CRS ["EPSG:25831"] in the appended columns, whatever its
    longitude. *)
Theorem force_31n_columns s df lat_col lon_col fz dc ie d out n_valid n_drop :
  fst (convert_dataframe df lat_col lon_col "force_31n" fz dc ie d s)
  = inr (out, n_valid, n_drop) ->
  exists cols_in xs ys,
    f_cols out = (cols_in ++
      [("X_ETRS89", xs); ("Y_ETRS89", ys);
       ("EPSG_destino", repeat (CStr "EPSG:25831") (List.length (f_index out)));
       ("Huso", repeat (CInt 31) (List.length (f_index out)))])%list.
Proof.
  intros Hres.
  assert (W : wp (convert_dataframe df lat_col lon_col "force_31n" fz dc ie d)
    (fun r _ => exists cols_in xs ys,
       f_cols (fst (fst r)) = (cols_in ++
        [("X_ETRS89", xs); ("Y_ETRS89", ys);
         ("EPSG_destino", repeat (CStr "EPSG:25831") (List.length (f_index (fst (fst r)))));
         ("Huso", repeat (CInt 31) (List.length (f_index (fst (fst r)))))])%list)
    (fun _ _ => True) s).
  { unfold convert_dataframe.
    repeat run_step; auto.
    cbn. rewrite length_map, length_seq. eexists _, _, _. reflexivity. }
  unfold wp in W.
  destruct (convert_dataframe df lat_col lon_col "force_31n" fz dc ie d s) as [[e|a] s'].
  - discriminate.
  - cbn in Hres. injection Hres as ->. exact W.
Qed.

(** C5 (amended): in [fixed] mode a missing or out-of-range [fixed_zone]
    always ends in a [ValueError]: the missing-column error when a column
    is missing, the no-valid-rows error when both columns exist but no row
    passes the range filter, and the invalid-parameter error otherwise.
    With a zone among 29, 30 and 31 every row of a returned table carries
    that zone and the CRS [EPSG:258zz]. *)
Theorem fixed_mode_zone s df f lat_col lon_col dc ie d :
  nth_error (heap s) df = Some f ->
  (forall fz, (fz = None \/ exists z, fz = Some z /\ ~ In z [29; 30; 31]) ->
     (exists msg, fst (convert_dataframe df lat_col lon_col "fixed" fz dc ie d s)
                  = inl (ValueError msg)) /\
     (mem_str lat_col (col_names f) = false ->
      fst (convert_dataframe df lat_col lon_col "fixed" fz dc ie d s)
      = inl (ValueError ("Column '" ++ lat_col ++ "' not found in DataFrame"))) /\
     (mem_str lat_col (col_names f) = true -> mem_str lon_col (col_names f) = false ->
      fst (convert_dataframe df lat_col lon_col "fixed" fz dc ie d s)
      = inl (ValueError ("Column '" ++ lon_col ++ "' not found in DataFrame"))) /\
     (mem_str lat_col (col_names f) = true -> mem_str lon_col (col_names f) = true ->
      count_true (valid_rows f lat_col lon_col dc) = 0 ->
      fst (convert_dataframe df lat_col lon_col "fixed" fz dc ie d s)
      = inl (ValueError "No valid rows with latitudes/longitudes in range.")) /\
     (mem_str lat_col (col_names f) = true -> mem_str lon_col (col_names f) = true ->
      count_true (valid_rows f lat_col lon_col dc) <> 0 ->
      fst (convert_dataframe df lat_col lon_col "fixed" fz dc ie d s)
      = inl (ValueError (match fz with
                         | None => "fixed_zone must be provided when mode='fixed'"
                         | Some _ => "fixed_zone must be one of 29, 30, or 31"
                         end)))) /\
  (forall z out n_valid n_drop, In z [29; 30; 31] ->
     fst (convert_dataframe df lat_col lon_col "fixed" (Some z) dc ie d s)
     = inr (out, n_valid, n_drop) ->
     exists cols_in xs ys,
       f_cols out = (cols_in ++
         [("X_ETRS89", xs); ("Y_ETRS89", ys);
          ("EPSG_destino", repeat (CStr (epsg_of z)) (List.length (f_index out)));
          ("Huso", repeat (CInt z) (List.length (f_index out)))])%list) /\
  map epsg_of [29; 30; 31] = ["EPSG:25829"; "EPSG:25830"; "EPSG:25831"].
Proof.
  intros Hf. split; [|split; [|reflexivity]].
  - intros fz Hfz.
    assert (Hbad : match fz with
                   | Some z => negb ((z =? 29) || (z =? 30) || (z =? 31)) = true
                   | None => True end).
    { destruct Hfz as [->|(z & -> & Hz)]; [exact I|].
      simpl in Hz.
      destruct (Z.eqb_spec z 29); [subst; tauto|].
      destruct (Z.eqb_spec z 30); [subst; tauto|].
      destruct (Z.eqb_spec z 31); [subst; tauto|]. reflexivity. }
    destruct (missing_column_run s df f lat_col lon_col "fixed" fz dc ie d Hf) as [M1 M2].
    split; [|split; [exact M1|split; [exact M2|split]]].
    2: { intros Hlat Hlon H0.
         exact (proj1 (no_valid_rows_run s df f lat_col lon_col "fixed" fz dc ie d
                         Hf Hlat Hlon H0)). }
    + assert (W : wp (convert_dataframe df lat_col lon_col "fixed" fz dc ie d)
                     (fun _ _ => False) (fun e _ => exists msg, e = ValueError msg) s).
      { unfold convert_dataframe.
        repeat run_step; try (eexists; reflexivity); try congruence.
        all: destruct fz as [z|]; repeat run_step; try (eexists; reflexivity);
             congruence. }
      unfold wp in W.
      destruct (convert_dataframe df lat_col lon_col "fixed" fz dc ie d s) as [[e|a] s'].
      * destruct W as [msg ->]. eexists. reflexivity.
      * contradiction.
    + intros Hlat Hlon Hn.
      assert (W : wp (convert_dataframe df lat_col lon_col "fixed" fz dc ie d)
                     (fun _ _ => False)
                     (fun e _ => e = ValueError (match fz with
                         | None => "fixed_zone must be provided when mode='fixed'"
                         | Some _ => "fixed_zone must be one of 29, 30, or 31"
                         end)) s).
      { unfold convert_dataframe.
        repeat run_step; try congruence.
        all: try (match goal with H : negb _ = true |- _ =>
                   rewrite ?Hlat, ?Hlon in H; discriminate H end).
        all: unfold valid_rows in Hn;
          try (match goal with H : (_ =? 0) = true |- _ =>
                 apply Z.eqb_eq in H; contradiction end).
        all: destruct fz as [z|]; repeat run_step; congruence. }
      unfold wp in W.
      destruct (convert_dataframe df lat_col lon_col "fixed" fz dc ie d s) as [[e|a] s'].
      * cbn. rewrite W. reflexivity.
      * contradiction.
  - intros z out n_valid n_drop Hz Hres.
    assert (W : wp (convert_dataframe df lat_col lon_col "fixed" (Some z) dc ie d)
      (fun r _ => exists cols_in xs ys,
         f_cols (fst (fst r)) = (cols_in ++
          [("X_ETRS89", xs); ("Y_ETRS89", ys);
           ("EPSG_destino", repeat (CStr (epsg_of z)) (List.length (f_index (fst (fst r)))));
           ("Huso", repeat (CInt z) (List.length (f_index (fst (fst r)))))])%list)
      (fun _ _ => True) s).
    { unfold convert_dataframe.
      repeat run_step; auto.
      cbn. rewrite length_map, length_seq. eexists _, _, _. reflexivity. }
    unfold wp in W.
    destruct (convert_dataframe df lat_col lon_col "fixed" (Some z) dc ie d s) as [[e|a] s'].
    + discriminate.
    + cbn in Hres. injection Hres as ->. exact W.
Qed.

(* ------------------------------------------------------------------ *)
(** ** List lemmas for masks and the loop arrays *)

Lemma filter_mask_map_rows {R A} (rows : list R) (h : R -> A) (p : R -> bool) :
  filter_mask (map h rows) (map p rows) = map h (filter p rows).
Proof.
  induction rows as [|r rows IH]; simpl; auto.
  destruct (p r); simpl; rewrite IH; reflexivity.
Qed.

Lemma assign_mask_rows {R A} (rows : list R) (fa g : R -> A) (p : R -> bool) :
  assign_mask (map fa rows) (map p rows) (map g (filter p rows))
  = Some (map (fun r => if p r then g r else fa r) rows).
Proof.
  induction rows as [|r rows IH]; simpl; auto.
  destruct (p r); simpl; rewrite IH; reflexivity.
Qed.

Lemma combine_map_same {R A B} (l : list R) (f : R -> A) (g : R -> B) :
  combine (map f l) (map g l) = map (fun x => (f x, g x)) l.
Proof. induction l; simpl; f_equal; auto. Qed.

Lemma map_fst_combine {A B} (l : list A) (l' : list B) :
  List.length l = List.length l' -> map fst (combine l l') = l.
Proof.
  revert l'; induction l as [|a l IH]; intros [|b l'] H; simpl in *; try lia; auto.
  f_equal. apply IH. lia.
Qed.

Lemma map_snd_combine {A B} (l : list A) (l' : list B) :
  List.length l = List.length l' -> map snd (combine l l') = l'.
Proof.
  revert l'; induction l as [|a l IH]; intros [|b l'] H; simpl in *; try lia; auto.
  f_equal. apply IH. lia.
Qed.

Lemma filter_mask_map_l {A B} (h : A -> B) (l : list A) (m : list bool) :
  filter_mask (map h l) m = map h (filter_mask l m).
Proof.
  revert m; induction l as [|a l IH]; intros [|b m]; simpl; auto.
  destruct b; simpl; rewrite IH; reflexivity.
Qed.

Lemma length_filter_mask {A} (l : list A) (m : list bool) :
  (List.length m <= List.length l)%nat ->
  List.length (filter_mask l m) = List.length (filter (fun b => b) m).
Proof.
  revert m; induction l as [|a l IH]; intros [|b m] H; simpl in *; try lia; auto.
  destruct b; simpl; rewrite IH by lia; reflexivity.
Qed.

Lemma filter_mask_all_true {A} (l : list A) :
  filter_mask l (repeat true (List.length l)) = l.
Proof. induction l; simpl; f_equal; auto. Qed.

Lemma map_const_repeat {A B} (c : B) (l : list A) :
  map (fun _ => c) l = repeat c (List.length l).
Proof. induction l; simpl; f_equal; auto. Qed.

Lemma memZ_app x P Q : memZ x (P ++ Q) = memZ x P || memZ x Q.
Proof. unfold memZ. apply existsb_app. Qed.

Lemma memZ_insert x z l : memZ x (insert_sorted z l) = (x =? z) || memZ x l.
Proof.
  induction l as [|y l IH]; simpl.
  - reflexivity.
  - destruct (z <? y); simpl; [reflexivity|].
    destruct (Z.eqb_spec z y) as [->|]; simpl.
    + destruct (x =? y); reflexivity.
    + rewrite IH. destruct (x =? z), (x =? y); reflexivity.
Qed.

Lemma memZ_unique x l : memZ x (unique_sorted l) = memZ x l.
Proof.
  induction l as [|z l IH]; simpl; auto.
  rewrite memZ_insert, IH. reflexivity.
Qed.

Lemma memZ_In x l : In x l -> memZ x l = true.
Proof.
  intro H. unfold memZ. apply existsb_exists. exists x. split; auto. apply Z.eqb_refl.
Qed.

Lemma count_negb (m : list bool) :
  (List.length (filter (fun b => b) m) + List.length (filter (fun b => b) (map negb m))
   = List.length m)%nat.
Proof. induction m as [|[] m IH]; simpl; lia. Qed.

Lemma negb_mask_no_true (m : list bool) :
  existsb (fun b => b) m = false -> negb_mask m = repeat true (List.length m).
Proof.
  induction m as [|b m IH]; simpl; auto.
  destruct b; simpl; [discriminate|]. intro H. f_equal. auto.
Qed.

(* ------------------------------------------------------------------ *)
(** ** The loop of [auto] mode *)

Lemma wp_catch_proj {A} (m : M A) Q E s :
  wp m (fun a => Q (inr a))
       (fun e s' => match e with ProjError msg => Q (inl msg) s' | _ => E e s' end) s ->
  wp (catch_proj m) Q E s.
Proof. unfold wp, catch_proj. destruct (m s) as [[[]|a] s']; auto. Qed.

Lemma wp_get_transformer_coh i o Q E s :
  coherent s ->
  (forall s', coherent s' -> heap s' = heap s ->
     match from_crs i o with
     | inr h => Q h s'
     | inl msg => E (ProjError msg) s'
     end) ->
  wp (get_transformer i o) Q E s.
Proof.
  intros Hc HQ. unfold wp, get_transformer.
  destruct (cache_lookup (i, o) (cache s)) as [h|] eqn:Hl.
  - specialize (HQ s Hc eq_refl). pose proof (Hc _ _ Hl) as Hfc. simpl in Hfc.
    rewrite Hfc in HQ. exact HQ.
  - destruct (from_crs i o) as [msg|h] eqn:Hfc.
    + specialize (HQ (mkSt (heap s) (cache s) (trace s ++ [EFromCrs i o])%list)).
      apply HQ; [exact Hc | reflexivity].
    + specialize (HQ (mkSt (heap s) (((i, o), h) :: cache s) (trace s ++ [EFromCrs i o])%list)).
      apply HQ; [|reflexivity].
      intros k h' Hk. simpl in Hk.
      destruct (String.eqb (fst k) i && String.eqb (snd k) o) eqn:Ek.
      * apply andb_true_iff in Ek as [E1 E2].
        apply String.eqb_eq in E1, E2. injection Hk as <-.
        rewrite E1, E2. exact Hfc.
      * exact (Hc k h' Hk).
Qed.

Lemma wp_transform src dst h lons lats Q E s :
  (forall s', heap s' = heap s -> cache s' = cache s ->
     match transform_fails h lons lats with
     | Some msg => E (ProjError msg) s'
     | None =>
         Q (map fst (map (fun p => transform_point h (fst p) (snd p)) (combine lons lats)),
            map snd (map (fun p => transform_point h (fst p) (snd p)) (combine lons lats))) s'
     end) ->
  wp (transform src dst h lons lats) Q E s.
Proof.
  intros H. unfold transform, wp, bind, log.
  specialize (H (mkSt (heap s) (cache s) (trace s ++ [ETransform src dst (List.length lons)])%list)
                eq_refl eq_refl).
  destruct (transform_fails h lons lats); exact H.
Qed.

Section Loop.

Variables (ie : string) (zones : list Z) (lon_v lat_v : list pf).
Hypothesis Hlen1 : List.length zones = List.length lon_v.
Hypothesis Hlen2 : List.length lon_v = List.length lat_v.

Local Abbreviation rows := (combine zones (combine lon_v lat_v)).
Local Abbreviation go := (group_outcome ie zones lon_v lat_v).

Lemma rows_zones : zones = map fst rows.
Proof.
  symmetry. apply map_fst_combine. rewrite length_combine. lia.
Qed.

Lemma rows_lon : lon_v = map (fun r => fst (snd r)) rows.
Proof.
  rewrite <- map_map, map_snd_combine by (rewrite length_combine; lia).
  symmetry. apply map_fst_combine. exact Hlen2.
Qed.

Lemma rows_lat : lat_v = map (fun r => snd (snd r)) rows.
Proof.
  rewrite <- map_map, map_snd_combine by (rewrite length_combine; lia).
  symmetry. apply map_snd_combine. exact Hlen2.
Qed.

Lemma mask_rows z : map (Z.eqb z) zones = map (fun r => z =? fst r) rows.
Proof. rewrite rows_zones at 1. apply map_map. Qed.

Lemma last_error_snoc P z :
  last_error ie zones lon_v lat_v (P ++ [z])
  = match go z with inl m => Some m | inr _ => last_error ie zones lon_v lat_v P end.
Proof. unfold last_error. rewrite fold_left_app. reflexivity. Qed.

Lemma row_entry_snoc_other P z r :
  (z =? fst r) = false ->
  row_entry ie zones lon_v lat_v (P ++ [z]) r = row_entry ie zones lon_v lat_v P r.
Proof.
  intros Hz. unfold row_entry. rewrite memZ_app. simpl.
  rewrite Z.eqb_sym, Hz. simpl. rewrite orb_false_r. reflexivity.
Qed.

Lemma row_entry_snoc_same P z r :
  (z =? fst r) = true ->
  row_entry ie zones lon_v lat_v (P ++ [z]) r
  = match go z with
    | inr h => let xy := transform_point h (fst (snd r)) (snd (snd r)) in
               (fst xy, snd xy, CStr (epsg_of z), false)
    | inl _ => (PNaN, PNaN, CNone, true)
    end.
Proof.
  intros Hz. apply Z.eqb_eq in Hz. subst z. unfold row_entry.
  rewrite memZ_app. simpl. rewrite Z.eqb_refl, orb_true_r. reflexivity.
Qed.

Lemma row_entry_failed_group P z r m :
  go z = inl m -> (z =? fst r) = true ->
  fst (fst (fst (row_entry ie zones lon_v lat_v P r))) = PNaN /\
  snd (fst (fst (row_entry ie zones lon_v lat_v P r))) = PNaN /\
  snd (fst (row_entry ie zones lon_v lat_v P r)) = CNone.
Proof.
  intros Hg Hz. apply Z.eqb_eq in Hz. subst z. unfold row_entry.
  rewrite Hg. destruct (memZ (fst r) P); auto.
Qed.

Lemma row_entry_ok_group P z r h :
  go z = inr h -> (z =? fst r) = true ->
  forall v : pf * pf * cell * bool,
  v = row_entry ie zones lon_v lat_v P r ->
  snd v = false.
Proof.
  intros Hg Hz v ->. apply Z.eqb_eq in Hz. subst z. unfold row_entry.
  rewrite Hg. destruct (memZ (fst r) P); reflexivity.
Qed.

Lemma auto_step_spec P z s :
  coherent s ->
  wp (auto_step ie zones lon_v lat_v (expected_acc ie zones lon_v lat_v P) z)
     (fun a s' => a = expected_acc ie zones lon_v lat_v (P ++ [z]) /\
                  coherent s' /\ heap s' = heap s)
     (fun _ _ => False) s.
Proof.
  intros Hc. unfold auto_step. cbv zeta.
  apply wp_bind, wp_catch_proj, wp_bind.
  apply wp_get_transformer_coh; [exact Hc|]. intros s1 Hc1 Hh1.
  unfold expected_acc.
  destruct (from_crs ie (epsg_of z)) as [msg|h] eqn:Hfc.
  - assert (Hg : go z = inl msg) by (unfold group_outcome; rewrite Hfc; reflexivity).
    apply wp_ret. cbn [a_xs a_ys a_epsgs a_failed a_last].
    split; [|auto].
    rewrite last_error_snoc, Hg, mask_rows, !map_map, combine_map_same, map_map.
    f_equal; apply map_ext; intros r; destruct (z =? fst r) eqn:Hz.
    all: try (rewrite row_entry_snoc_other by exact Hz; try rewrite orb_false_r; reflexivity).
    all: rewrite row_entry_snoc_same by exact Hz; rewrite Hg.
    all: try (destruct (row_entry_failed_group P z r msg Hg Hz) as (E1 & E2 & E3); assumption).
    cbn. apply orb_true_r.
  - apply wp_transform. intros s2 Hh2 Hcache2.
    destruct (transform_fails h (filter_mask lon_v (map (Z.eqb z) zones))
                (filter_mask lat_v (map (Z.eqb z) zones))) as [msg|] eqn:Htf.
    + assert (Hg : go z = inl msg)
        by (unfold group_outcome; rewrite Hfc; cbv zeta; rewrite Htf; reflexivity).
      apply wp_ret. cbn [a_xs a_ys a_epsgs a_failed a_last].
      split; [|split; [unfold coherent; rewrite Hcache2; exact Hc1 | congruence]].
      rewrite last_error_snoc, Hg, mask_rows, !map_map, combine_map_same, map_map.
      f_equal; apply map_ext; intros r; destruct (z =? fst r) eqn:Hz.
      all: try (rewrite row_entry_snoc_other by exact Hz; try rewrite orb_false_r; reflexivity).
      all: rewrite row_entry_snoc_same by exact Hz; rewrite Hg.
      all: try (destruct (row_entry_failed_group P z r msg Hg Hz) as (E1 & E2 & E3); assumption).
      cbn. apply orb_true_r.
    + assert (Hg : go z = inr h)
        by (unfold group_outcome; rewrite Hfc; cbv zeta; rewrite Htf; reflexivity).
      cbv beta iota. cbn [a_xs a_ys a_epsgs a_failed a_last].
      assert (Hlm : filter_mask lon_v (map (Z.eqb z) zones)
                    = map (fun r => fst (snd r)) (filter (fun r => z =? fst r) rows))
        by (rewrite mask_rows, rows_lon at 1; apply filter_mask_map_rows).
      assert (Hla : filter_mask lat_v (map (Z.eqb z) zones)
                    = map (fun r => snd (snd r)) (filter (fun r => z =? fst r) rows))
        by (rewrite mask_rows, rows_lat at 1; apply filter_mask_map_rows).
      rewrite Hlm, Hla, mask_rows, combine_map_same, !map_map.
      apply wp_bind. unfold massign. rewrite assign_mask_rows. apply wp_ret.
      apply wp_bind. unfold massign. rewrite assign_mask_rows. apply wp_ret.
      apply wp_ret.
      split; [|split; [unfold coherent; rewrite Hcache2; exact Hc1 | congruence]].
      rewrite last_error_snoc, Hg, combine_map_same, map_map.
      f_equal; apply map_ext; intros r; destruct (z =? fst r) eqn:Hz.
      all: try (rewrite row_entry_snoc_other by exact Hz; reflexivity).
      all: rewrite row_entry_snoc_same by exact Hz; rewrite Hg; try reflexivity.
      all: cbn; pose proof (row_entry_ok_group P z r h Hg Hz _ eq_refl); congruence.
Qed.

Lemma auto_loop_spec zs P s :
  coherent s ->
  wp (auto_loop ie zones lon_v lat_v zs (expected_acc ie zones lon_v lat_v P))
     (fun a s' => a = expected_acc ie zones lon_v lat_v (P ++ zs) /\
                  coherent s' /\ heap s' = heap s)
     (fun _ _ => False) s.
Proof.
  revert P s. induction zs as [|z zs IH]; intros P s Hc; simpl.
  - apply wp_ret. rewrite app_nil_r. auto.
  - apply wp_bind. eapply wp_conseq; [| |apply auto_step_spec; exact Hc]; [|auto].
    intros a s1 (-> & Hc1 & Hh1).
    eapply wp_conseq; [| |apply IH; exact Hc1]; [|auto].
    intros a' s2 (-> & Hc2 & Hh2). rewrite <- app_assoc. simpl.
    split; [reflexivity | split; [exact Hc2 | congruence]].
Qed.

Lemma expected_acc_nil :
  expected_acc ie zones lon_v lat_v []
  = mkAcc (repeat PNaN (List.length zones)) (repeat PNaN (List.length zones))
          (repeat CNone (List.length zones)) (repeat false (List.length zones)) None.
Proof.
  unfold expected_acc. rewrite !map_map. cbn [row_entry memZ existsb fst snd].
  unfold row_entry. cbn [memZ existsb].
  rewrite !map_const_repeat, length_combine, length_combine.
  replace (Nat.min (List.length zones) (Nat.min (List.length lon_v) (List.length lat_v)))
    with (List.length zones) by lia.
  reflexivity.
Qed.

Lemma expected_acc_all_failed :
  a_failed (expected_acc ie zones lon_v lat_v (unique_sorted zones))
  = map (fun z => is_inl (go z)) zones.
Proof.
  unfold expected_acc. cbn [a_failed]. rewrite map_map.
  assert (E : forall g : Z -> bool, map g zones = map (fun r => g (fst r)) rows)
    by (intro g; rewrite rows_zones at 1; apply map_map).
  rewrite E. apply map_ext_in.
  intros r Hr. unfold row_entry.
  rewrite memZ_unique, memZ_In by (rewrite rows_zones; apply in_map; exact Hr).
  destruct (go (fst r)); reflexivity.
Qed.

Lemma failed_rows :
  map (fun z => is_inl (go z)) zones = map (fun r => is_inl (go (fst r))) rows.
Proof. rewrite rows_zones at 1. apply map_map. Qed.

Lemma zones_keep :
  filter_mask zones (negb_mask (map (fun z => is_inl (go z)) zones))
  = map fst (filter (fun r => negb (is_inl (go (fst r)))) rows).
Proof.
  rewrite failed_rows. unfold negb_mask. rewrite map_map, rows_zones at 1.
  apply filter_mask_map_rows.
Qed.

Lemma entries_keep {A} (g : pf * pf * cell * bool -> A) (g' : Z * (pf * pf) -> A) :
  (forall r h, In r rows -> go (fst r) = inr h ->
     g (fst (transform_point h (fst (snd r)) (snd (snd r))),
        snd (transform_point h (fst (snd r)) (snd (snd r))),
        CStr (epsg_of (fst r)), false) = g' r) ->
  filter_mask (map g (map (row_entry ie zones lon_v lat_v (unique_sorted zones)) rows))
              (negb_mask (map (fun z => is_inl (go z)) zones))
  = map g' (filter (fun r => negb (is_inl (go (fst r)))) rows).
Proof.
  intros Hg. rewrite failed_rows. unfold negb_mask. rewrite !map_map.
  rewrite filter_mask_map_rows. apply map_ext_in. intros r Hr.
  apply filter_In in Hr as [Hr Hk].
  unfold row_entry.
  rewrite memZ_unique, memZ_In by (rewrite rows_zones; apply in_map; exact Hr).
  destruct (go (fst r)) as [m|h] eqn:Eg; [discriminate|]. apply Hg; assumption.
Qed.

Lemma lon_keep :
  filter_mask lon_v (negb_mask (map (fun z => is_inl (go z)) zones))
  = map (fun r => fst (snd r)) (filter (fun r => negb (is_inl (go (fst r)))) rows).
Proof.
  rewrite failed_rows. unfold negb_mask. rewrite map_map, rows_lon at 1.
  apply filter_mask_map_rows.
Qed.

Lemma length_rows : List.length rows = List.length zones.
Proof. rewrite !length_combine. lia. Qed.

End Loop.

(* ------------------------------------------------------------------ *)
(** ** A run of [auto] mode *)

Lemma col_get_length f name :
  wf_frame f -> mem_str name (col_names f) = true ->
  List.length (col_get f name) = List.length (f_index f).
Proof.
  unfold wf_frame, col_get, col_names. intros Hwf Hm.
  induction Hwf as [|[n c] cs Hc Hcs IH]; simpl in *; [discriminate|].
  destruct (String.eqb n name) eqn:E; [exact Hc|].
  apply IH. rewrite String.eqb_sym, E in Hm. exact Hm.
Qed.

Lemma length_valid_mask a b :
  List.length a = List.length b -> List.length (valid_mask a b) = List.length a.
Proof. intros H. unfold valid_mask. rewrite length_map, length_combine. lia. Qed.

Lemma length_filter_mask_eq {A} (l : list A) (m : list bool) :
  List.length l = List.length m ->
  List.length (filter_mask l m) = List.length (filter (fun b => b) m).
Proof. intros H. apply length_filter_mask. lia. Qed.

Lemma count_true_none (m : list bool) :
  existsb (fun b => b) m = false -> count_true m = 0.
Proof.
  unfold count_true. induction m as [|[] m IH]; simpl; auto. discriminate.
Qed.

Lemma filter_mask_repeat_true {A} (l : list A) n :
  List.length l = n -> filter_mask l (repeat true n) = l.
Proof. intros <-. apply filter_mask_all_true. Qed.

Lemma loc_mask_repeat_true F n :
  List.length (f_index F) = n ->
  Forall (fun nc => List.length (snd nc) = n) (f_cols F) ->
  loc_mask F (repeat true n) = F.
Proof.
  destruct F as [idx cols]. unfold loc_mask. cbn [f_index f_cols].
  intros Hi Hc. rewrite filter_mask_repeat_true by exact Hi. f_equal.
  induction Hc as [|[nm c] cols Hc1 Hcs IH]; cbn [map]; [reflexivity|].
  rewrite IH. cbn [fst snd] in *. rewrite filter_mask_repeat_true by exact Hc1.
  reflexivity.
Qed.

(** Equal lengths of the masked and mapped arrays of a run. *)
Ltac len_eq :=
  unfold negb_mask in *;
  repeat first
    [ rewrite length_map | rewrite repeat_length | rewrite length_combine
    | rewrite length_filter_mask_eq by len_eq ];
  lia.

Lemma auto_mode_run s df f lat_col lon_col fz dc ie d :
  nth_error (heap s) df = Some f -> wf_frame f -> coherent s ->
  mem_str lat_col (col_names f) = true -> mem_str lon_col (col_names f) = true ->
  count_true (valid_rows f lat_col lon_col dc) <> 0 ->
  let V := valid_rows f lat_col lon_col dc in
  let failed := auto_failed ie f lat_col lon_col dc in
  let keep := negb_mask failed in
  let kept := auto_kept ie f lat_col lon_col dc in
  fst (convert_dataframe df lat_col lon_col "auto" fz dc ie d s)
  = if count_true V - count_true failed =? 0 then
      inl (ValueError ("Coordinate transformation failed for all rows: "
                       ++ str_last (auto_last_error ie f lat_col lon_col dc)))
    else
      inr (auto_out ie f lat_col lon_col dc d,
           count_true V - count_true failed,
           Z.of_nat (List.length (f_index f)) - count_true V + count_true failed).
Proof.
  intros Hf Hwf Hc Hlat Hlon Hn V failed keep kept.
  match goal with |- _ = ?rhs => set (res := rhs) end.
  assert (W : wp (convert_dataframe df lat_col lon_col "auto" fz dc ie d)
                 (fun r _ => inr r = res) (fun e _ => inl e = res) s).
  { unfold convert_dataframe.
    repeat (lazymatch goal with |- wp (auto_loop _ _ _ _ _ _) _ _ _ => fail | _ => run_step end).
    all: try (match goal with H : negb _ = true |- _ =>
                rewrite ?Hlat, ?Hlon in H; discriminate H end).
    all: try (match goal with H : (_ =? 0) = true |- _ =>
                apply Z.eqb_eq in H; contradiction end).
    change (valid_mask (to_float_series dc (col_get f lat_col))
              (to_float_series dc (col_get f lon_col))) with V in *.
    change (filter_mask (to_float_series dc (col_get f lon_col)) V)
      with (lon_valid f lat_col lon_col dc) in *.
    change (filter_mask (to_float_series dc (col_get f lat_col)) V)
      with (lat_valid f lat_col lon_col dc) in *.
    assert (HV : List.length V = List.length (f_index f)).
    { unfold V, valid_rows. rewrite length_valid_mask; unfold to_float_series;
        rewrite ?length_map; apply col_get_length || (rewrite !col_get_length); auto. }
    assert (Llon : List.length (lon_valid f lat_col lon_col dc) = List.length (filter (fun b => b) V)).
    { apply length_filter_mask_eq. rewrite HV. unfold to_float_series.
      rewrite length_map. apply col_get_length; auto. }
    assert (Llat : List.length (lat_valid f lat_col lon_col dc) = List.length (filter (fun b => b) V)).
    { apply length_filter_mask_eq. rewrite HV. unfold to_float_series.
      rewrite length_map. apply col_get_length; auto. }
    set (lon_v := lon_valid f lat_col lon_col dc) in *.
    set (lat_v := lat_valid f lat_col lon_col dc) in *.
    set (zones := map auto_zone lon_v) in *.
    assert (L1 : List.length zones = List.length lon_v) by apply length_map.
    assert (L2 : List.length lon_v = List.length lat_v) by lia.
    rewrite <- (expected_acc_nil ie zones lon_v lat_v L1 L2).
    eapply wp_conseq;
      [| |apply (auto_loop_spec ie zones lon_v lat_v L1 L2); unfold coherent; cbn [cache]; exact Hc].
    2: intros; contradiction.
    intros a s1 (-> & Hc1 & Hh1). cbn [app] in *.
    rewrite (expected_acc_all_failed ie zones lon_v lat_v L1 L2).
    assert (Ef : failed = map (fun z => is_inl (group_outcome ie zones lon_v lat_v z)) zones).
    { unfold failed, auto_failed, auto_outcome, auto_rows.
      rewrite (failed_rows ie zones lon_v lat_v L1 L2). reflexivity. }
    rewrite <- Ef.
    assert (Lf : List.length failed = List.length zones) by (rewrite Ef; apply length_map).
    assert (Hok : forall (g : pf * pf * cell * bool -> cell) (g' : Z * (pf * pf) -> cell),
               (forall r h, group_outcome ie zones lon_v lat_v (fst r) = inr h ->
                  g (fst (transform_point h (fst (snd r)) (snd (snd r))),
                     snd (transform_point h (fst (snd r)) (snd (snd r))),
                     CStr (epsg_of (fst r)), false) = g' r) ->
               filter_mask (map g (map (row_entry ie zones lon_v lat_v (unique_sorted zones))
                                       (combine zones (combine lon_v lat_v))))
                           (negb_mask failed)
               = map g' kept).
    { intros g g' Hg. rewrite Ef.
      apply (entries_keep ie zones lon_v lat_v L1 L2). intros r h _. apply Hg. }
    assert (CX : map (round_cell d) (map CNum (filter_mask
                   (map (fun e : pf * pf * cell * bool => fst (fst (fst e)))
                      (map (row_entry ie zones lon_v lat_v (unique_sorted zones))
                           (combine zones (combine lon_v lat_v)))) (negb_mask failed)))
                 = map (fun r => CNum (round_pf d (fst (auto_xy ie f lat_col lon_col dc r)))) kept).
    { rewrite map_map, <- filter_mask_map_l, map_map. apply Hok.
      intros r h Hg. unfold auto_xy.
      change (auto_outcome ie f lat_col lon_col dc (fst r))
        with (group_outcome ie zones lon_v lat_v (fst r)).
      rewrite Hg. reflexivity. }
    assert (CY : map (round_cell d) (map CNum (filter_mask
                   (map (fun e : pf * pf * cell * bool => snd (fst (fst e)))
                      (map (row_entry ie zones lon_v lat_v (unique_sorted zones))
                           (combine zones (combine lon_v lat_v)))) (negb_mask failed)))
                 = map (fun r => CNum (round_pf d (snd (auto_xy ie f lat_col lon_col dc r)))) kept).
    { rewrite map_map, <- filter_mask_map_l, map_map. apply Hok.
      intros r h Hg. unfold auto_xy.
      change (auto_outcome ie f lat_col lon_col dc (fst r))
        with (group_outcome ie zones lon_v lat_v (fst r)).
      rewrite Hg. reflexivity. }
    assert (CE : filter_mask
                   (map (fun e : pf * pf * cell * bool => snd (fst e))
                      (map (row_entry ie zones lon_v lat_v (unique_sorted zones))
                           (combine zones (combine lon_v lat_v)))) (negb_mask failed)
                 = map (fun r => CStr (epsg_of (fst r))) kept).
    { apply Hok. reflexivity. }
    assert (CH : map CInt (filter_mask zones (negb_mask failed))
                 = map (fun r => CInt (fst r)) kept).
    { rewrite Ef, (zones_keep ie zones lon_v lat_v L1 L2), map_map. reflexivity. }
    unfold expected_acc. cbv zeta. cbn [a_xs a_ys a_epsgs a_last].
    repeat run_step.
    all: try (match goal with H : Nat.eqb _ _ = false |- _ =>
                exfalso; apply Nat.eqb_neq in H; apply H; clear H end).
    all: try (unfold col_get; cbn [assoc_col f_cols f_index String.eqb Ascii.eqb Bool.eqb]; len_eq).
    all: unfold res, auto_out; cbv zeta.
    all: change (auto_kept ie f lat_col lon_col dc) with kept.
    all: change (auto_failed ie f lat_col lon_col dc) with failed.
    all: change (valid_rows f lat_col lon_col dc) with V.
    1: match goal with H : (count_true V - _ =? 0) = true |- _ => rewrite H end; reflexivity.
    1: match goal with H : (count_true V - _ =? 0) = false |- _ => rewrite H end.
    2: match goal with H : existsb _ failed = false |- _ =>
          rewrite (count_true_none _ H), Z.sub_0_r, Z.add_0_r, Hb1 end.
    all: unfold col_get; cbn [assoc_col assoc_set f_cols f_index String.eqb Ascii.eqb Bool.eqb].
    1: rewrite CX, CY, CE, CH; reflexivity.
    rewrite <- CX, <- CY, <- CE, <- CH.
    match goal with H : existsb _ failed = false |- _ =>
      rewrite (negb_mask_no_true _ H), Lf end.
    rewrite !filter_mask_repeat_true by len_eq.
    rewrite loc_mask_repeat_true; [reflexivity| cbn [loc_mask f_index]; len_eq |].
    unfold loc_mask. cbn [f_cols]. apply Forall_map.
    eapply Forall_impl; [|exact Hwf]. intros [nm c] Hcl. cbn [fst snd] in *. len_eq. }
  unfold wp in W.
  destruct (convert_dataframe df lat_col lon_col "auto" fz dc ie d s) as [[e|a] s']; exact W.
Qed.

Lemma memZ_true_In x l : memZ x l = true -> In x l.
Proof.
  unfold memZ. intros H. apply existsb_exists in H as (y & Hy & E).
  apply Z.eqb_eq in E. subst y. exact Hy.
Qed.

Lemma last_error_some ie zones lon_v lat_v P z :
  In z P -> is_inl (group_outcome ie zones lon_v lat_v z) = true ->
  exists m, last_error ie zones lon_v lat_v P = Some m.
Proof.
  intros Hz Hf. unfold last_error.
  assert (G : forall P acc,
             acc <> None \/ (exists z, In z P /\ is_inl (group_outcome ie zones lon_v lat_v z) = true) ->
             exists m, fold_left (fun acc z => match group_outcome ie zones lon_v lat_v z with
                                               | inl m => Some m
                                               | inr _ => acc
                                               end) P acc = Some m).
  { clear. induction P as [|a P IH]; intros acc H; simpl.
    - destruct H as [H|(z & [] & _)]. destruct acc as [m|]; [eauto|congruence].
    - apply IH. destruct (group_outcome ie zones lon_v lat_v a) as [m|h] eqn:E.
      + left. discriminate.
      + destruct H as [H|(z & [<-|Hin] & Hz)]; [left; exact H| |right; eauto].
        rewrite E in Hz. discriminate. }
  apply G. right. eauto.
Qed.

(** C2: a failing zone group in [auto] mode.  The rows that stay are
    exactly the rows whose zone group succeeded.  While some row stays,
    the call returns the table [auto_out] (those rows, with their projected
    coordinates and zone) and the counters move the failed rows from
    [n_valid] to [n_drop]; when every row failed it raises the
    [ValueError] that carries the message of the last failing group. *)
Theorem auto_group_failure s df f lat_col lon_col fz dc ie d :
  nth_error (heap s) df = Some f -> wf_frame f -> coherent s ->
  mem_str lat_col (col_names f) = true -> mem_str lon_col (col_names f) = true ->
  count_true (valid_rows f lat_col lon_col dc) <> 0 ->
  (forall r, In r (auto_kept ie f lat_col lon_col dc) <->
     In r (auto_rows f lat_col lon_col dc) /\
     is_inl (auto_outcome ie f lat_col lon_col dc (fst r)) = false) /\
  (count_true (auto_failed ie f lat_col lon_col dc)
     < count_true (valid_rows f lat_col lon_col dc) ->
   fst (convert_dataframe df lat_col lon_col "auto" fz dc ie d s)
   = inr (auto_out ie f lat_col lon_col dc d,
          count_true (valid_rows f lat_col lon_col dc)
            - count_true (auto_failed ie f lat_col lon_col dc),
          Z.of_nat (List.length (f_index f)) - count_true (valid_rows f lat_col lon_col dc)
            + count_true (auto_failed ie f lat_col lon_col dc))) /\
  (count_true (auto_failed ie f lat_col lon_col dc)
     = count_true (valid_rows f lat_col lon_col dc) ->
   exists m, auto_last_error ie f lat_col lon_col dc = Some m /\
     fst (convert_dataframe df lat_col lon_col "auto" fz dc ie d s)
     = inl (ValueError ("Coordinate transformation failed for all rows: " ++ m))).
Proof.
  intros Hf Hwf Hc Hlat Hlon Hn.
  pose proof (auto_mode_run s df f lat_col lon_col fz dc ie d Hf Hwf Hc Hlat Hlon Hn) as R.
  cbv zeta in R.
  split; [|split].
  - intros r. unfold auto_kept. rewrite filter_In, negb_true_iff. reflexivity.
  - intros Hlt. rewrite R. rewrite (proj2 (Z.eqb_neq _ _)) by lia. reflexivity.
  - intros Heq. rewrite R, Heq, Z.sub_diag. cbn [Z.eqb].
    assert (Hex : existsb (fun b => b) (auto_failed ie f lat_col lon_col dc) = true).
    { destruct (existsb (fun b => b) (auto_failed ie f lat_col lon_col dc)) eqn:E; auto.
      apply count_true_none in E. lia. }
    apply existsb_exists in Hex as (x & Hx & ->).
    unfold auto_failed in Hx. apply in_map_iff in Hx as (r & Hr & Hin).
    unfold auto_rows in Hin. destruct r as [z rest]. apply in_combine_l in Hin.
    destruct (last_error_some ie (map auto_zone (lon_valid f lat_col lon_col dc))
                (lon_valid f lat_col lon_col dc) (lat_valid f lat_col lon_col dc)
                (unique_sorted (map auto_zone (lon_valid f lat_col lon_col dc))) z)
      as [m Hm].
    + apply memZ_true_In. rewrite memZ_unique. apply memZ_In. exact Hin.
    + exact Hr.
    + exists m. unfold auto_last_error. cbv zeta. rewrite Hm. split; reflexivity.
Qed.

(* ------------------------------------------------------------------ *)
(** ** The zone formula in binary64 *)

Lemma round_half_even_near y :
  (-(1 # 2) <= inject_Z (round_half_even y) - y <= 1 # 2)%Q.
Proof.
  unfold round_half_even.
  pose proof (Qfloor_le y) as H1. pose proof (Qlt_floor y) as H2.
  rewrite inject_Z_plus in H2. change (inject_Z 1) with 1%Q in H2. set (fl := Qfloor y) in *.
  destruct (Qcompare_spec (y - inject_Z fl) (1 # 2)) as [E|E|E].
  - destruct (Z.even fl); [|rewrite inject_Z_plus; change (inject_Z 1) with 1%Q]; split; lra.
  - split; lra.
  - rewrite inject_Z_plus. change (inject_Z 1) with 1%Q. split; lra.
Qed.

Lemma qltb_false q : (0 <= q)%Q -> qltb q 0 = false.
Proof.
  intros H. unfold qltb. destruct (Qcompare_spec q 0); [reflexivity|lra|reflexivity].
Qed.

Lemma qabs_nonneg q : (0 <= q)%Q -> Qabs q = q.
Proof.
  destruct q as [n d]. unfold Qle. cbn. intros H. rewrite Z.abs_eq by lia. reflexivity.
Qed.

Lemma fl64_comp x y : (x == y)%Q -> fl64 x = fl64 y.
Proof. intros H. unfold fl64. rewrite (Qred_complete x y H). reflexivity. Qed.

Lemma fl64_exact_ints : forallb fl64_exact_int (map Z.of_nat (seq 0 361)) = true.
Proof. vm_compute. reflexivity. Qed.

Lemma fl64_small_int j : 0 <= j <= 360 -> fl64 (inject_Z j) = PFin (inject_Z j).
Proof.
  intros Hj. pose proof fl64_exact_ints as H. rewrite forallb_forall in H.
  specialize (H j). unfold fl64_exact_int in H.
  assert (Hin : In j (map Z.of_nat (seq 0 361))).
  { apply in_map_iff. exists (Z.to_nat j). rewrite in_seq. split; lia. }
  specialize (H Hin).
  destruct (fl64 (inject_Z j)) as [| |[n d]]; try discriminate H.
  apply andb_true_iff in H as [H1 H2]. apply Z.eqb_eq in H1. apply Pos.eqb_eq in H2.
  cbn in H1, H2. subst. reflexivity.
Qed.

Lemma qlog2_le a : (0 <= a <= 360)%Q -> qlog2 a <= 9.
Proof.
  intros [H0 H1]. destruct a as [n d]. unfold qlog2. cbn [Qnum Qden].
  unfold Qle in H0, H1. cbn [Qnum Qden] in H0, H1.
  assert (L : Z.log2 n <= Z.log2 (Z.pos d) + 9).
  { assert (E : Z.log2 (Z.pos d * 2 ^ 9) = 9 + Z.log2 (Z.pos d))
      by (apply Z.log2_mul_pow2; lia).
    rewrite Z.add_comm, <- E. apply Z.log2_le_mono. lia. }
  destruct (qltb _ _); lia.
Qed.

Lemma fl64_0_360 x : (0 <= x <= 360)%Q -> exists a, fl64 x = PFin a /\ (0 <= a <= 360)%Q.
Proof.
  intros Hx. unfold fl64.
  pose proof (Qred_correct x) as Hr. set (x' := Qred x) in *.
  assert (Hx' : (0 <= x' <= 360)%Q) by (rewrite Hr; exact Hx).
  destruct (Qeq_bool x' 0) eqn:E0.
  { exists 0%Q. split; [reflexivity|lra]. }
  rewrite (qltb_false x') by lra. rewrite (qabs_nonneg x') by lra.
  pose proof (qlog2_le x' Hx') as Hl.
  set (s := Z.max (qlog2 x' - 52) (-1074)).
  assert (Hs : s < 0) by lia.
  assert (E : (0 <=? s) = false) by (apply Z.leb_gt; lia). rewrite E. cbn [andb].
  unfold pow2Q. rewrite E.
  set (P := Z.to_pos (2 ^ (- s))).
  assert (HP : (/ (1 # P) == inject_Z (Z.pos P))%Q) by reflexivity.
  set (m := round_half_even (x' / (1 # P))).
  pose proof (round_half_even_near (x' / (1 # P))) as Hm. fold m in Hm.
  unfold Qdiv in Hm. rewrite HP in Hm.
  assert (Hpos : (0 < inject_Z (Z.pos P))%Q) by (unfold Qlt; simpl; lia).
  assert (A1 : (0 <= x' * inject_Z (Z.pos P))%Q) by (apply Qmult_le_0_compat; lra).
  assert (A2 : (x' * inject_Z (Z.pos P) <= 360 * inject_Z (Z.pos P))%Q)
    by (apply Qmult_le_compat_r; lra).
  assert (Hm0 : -1 < m).
  { rewrite Zlt_Qlt. change (inject_Z (-1)) with (-1)%Q. lra. }
  assert (Hm1 : m < 360 * Z.pos P + 1).
  { rewrite Zlt_Qlt. rewrite inject_Z_plus, inject_Z_mult.
    change (inject_Z 1) with 1%Q. change (inject_Z 360) with 360%Q. lra. }
  eexists. split; [reflexivity|]. rewrite Qred_correct.
  unfold Qle, Qmult; cbn [Qnum Qden inject_Z]. split; lia.
Qed.

Lemma qtrunc_floor q : (0 <= q)%Q -> qtrunc q = Qfloor q.
Proof.
  destruct q as [n d]. unfold Qle. cbn. intros H. apply Z.quot_div_nonneg; lia.
Qed.

Lemma floor_divide_6 a :
  (0 <= a <= 360)%Q -> astype_int (floor_divide (PFin a) (PFin 6)) = Qfloor (a / 6).
Proof.
  intros Ha.
  set (k := Qfloor (a / 6)).
  assert (Hk1 : (inject_Z k <= a / 6)%Q) by apply Qfloor_le.
  assert (Hk2 : (a / 6 < inject_Z k + 1)%Q)
    by (pose proof (Qlt_floor (a / 6)) as H; rewrite inject_Z_plus in H; exact H).
  assert (Hb : (a / 6 == a * (1 # 6))%Q) by reflexivity.
  rewrite Hb in Hk1, Hk2.
  assert (Hk : 0 <= k <= 60).
  { split.
    - assert (-1 < k) by (rewrite Zlt_Qlt; change (inject_Z (-1)) with (-1)%Q; lra). lia.
    - assert (k < 61) by (rewrite Zlt_Qlt; change (inject_Z 61) with 61%Q; lra). lia. }
  assert (Hmod : (0 <= a - 6 * inject_Z k)%Q) by lra.
  assert (E1 : pf_fmod (PFin a) (PFin 6) = PFin (a - 6 * inject_Z k)).
  { unfold pf_fmod. change (Qeq_bool 6 0) with false. cbv iota.
    rewrite (qtrunc_floor (a / 6)) by (rewrite Hb; lra). reflexivity. }
  assert (E2 : pf_div (pf_sub (PFin a) (PFin (a - 6 * inject_Z k))) (PFin 6)
               = PFin (inject_Z k)).
  { unfold pf_sub, pf_neg, pf_add.
    rewrite (fl64_comp (a + - (a - 6 * inject_Z k)) (inject_Z (6 * k)))
      by (rewrite inject_Z_mult; ring).
    rewrite fl64_small_int by lia.
    unfold pf_div. change (Qeq_bool 6 0) with false. cbv iota.
    rewrite (fl64_comp (inject_Z (6 * k) / 6) (inject_Z k)) by (rewrite inject_Z_mult; field).
    apply fl64_small_int. lia. }
  assert (E3 : pf_nonzero (PFin (a - 6 * inject_Z k)) &&
               negb (Bool.eqb (pf_isneg (PFin 6)) (pf_isneg (PFin (a - 6 * inject_Z k))))
               = false).
  { cbn [pf_isneg]. rewrite (qltb_false (a - 6 * inject_Z k)) by exact Hmod.
    change (qltb 6 0) with false. cbn [Bool.eqb negb]. apply andb_false_r. }
  unfold floor_divide. change (pf_nonzero (PFin 6)) with true. cbn [negb]. cbv zeta.
  rewrite E1, E3, E2.
  clearbody k. unfold pf_nonzero at 1.
  destruct (Z.eq_dec k 0) as [->|Hk0]; [reflexivity|].
  replace (Qeq_bool (inject_Z k) 0) with false
    by (symmetry; apply not_true_iff_false; intros E;
        apply Qeq_bool_iff in E; unfold Qeq in E; cbn in E; lia).
  cbn [negb pf_floor]. rewrite Qfloor_Z.
  unfold pf_sub, pf_neg, pf_add.
  rewrite (fl64_comp (inject_Z k + - inject_Z k) (inject_Z 0)) by ring.
  rewrite fl64_small_int by lia.
  change (pf_gt (PFin (inject_Z 0)) (1 # 2)) with false. cbv iota.
  unfold astype_int, qtrunc. cbn [Qnum Qden inject_Z]. rewrite Z.quot_1_r.
  destruct (Z.leb_spec (- 2 ^ 63) k); [|lia]. destruct (Z.ltb_spec k (2 ^ 63)); [|lia].
  reflexivity.
Qed.

Lemma raw_zone_float q :
  (-180 <= q <= 180)%Q ->
  exists a, fl64 (q + 180) = PFin a /\ (0 <= a <= 360)%Q /\ raw_zone (PFin q) = Qfloor (a / 6) + 1.
Proof.
  intros Hq. destruct (fl64_0_360 (q + 180)) as (a & Ea & Ha); [lra|].
  exists a. split; [exact Ea|]. split; [exact Ha|].
  unfold raw_zone. cbn [pf_add]. rewrite Ea. rewrite floor_divide_6 by exact Ha. reflexivity.
Qed.

Lemma valid_lon_range lat_s lon_s x :
  In x (filter_mask lon_s (valid_mask lat_s lon_s)) ->
  exists q, x = PFin q /\ (-180 <= q <= 180)%Q.
Proof.
  unfold valid_mask. revert lat_s.
  induction lon_s as [|y lon_s IH]; intros [|a lat_s] H; simpl in H; try contradiction.
  match type of H with context [if ?b then _ else _] => destruct b eqn:E end.
  - destruct H as [<-|H]; [|eapply IH; exact H].
    apply andb_true_iff in E as [_ E]. destruct y as [| |q]; try discriminate.
    cbn in E. apply andb_true_iff in E as [E1 E2]. apply Qle_bool_iff in E1, E2. eauto.
  - eapply IH; exact H.
Qed.

Lemma valid_lon_finite lat_s lon_s x :
  In x (filter_mask lon_s (valid_mask lat_s lon_s)) -> exists q, x = PFin q.
Proof.
  unfold valid_mask. revert lat_s.
  induction lon_s as [|y lon_s IH]; intros [|a lat_s] H; simpl in H; try contradiction.
  match type of H with context [if ?b then _ else _] => destruct b eqn:E end.
  - destruct H as [<-|H]; [|eapply IH; exact H].
    apply andb_true_iff in E as [_ E]. destruct y; try discriminate. eauto.
  - eapply IH; exact H.
Qed.

Lemma valid_lengths f lat_col lon_col dc :
  wf_frame f -> mem_str lat_col (col_names f) = true -> mem_str lon_col (col_names f) = true ->
  List.length (lon_valid f lat_col lon_col dc)
    = List.length (filter (fun b => b) (valid_rows f lat_col lon_col dc)) /\
  List.length (lat_valid f lat_col lon_col dc)
    = List.length (filter (fun b => b) (valid_rows f lat_col lon_col dc)).
Proof.
  intros Hwf Hlat Hlon.
  assert (HV : List.length (valid_rows f lat_col lon_col dc) = List.length (f_index f)).
  { unfold valid_rows. rewrite length_valid_mask; unfold to_float_series;
      rewrite !length_map, !col_get_length; auto. }
  split; apply length_filter_mask_eq; rewrite HV; unfold to_float_series;
    rewrite length_map; apply col_get_length; auto.
Qed.

Lemma assoc_col_map name (g : list cell -> list cell) cs :
  assoc_col name (map (fun nc => (fst nc, g (snd nc))) cs) = option_map g (assoc_col name cs).
Proof.
  induction cs as [|[n c] cs IH]; simpl; auto.
  destruct (String.eqb n name); auto.
Qed.

Lemma assoc_col_mem name cs :
  mem_str name (map fst cs) = true -> assoc_col name cs = Some (col_get (mkFrame [] cs) name).
Proof.
  unfold col_get. cbn [f_cols]. intros H.
  destruct (assoc_col name cs) eqn:E; auto.
  exfalso. induction cs as [|[n c] cs IH]; simpl in *; [discriminate|].
  rewrite String.eqb_sym in H.
  destruct (String.eqb n name); [discriminate|]. auto.
Qed.

Lemma in_rows_zone {A B C} (g : A -> B) (l : list A) (l' : list C) z lo la :
  In (z, (lo, la)) (combine (map g l) (combine l l')) -> z = g lo.
Proof.
  revert l'. induction l as [|x l IH]; intros [|y l'] Hr; simpl in Hr; try contradiction.
  destruct Hr as [E|Hr]; [injection E as E1 E2 _; subst; reflexivity|]. eauto.
Qed.

(** C3 (amended): in [auto] mode the zone of every row of a returned table
    is [clip(((lon + 180.0) // 6.0).astype(int) + 1, 29, 31)] of that row's
    own parsed longitude, computed in binary64, and its CRS is [EPSG:258]
    followed by that zone; that longitude lies in [-180, 180].  For such a
    longitude the zone is [clamp(floor(a / 6) + 1, 29, 31)], where [a] is
    the sum [lon + 180] rounded to the nearest double, and it is the zone
    of the exact formula [clamp(floor((lon + 180) / 6) + 1, 29, 31)]
    whenever that sum is exact.  The longitudes -12, -6, 0, -25 and 9 give
    the zones 29, 30, 31, 29 and 31. *)
Theorem auto_zone_of_longitude s df f lat_col lon_col fz dc ie d out nv nd :
  nth_error (heap s) df = Some f -> wf_frame f -> coherent s ->
  fst (convert_dataframe df lat_col lon_col "auto" fz dc ie d s) = inr (out, nv, nd) ->
  (exists cols_in xs ys lons qs,
     f_cols out = (cols_in ++
       [("X_ETRS89", xs); ("Y_ETRS89", ys);
        ("EPSG_destino", map (fun q => CStr (epsg_of (auto_zone (PFin q)))) qs);
        ("Huso", map (fun q => CInt (auto_zone (PFin q))) qs)])%list /\
     assoc_col lon_col cols_in = Some lons /\
     map (to_float_cell dc) lons = map PFin qs /\
     Forall (fun q => -180 <= q <= 180)%Q qs) /\
  (forall q, (-180 <= q <= 180)%Q ->
     exists a, fl64 (q + 180) = PFin a /\ (0 <= a <= 360)%Q /\
       auto_zone (PFin q) = clamp (Qfloor (a / 6) + 1) 29 31 /\
       ((a == q + 180)%Q -> auto_zone (PFin q) = spec_zone q)) /\
  map (fun q => auto_zone (PFin q)) [(-12)%Q; (-6)%Q; 0%Q; (-25)%Q; 9%Q] = [29; 30; 31; 29; 31] /\
  map (fun q => epsg_of (auto_zone (PFin q))) [(-12)%Q; (-6)%Q; 0%Q; (-25)%Q; 9%Q]
  = ["EPSG:25829"; "EPSG:25830"; "EPSG:25831"; "EPSG:25829"; "EPSG:25831"].
Proof.
  intros Hf Hwf Hc Hres.
  split; [|split; [|split; vm_compute; reflexivity]].
  2: { intros q Hq. destruct (raw_zone_float q Hq) as (a & Ea & Ha & Ez).
       exists a. split; [exact Ea|]. split; [exact Ha|].
       unfold auto_zone, clip, clamp. rewrite Ez. split; [lia|].
       intros Hs. unfold spec_zone, clamp.
       rewrite (Qfloor_comp (a / 6) ((q + 180) / 6)) by (rewrite Hs; reflexivity). lia. }
  destruct (returns_inputs _ _ _ _ _ _ _ _ _ _ Hres) as (f' & Hf' & Hlat & Hlon & Hn).
  rewrite Hf in Hf'. injection Hf' as <-.
  pose proof (auto_mode_run s df f lat_col lon_col fz dc ie d Hf Hwf Hc Hlat Hlon Hn) as R.
  cbv zeta in R. rewrite R in Hres.
  destruct (_ =? 0); [discriminate|]. injection Hres as <- _ _.
  destruct (valid_lengths f lat_col lon_col dc Hwf Hlat Hlon) as [Llon Llat].
  set (V := valid_rows f lat_col lon_col dc) in *.
  set (lon_v := lon_valid f lat_col lon_col dc) in *.
  set (lat_v := lat_valid f lat_col lon_col dc) in *.
  set (zones := map auto_zone lon_v).
  assert (L1 : List.length zones = List.length lon_v) by apply length_map.
  assert (L2 : List.length lon_v = List.length lat_v) by lia.
  set (qof := fun x : pf => match x with PFin q => q | _ => 0%Q end).
  assert (Hrow : forall r, In r (auto_kept ie f lat_col lon_col dc) ->
                 fst (snd r) = PFin (qof (fst (snd r))) /\
                 fst r = auto_zone (PFin (qof (fst (snd r)))) /\
                 (-180 <= qof (fst (snd r)) <= 180)%Q).
  { intros [z [lo la]] Hr. unfold auto_kept, auto_rows in Hr.
    apply filter_In in Hr as [Hr _]. cbn [fst snd].
    assert (Hlo : In lo lon_v) by (apply in_combine_r, in_combine_l in Hr; exact Hr).
    destruct (valid_lon_range _ _ _ Hlo) as (q & -> & Hq).
    split; [reflexivity|]. cbn [qof]. split; [|exact Hq].
    exact (in_rows_zone _ _ _ _ _ _ Hr). }
  unfold auto_out. cbv zeta. cbn [concat_cols reset_index f_cols loc_mask].
  eexists _, _, _, _, (map (fun r => qof (fst (snd r))) (auto_kept ie f lat_col lon_col dc)).
  split; [|split; [|split]].
  - rewrite !map_map.
    assert (HE : map (fun r => CStr (epsg_of (fst r))) (auto_kept ie f lat_col lon_col dc)
                 = map (fun r => CStr (epsg_of (auto_zone (PFin (qof (fst (snd r)))))))
                       (auto_kept ie f lat_col lon_col dc)).
    { apply map_ext_in. intros r Hr. destruct (Hrow r Hr) as (_ & -> & _). reflexivity. }
    assert (HH : map (fun r => CInt (fst r)) (auto_kept ie f lat_col lon_col dc)
                 = map (fun r => CInt (auto_zone (PFin (qof (fst (snd r))))))
                       (auto_kept ie f lat_col lon_col dc)).
    { apply map_ext_in. intros r Hr. destruct (Hrow r Hr) as (_ & -> & _). reflexivity. }
    rewrite HE, HH. reflexivity.
  - cbn [fst snd].
    rewrite (assoc_col_map lon_col
               (fun c => filter_mask (filter_mask c (valid_rows f lat_col lon_col dc))
                                     (negb_mask (auto_failed ie f lat_col lon_col dc)))).
    rewrite (assoc_col_mem lon_col (f_cols f) Hlon). reflexivity.
  - change (col_get {| f_index := []; f_cols := f_cols f |} lon_col) with (col_get f lon_col).
    rewrite <- !filter_mask_map_l.
    change (filter_mask (map (to_float_cell dc) (col_get f lon_col)) (valid_rows f lat_col lon_col dc))
      with lon_v.
    assert (Ef : auto_failed ie f lat_col lon_col dc
                 = map (fun z => is_inl (group_outcome ie zones lon_v lat_v z)) zones).
    { unfold auto_failed, auto_outcome, auto_rows.
      rewrite (failed_rows ie zones lon_v lat_v L1 L2). reflexivity. }
    rewrite Ef, (lon_keep ie zones lon_v lat_v L1 L2), map_map.
    apply map_ext_in. intros r Hr. exact (proj1 (Hrow r Hr)).
  - apply Forall_forall. intros q Hq. apply in_map_iff in Hq as (r & <- & Hr).
    exact (proj2 (proj2 (Hrow r Hr))).
Qed.

(* ------------------------------------------------------------------ *)
(** ** The range filter and the parser *)

Lemma between_true x lo hi :
  between x lo hi = true <-> exists q, x = PFin q /\ (lo <= q <= hi)%Q.
Proof.
  destruct x as [| |q]; simpl; split; intros H;
    try discriminate; try (destruct H as (? & ? & _); discriminate).
  - apply andb_true_iff in H as [H1 H2]. apply Qle_bool_iff in H1, H2. eauto.
  - destruct H as (q' & E & H1 & H2). injection E as <-.
    apply andb_true_iff. split; apply Qle_bool_iff; assumption.
Qed.

Lemma nth_error_combine_some {A B} (l : list A) (l' : list B) i a b :
  nth_error l i = Some a -> nth_error l' i = Some b ->
  nth_error (combine l l') i = Some (a, b).
Proof.
  revert l' i. induction l as [|x l IH]; intros [|y l'] [|i] Ha Hb; simpl in *;
    try discriminate; try congruence. apply IH; assumption.
Qed.

Lemma valid_rows_nth f lat_col lon_col dc i ca cb :
  nth_error (col_get f lat_col) i = Some ca ->
  nth_error (col_get f lon_col) i = Some cb ->
  nth_error (valid_rows f lat_col lon_col dc) i
  = Some (between (to_float_cell dc ca) (-90)%Q 90%Q &&
          between (to_float_cell dc cb) (-180)%Q 180%Q).
Proof.
  intros Ha Hb. unfold valid_rows, valid_mask, to_float_series.
  rewrite nth_error_map, (nth_error_combine_some _ _ _ (to_float_cell dc ca) (to_float_cell dc cb)).
  - reflexivity.
  - rewrite nth_error_map, Ha. reflexivity.
  - rewrite nth_error_map, Hb. reflexivity.
Qed.

Lemma filter_mask_combine {A} (l : list A) (m : list bool) :
  filter_mask l m = map fst (filter snd (combine l m)).
Proof.
  revert m. induction l as [|x l IH]; intros [|b m]; simpl; auto.
  destruct b; simpl; rewrite IH; reflexivity.
Qed.

Lemma drop_spaces_In x l : In x l -> x <> " "%char -> In x (drop_spaces l).
Proof.
  induction l as [|a l IH]; simpl; intros H Hx; [exact H|].
  destruct (Ascii.eqb a " ") eqn:E.
  - apply Ascii.eqb_eq in E. subst a. destruct H as [<-|H]; [contradiction|]. auto.
  - exact H.
Qed.

Lemma trim_In x l : In x l -> x <> " "%char -> In x (trim l).
Proof.
  intros H Hx. unfold trim. apply in_rev. rewrite rev_involutive.
  apply drop_spaces_In; [|exact Hx]. apply in_rev. rewrite rev_involutive.
  apply drop_spaces_In; assumption.
Qed.

Lemma take_sign_In x l b r :
  take_sign l = (b, r) -> In x l -> x <> "-"%char -> x <> "+"%char -> In x r.
Proof.
  destruct l as [|a l]; simpl; intros E H H1 H2; [contradiction|].
  destruct (Ascii.eqb a "-") eqn:E1; [|destruct (Ascii.eqb a "+") eqn:E2];
    injection E as _ <-; auto.
  - apply Ascii.eqb_eq in E1. subst a. destruct H as [<-|H]; [contradiction|exact H].
  - apply Ascii.eqb_eq in E2. subst a. destruct H as [<-|H]; [contradiction|exact H].
Qed.

Lemma span_digits_In x l ds r :
  span_digits l = (ds, r) -> In x l -> is_digit x = false -> In x r.
Proof.
  revert ds r. induction l as [|a l IH]; simpl; intros ds r E H Hd; [contradiction|].
  destruct (is_digit a) eqn:Ea.
  - destruct (span_digits l) as [ds' r'] eqn:E'. injection E as _ <-.
    destruct H as [<-|H]; [congruence|]. eapply IH; eauto.
  - injection E as _ <-. exact H.
Qed.

Lemma parse_exponent_comma r : In ","%char r -> parse_exponent r = None.
Proof.
  destruct r as [|c cs]; intros H; [contradiction|]. simpl.
  destruct (Ascii.eqb c "e" || Ascii.eqb c "E") eqn:E; [|reflexivity].
  destruct H as [E0|H]; [subst c; simpl in E; discriminate E|].
  destruct (take_sign cs) as [neg r1] eqn:T.
  destruct (span_digits r1) as [ds r'] eqn:S.
  assert (H' : In ","%char r').
  { eapply span_digits_In; [exact S| |reflexivity].
    eapply take_sign_In; [exact T|exact H|discriminate|discriminate]. }
  destruct ds, r'; try contradiction; reflexivity.
Qed.

(** Text with a comma is not a decimal literal. *)
Lemma comma_not_number s : In ","%char (list_ascii_of_string s) -> to_numeric s = PNaN.
Proof.
  intros H. unfold to_numeric. cbv zeta.
  assert (H1 : In ","%char (trim (list_ascii_of_string s)))
    by (apply trim_In; [exact H|discriminate]).
  destruct (take_sign (trim (list_ascii_of_string s))) as [neg r] eqn:T.
  assert (H2 : In ","%char r)
    by (eapply take_sign_In; [exact T|exact H1|discriminate|discriminate]).
  destruct (String.eqb (string_of_list_ascii r) "nan") eqn:En.
  { apply String.eqb_eq, (f_equal list_ascii_of_string) in En.
    rewrite list_ascii_of_string_of_list_ascii in En. subst r.
    simpl in H2. intuition discriminate. }
  destruct (String.eqb (string_of_list_ascii r) "inf") eqn:Ei.
  { apply String.eqb_eq, (f_equal list_ascii_of_string) in Ei.
    rewrite list_ascii_of_string_of_list_ascii in Ei. subst r.
    simpl in H2. intuition discriminate. }
  destruct (span_digits r) as [ids r1] eqn:S1.
  assert (H3 : In ","%char r1) by (eapply span_digits_In; [exact S1|exact H2|reflexivity]).
  destruct r1 as [|c r1']; [contradiction|].
  destruct (Ascii.eqb c ".") eqn:Ed.
  - destruct (span_digits r1') as [fds r2] eqn:S2.
    assert (H4 : In ","%char r2).
    { apply Ascii.eqb_eq in Ed. subst c. destruct H3 as [E|H3]; [discriminate|].
      eapply span_digits_In; [exact S2|exact H3|reflexivity]. }
    rewrite (parse_exponent_comma r2 H4). destruct (ids ++ fds)%list; reflexivity.
  - rewrite (parse_exponent_comma _ H3). destruct (ids ++ [])%list; reflexivity.
Qed.

Lemma comma_or_invalid_none_valid f lat_col lon_col :
  (forall i ca cb,
     nth_error (col_get f lat_col) i = Some ca -> nth_error (col_get f lon_col) i = Some cb ->
     (exists t, ca = CStr t /\ In ","%char (list_ascii_of_string t)) \/
     (exists t, cb = CStr t /\ In ","%char (list_ascii_of_string t)) \/
     nth_error (valid_rows f lat_col lon_col false) i = Some false) ->
  count_true (valid_rows f lat_col lon_col false) = 0.
Proof.
  intros H.
  assert (Hall : forall b, In b (valid_rows f lat_col lon_col false) -> b = false).
  { intros b Hb. apply In_nth_error in Hb as [i Hi].
    assert (Hlt : (i < List.length (valid_rows f lat_col lon_col false))%nat)
      by (apply nth_error_Some; congruence).
    unfold valid_rows, valid_mask, to_float_series in Hlt.
    rewrite length_map, length_combine, !length_map in Hlt.
    destruct (nth_error (col_get f lat_col) i) as [ca|] eqn:Ha;
      [|apply nth_error_None in Ha; lia].
    destruct (nth_error (col_get f lon_col) i) as [cb|] eqn:Hb;
      [|apply nth_error_None in Hb; lia].
    pose proof (valid_rows_nth f lat_col lon_col false i ca cb Ha Hb) as E.
    destruct (H i ca cb Ha Hb) as [(t & -> & Ht)|[(t & -> & Ht)|Hf]].
    - rewrite E in Hi. cbn [to_float_cell] in Hi. rewrite (comma_not_number t Ht) in Hi.
      injection Hi as <-. reflexivity.
    - rewrite E in Hi. cbn [to_float_cell] in Hi. rewrite (comma_not_number t Ht) in Hi.
      cbn [between] in Hi. rewrite andb_false_r in Hi. injection Hi as <-. reflexivity.
    - congruence. }
  unfold count_true.
  destruct (filter (fun b => b) (valid_rows f lat_col lon_col false)) as [|b l] eqn:E;
    [reflexivity|].
  assert (Hb : In b (filter (fun b => b) (valid_rows f lat_col lon_col false)))
    by (rewrite E; left; reflexivity).
  apply filter_In in Hb as [H1 H2]. rewrite (Hall b H1) in H2. discriminate.
Qed.

(** C6: row [i] of the validity mask is true exactly when the latitude
    cell parses to a number in [-90, 90] and the longitude cell to a
    number in [-180, 180], both bounds inclusive; a NaN latitude or
    longitude makes it false; [df.loc[valid]] keeps exactly the rows whose
    mask entry is true; and the four boundary values pass the filter. *)
Theorem valid_filter_exact f lat_col lon_col dc i ca cb :
  nth_error (col_get f lat_col) i = Some ca ->
  nth_error (col_get f lon_col) i = Some cb ->
  (nth_error (valid_rows f lat_col lon_col dc) i = Some true <->
   exists qa qb, to_float_cell dc ca = PFin qa /\ to_float_cell dc cb = PFin qb /\
                 (-90 <= qa <= 90)%Q /\ (-180 <= qb <= 180)%Q) /\
  (to_float_cell dc ca = PNaN \/ to_float_cell dc cb = PNaN ->
   nth_error (valid_rows f lat_col lon_col dc) i = Some false) /\
  f_index (loc_mask f (valid_rows f lat_col lon_col dc))
  = map fst (filter snd (combine (f_index f) (valid_rows f lat_col lon_col dc))) /\
  valid_mask [PFin (-90); PFin 90; PFin 0; PFin 0]
             [PFin 0; PFin 0; PFin (-180); PFin 180] = [true; true; true; true].
Proof.
  intros Ha Hb. rewrite (valid_rows_nth _ _ _ _ _ _ _ Ha Hb).
  split; [|split; [|split]].
  - split.
    + intros E. injection E as E. apply andb_true_iff in E as [E1 E2].
      apply between_true in E1 as (qa & Ea & Ra). apply between_true in E2 as (qb & Eb & Rb).
      exists qa, qb. auto.
    + intros (qa & qb & Ea & Eb & Ra & Rb). f_equal. apply andb_true_iff. split;
        apply between_true; eauto.
  - intros [E|E]; rewrite E; simpl; [reflexivity|]. rewrite andb_false_r. reflexivity.
  - apply filter_mask_combine.
  - reflexivity.
Qed.

(** C7: the parser is total (one value per cell, never an error); with
    [use_decimal_comma] every comma of the text becomes a period and no
    comma is left; text that still holds a comma parses to NaN; so
    ["41,84346"] and ["1,03335"] parse to 41.84346 and 1.03335 with the
    option and to NaN without it; and when every row either has such a
    comma-written latitude or longitude or fails the range filter anyway,
    a call without the option fails with the no-valid-rows error. *)
Theorem decimal_comma_parsing :
  (forall dc l, List.length (to_float_series dc l) = List.length l) /\
  (forall s i c, nth_error (list_ascii_of_string s) i = Some c ->
     nth_error (list_ascii_of_string (replace_comma s)) i
     = Some (if Ascii.eqb c ","%char then "."%char else c)) /\
  (forall s, ~ In ","%char (list_ascii_of_string (replace_comma s))) /\
  (forall s, In ","%char (list_ascii_of_string s) -> to_numeric s = PNaN) /\
  to_float_cell true (CStr "41,84346") = PFin (4184346 # 100000) /\
  to_float_cell true (CStr "1,03335") = PFin (103335 # 100000) /\
  to_float_cell false (CStr "41,84346") = PNaN /\
  to_float_cell false (CStr "1,03335") = PNaN /\
  (forall s df f lat_col lon_col mode fz ie d,
     nth_error (heap s) df = Some f ->
     mem_str lat_col (col_names f) = true ->
     mem_str lon_col (col_names f) = true ->
     (forall i ca cb,
        nth_error (col_get f lat_col) i = Some ca -> nth_error (col_get f lon_col) i = Some cb ->
        (exists t, ca = CStr t /\ In ","%char (list_ascii_of_string t)) \/
        (exists t, cb = CStr t /\ In ","%char (list_ascii_of_string t)) \/
        nth_error (valid_rows f lat_col lon_col false) i = Some false) ->
     fst (convert_dataframe df lat_col lon_col mode fz false ie d s)
     = inl (ValueError "No valid rows with latitudes/longitudes in range.")).
Proof.
  split; [|split; [|split; [|split; [|split; [|split; [|split; [|split]]]]]]].
  - intros dc l. apply length_map.
  - intros s i c H. unfold replace_comma. rewrite list_ascii_of_string_of_list_ascii.
    rewrite nth_error_map, H. reflexivity.
  - intros s H. unfold replace_comma in H. rewrite list_ascii_of_string_of_list_ascii in H.
    apply in_map_iff in H as (c & E & _).
    destruct (Ascii.eqb c ",") eqn:Ec; [discriminate E|].
    subst c. discriminate Ec.
  - exact comma_not_number.
  - vm_compute. reflexivity.
  - vm_compute. reflexivity.
  - apply comma_not_number. simpl. tauto.
  - apply comma_not_number. simpl. tauto.
  - intros s df f lat_col lon_col mode fz ie d Hf Hlat Hlon H.
    apply (no_valid_rows_run s df f lat_col lon_col mode fz false ie d Hf Hlat Hlon).
    apply comma_or_invalid_none_valid. exact H.
Qed.

(* ------------------------------------------------------------------ *)
(** ** A run of the single-zone modes *)

Lemma single_mode_run s df f lat_col lon_col mode fz z dc ie d :
  nth_error (heap s) df = Some f -> wf_frame f -> coherent s ->
  mem_str lat_col (col_names f) = true -> mem_str lon_col (col_names f) = true ->
  count_true (valid_rows f lat_col lon_col dc) <> 0 ->
  (mode = "force_31n" /\ z = 31) \/ (mode = "fixed" /\ fz = Some z /\ In z [29; 30; 31]) ->
  fst (convert_dataframe df lat_col lon_col mode fz dc ie d s)
  = match from_crs ie (epsg_of z) with
    | inl msg => inl (ProjError msg)
    | inr h =>
        match transform_fails h (lon_valid f lat_col lon_col dc) (lat_valid f lat_col lon_col dc) with
        | Some msg => inl (ProjError msg)
        | None =>
            inr (single_out f lat_col lon_col dc d z h,
                 count_true (valid_rows f lat_col lon_col dc),
                 Z.of_nat (List.length (f_index f)) - count_true (valid_rows f lat_col lon_col dc))
        end
    end.
Proof.
  intros Hf Hwf Hc Hlat Hlon Hn Hm.
  match goal with |- _ = ?rhs => set (res := rhs) end.
  assert (W : wp (convert_dataframe df lat_col lon_col mode fz dc ie d)
                 (fun r _ => inr r = res) (fun e _ => inl e = res) s).
  { assert (Hm' : (mode = "force_31n" /\ z = 31) \/
                  (mode = "fixed" /\ fz = Some z /\ (z = 29 \/ z = 30 \/ z = 31))).
    { destruct Hm as [H|(H1 & H2 & H3)]; [left; exact H|right].
      simpl in H3. intuition. }
    clear Hm.
    unfold convert_dataframe.
    repeat (lazymatch goal with |- wp (get_transformer _ _) _ _ _ => fail
            | |- wp (if String.eqb mode _ then _ else _) _ _ _ => fail
            | _ => run_step end).
    all: try (match goal with H : negb _ = true |- _ =>
                rewrite ?Hlat, ?Hlon in H; discriminate H end).
    all: try (match goal with H : (_ =? 0) = true |- _ =>
                apply Z.eqb_eq in H; unfold valid_rows in Hn; contradiction end).
    change (valid_mask (to_float_series dc (col_get f lat_col))
              (to_float_series dc (col_get f lon_col)))
      with (valid_rows f lat_col lon_col dc) in *.
    change (filter_mask (to_float_series dc (col_get f lon_col)) (valid_rows f lat_col lon_col dc))
      with (lon_valid f lat_col lon_col dc) in *.
    change (filter_mask (to_float_series dc (col_get f lat_col)) (valid_rows f lat_col lon_col dc))
      with (lat_valid f lat_col lon_col dc) in *.
    assert (HV : List.length (valid_rows f lat_col lon_col dc) = List.length (f_index f)).
    { unfold valid_rows. rewrite length_valid_mask; unfold to_float_series;
        rewrite ?length_map; apply col_get_length || (rewrite !col_get_length); auto. }
    assert (Llon : List.length (lon_valid f lat_col lon_col dc)
                   = List.length (filter (fun b => b) (valid_rows f lat_col lon_col dc))).
    { apply length_filter_mask_eq. rewrite HV. unfold to_float_series.
      rewrite length_map. apply col_get_length; auto. }
    assert (Llat : List.length (lat_valid f lat_col lon_col dc)
                   = List.length (filter (fun b => b) (valid_rows f lat_col lon_col dc))).
    { apply length_filter_mask_eq. rewrite HV. unfold to_float_series.
      rewrite length_map. apply col_get_length; auto. }
    assert (Lidx : List.length (filter_mask (f_index f) (valid_rows f lat_col lon_col dc))
                   = List.length (filter (fun b => b) (valid_rows f lat_col lon_col dc)))
      by (apply length_filter_mask_eq; lia).
    destruct Hm' as [(-> & ->)|(-> & -> & Hz)].
    all: repeat (lazymatch goal with |- wp (get_transformer _ _) _ _ _ => fail
                 | _ => run_step end).
    all: try (destruct Hz as [->|[->| ->]]; discriminate).
    all: try (destruct Hz as [->|[->| ->]];
              repeat (lazymatch goal with |- wp (get_transformer _ _) _ _ _ => fail
                      | _ => run_step end); try discriminate).
    all: apply wp_get_transformer_coh; [assumption|]; intros s1 Hc1 Hh1.
    all: unfold res.
    all: try (change "EPSG:25831" with (epsg_of 31)).
    all: destruct (from_crs ie (epsg_of _)) as [msg|h] eqn:Hfc; [reflexivity|].
    all: apply wp_bind, wp_transform; intros s2 Hh2 Hc2.
    all: destruct (transform_fails h _ _) as [msg|] eqn:Ht; [reflexivity|].
    all: repeat run_step.
    all: try (match goal with H : Nat.eqb _ _ = false |- _ =>
                exfalso; apply Nat.eqb_neq in H; apply H; clear H end).
    all: try (unfold col_get; cbn [assoc_col assoc_set f_cols f_index String.eqb Ascii.eqb Bool.eqb]; len_eq).
    all: unfold single_out; cbv zeta.
    all: unfold col_get; cbn [assoc_col assoc_set f_cols f_index String.eqb Ascii.eqb Bool.eqb].
    all: rewrite ?map_map; reflexivity. }
  unfold wp in W.
  destruct (convert_dataframe df lat_col lon_col mode fz dc ie d s) as [[e|a] s']; exact W.
Qed.

(* ------------------------------------------------------------------ *)
(** ** Which calls return, and the shape of the returned table *)

Lemma wp_convert_if_mode s df lat_col lon_col mode fz dc ie d :
  wp (convert_dataframe df lat_col lon_col mode fz dc ie d)
     (fun _ _ => String.eqb mode "force_31n" = true \/ String.eqb mode "auto" = true \/
                 (String.eqb mode "fixed" = true /\ exists z, fz = Some z /\ In z [29; 30; 31]))
     (fun _ _ => True) s.
Proof.
  unfold convert_dataframe.
  repeat (lazymatch goal with
          | |- wp (match fz with _ => _ end) _ _ _ => destruct fz as [z|] eqn:Hfz
          | _ => run_step end); auto.
  all: try (right; right; split; [assumption|]).
  all: eexists; split; [reflexivity|].
  all: match goal with H : negb (_ || _) = false |- _ =>
         apply negb_false_iff in H; rewrite !orb_true_iff, !Z.eqb_eq in H end.
  all: simpl; intuition.
Qed.

(** The mode a returning call was made with. *)
Lemma returns_mode s df lat_col lon_col mode fz dc ie d a :
  fst (convert_dataframe df lat_col lon_col mode fz dc ie d s) = inr a ->
  mode = "force_31n" \/ mode = "auto" \/
  (mode = "fixed" /\ exists z, fz = Some z /\ In z [29; 30; 31]).
Proof.
  intros H. pose proof (wp_convert_if_mode s df lat_col lon_col mode fz dc ie d) as W.
  unfold wp in W.
  destruct (convert_dataframe df lat_col lon_col mode fz dc ie d s) as [[e|a'] s'];
    [discriminate|].
  rewrite !String.eqb_eq in W. exact W.
Qed.

Lemma valid_rows_length f lat_col lon_col dc :
  wf_frame f -> mem_str lat_col (col_names f) = true -> mem_str lon_col (col_names f) = true ->
  List.length (valid_rows f lat_col lon_col dc) = List.length (f_index f).
Proof.
  intros Hwf Hlat Hlon. unfold valid_rows. rewrite length_valid_mask; unfold to_float_series;
    rewrite !length_map, ?col_get_length; auto.
Qed.

Lemma wf_loc_mask F m :
  wf_frame F -> List.length m = List.length (f_index F) -> wf_frame (loc_mask F m).
Proof.
  intros Hwf Hm. unfold wf_frame, loc_mask. cbn [f_cols f_index].
  apply Forall_map. eapply Forall_impl; [|exact Hwf].
  intros [nm c] Hc. cbn [fst snd] in *. rewrite !length_filter_mask_eq by lia. reflexivity.
Qed.

(** The table assembled at the end of the call: the kept input rows,
    renumbered, beside result columns of the same length. *)
Lemma concat_shape F m cols :
  wf_frame F -> List.length m = List.length (f_index F) ->
  Forall (fun nc => List.length (snd nc) = List.length (filter (fun b => b) m)) cols ->
  let out := concat_cols (reset_index (loc_mask F m))
                         (reset_index (mkFrame (filter_mask (f_index F) m) cols)) in
  List.length (f_index out) = List.length (filter (fun b => b) m) /\
  f_index out = map Z.of_nat (seq 0 (List.length (f_index out))) /\
  col_names out = (col_names F ++ map fst cols)%list /\
  wf_frame out.
Proof.
  intros Hwf Hm Hc out.
  assert (Li : List.length (f_index out) = List.length (filter (fun b => b) m)).
  { unfold out, concat_cols, reset_index, loc_mask. cbn [f_index].
    rewrite length_map, length_seq. apply length_filter_mask_eq. lia. }
  split; [exact Li|split; [|split]].
  - rewrite Li. unfold out, concat_cols, reset_index, loc_mask. cbn [f_index].
    rewrite length_filter_mask_eq by lia. reflexivity.
  - unfold out, concat_cols, reset_index, loc_mask, col_names. cbn [f_cols].
    rewrite map_app, map_map. reflexivity.
  - unfold wf_frame. rewrite Li. unfold out, concat_cols, reset_index. cbn [f_cols].
    apply Forall_app. split; [|exact Hc].
    pose proof (wf_loc_mask F m Hwf Hm) as W. unfold wf_frame in W.
    eapply Forall_impl; [|exact W]. intros nc Hnc. rewrite Hnc.
    unfold loc_mask. cbn [f_index]. apply length_filter_mask_eq. lia.
Qed.

Lemma single_out_shape f lat_col lon_col dc d z h :
  wf_frame f -> mem_str lat_col (col_names f) = true -> mem_str lon_col (col_names f) = true ->
  let out := single_out f lat_col lon_col dc d z h in
  Z.of_nat (List.length (f_index out)) = count_true (valid_rows f lat_col lon_col dc) /\
  f_index out = map Z.of_nat (seq 0 (List.length (f_index out))) /\
  col_names out = (col_names f ++ result_names)%list /\
  wf_frame out.
Proof.
  intros Hwf Hlat Hlon out.
  pose proof (valid_rows_length f lat_col lon_col dc Hwf Hlat Hlon) as HV.
  destruct (valid_lengths f lat_col lon_col dc Hwf Hlat Hlon) as [L1 L2].
  edestruct (concat_shape f (valid_rows f lat_col lon_col dc)) as (A & B & C & D);
    [exact Hwf|exact HV| |].
  2: { unfold out, single_out, count_true. cbv zeta. split; [rewrite A; reflexivity|].
       split; [exact B|split; [exact C|exact D]]. }
  repeat constructor; cbn [snd]; rewrite ?length_map, ?repeat_length, ?length_combine;
    rewrite ?length_filter_mask_eq by lia; lia.
Qed.

Lemma auto_out_shape ie f lat_col lon_col dc d :
  wf_frame f -> mem_str lat_col (col_names f) = true -> mem_str lon_col (col_names f) = true ->
  let out := auto_out ie f lat_col lon_col dc d in
  Z.of_nat (List.length (f_index out))
    = count_true (valid_rows f lat_col lon_col dc) - count_true (auto_failed ie f lat_col lon_col dc) /\
  f_index out = map Z.of_nat (seq 0 (List.length (f_index out))) /\
  col_names out = (col_names f ++ result_names)%list /\
  wf_frame out.
Proof.
  intros Hwf Hlat Hlon out.
  pose proof (valid_rows_length f lat_col lon_col dc Hwf Hlat Hlon) as HV.
  destruct (valid_lengths f lat_col lon_col dc Hwf Hlat Hlon) as [L1 L2].
  set (V := valid_rows f lat_col lon_col dc) in *.
  set (failed := auto_failed ie f lat_col lon_col dc).
  assert (Lf : List.length failed = List.length (filter (fun b => b) V)).
  { unfold failed, auto_failed, auto_rows. rewrite length_map, !length_combine, length_map.
    fold V. lia. }
  assert (Lk : List.length (auto_kept ie f lat_col lon_col dc)
               = List.length (filter (fun b => b) (negb_mask failed))).
  { unfold auto_kept, negb_mask, failed, auto_failed.
    rewrite map_map. generalize (auto_rows f lat_col lon_col dc). intros rows.
    induction rows as [|r rows IH]; simpl; [reflexivity|].
    destruct (is_inl (auto_outcome ie f lat_col lon_col dc (fst r))); simpl; lia. }
  pose proof (wf_loc_mask f V Hwf HV) as Hwf1.
  assert (HK : List.length (negb_mask failed) = List.length (f_index (loc_mask f V))).
  { unfold negb_mask, loc_mask. cbn [f_index]. rewrite length_map, length_filter_mask_eq by lia.
    exact Lf. }
  edestruct (concat_shape (loc_mask f V) (negb_mask failed)) as (A & B & C & D);
    [exact Hwf1|exact HK| |].
  2: { unfold out, auto_out. cbv zeta. fold V failed.
       split; [|split; [exact B|split; [|exact D]]].
       - transitivity (Z.of_nat (List.length (filter (fun b => b) (negb_mask failed))));
           [f_equal; exact A|].
         unfold count_true. pose proof (count_negb failed) as E.
         unfold negb_mask. lia.
       - transitivity (col_names (loc_mask f V) ++ result_names)%list; [exact C|].
         unfold loc_mask, col_names. cbn [f_cols]. rewrite map_map. reflexivity. }
  repeat constructor; cbn [snd]; rewrite ?length_map; exact Lk.
Qed.

(* ------------------------------------------------------------------ *)
(** ** Further properties of [convert_dataframe] *)

(** In [force_31n] mode, and in [fixed] mode with zone 29, 30 or 31, a
    [ProjError] of [Transformer.from_crs] or of [transform] is not caught:
    it leaves the call unchanged.  Otherwise the call returns the rows that
    passed the range filter, each transformed by the one transformer of
    [EPSG:258zz] and rounded, with [n_valid] the number of those rows and
    [n_drop] the others. *)
Theorem single_zone_result s df f lat_col lon_col mode fz z dc ie d :
  nth_error (heap s) df = Some f -> wf_frame f -> coherent s ->
  mem_str lat_col (col_names f) = true -> mem_str lon_col (col_names f) = true ->
  count_true (valid_rows f lat_col lon_col dc) <> 0 ->
  (mode = "force_31n" /\ z = 31) \/ (mode = "fixed" /\ fz = Some z /\ In z [29; 30; 31]) ->
  fst (convert_dataframe df lat_col lon_col mode fz dc ie d s)
  = match from_crs ie (epsg_of z) with
    | inl msg => inl (ProjError msg)
    | inr h =>
        match transform_fails h (lon_valid f lat_col lon_col dc) (lat_valid f lat_col lon_col dc) with
        | Some msg => inl (ProjError msg)
        | None =>
            inr (single_out f lat_col lon_col dc d z h,
                 count_true (valid_rows f lat_col lon_col dc),
                 Z.of_nat (List.length (f_index f)) - count_true (valid_rows f lat_col lon_col dc))
        end
    end.
Proof. exact (single_mode_run s df f lat_col lon_col mode fz z dc ie d). Qed.

(** A mode other than [force_31n], [auto] and [fixed] is refused with
    [ValueError("Unknown mode: ...")] once the columns exist and some row
    is in range; no transformer is built or used. *)
Theorem unknown_mode_error s df f lat_col lon_col mode fz dc ie d :
  nth_error (heap s) df = Some f ->
  mem_str lat_col (col_names f) = true -> mem_str lon_col (col_names f) = true ->
  count_true (valid_rows f lat_col lon_col dc) <> 0 ->
  mode <> "force_31n" -> mode <> "auto" -> mode <> "fixed" ->
  let r := convert_dataframe df lat_col lon_col mode fz dc ie d s in
  fst r = inl (ValueError ("Unknown mode: " ++ mode)) /\
  trace (snd r) = trace s /\ cache (snd r) = cache s.
Proof.
  intros Hf Hlat Hlon Hn H1 H2 H3.
  assert (W : wp (convert_dataframe df lat_col lon_col mode fz dc ie d)
                 (fun _ _ => False)
                 (fun e s' => e = ValueError ("Unknown mode: " ++ mode)
                              /\ trace s' = trace s /\ cache s' = cache s) s).
  { unfold convert_dataframe.
    repeat (lazymatch goal with
            | |- wp (if String.eqb mode _ then _ else _) _ _ _ => fail
            | _ => run_step end).
    all: try (match goal with H : negb _ = true |- _ =>
                rewrite ?Hlat, ?Hlon in H; discriminate H end).
    all: try (match goal with H : (_ =? 0) = true |- _ =>
                apply Z.eqb_eq in H; unfold valid_rows in Hn; contradiction end).
    all: try (auto; fail).
    apply String.eqb_neq in H1, H2, H3. rewrite H1, H2, H3.
    apply wp_raise. auto. }
  unfold wp in W. cbv zeta.
  destruct (convert_dataframe df lat_col lon_col mode fz dc ie d s) as [[e|a] s'].
  - destruct W as (-> & ? & ?). auto.
  - contradiction.
Qed.

(** Whenever the call returns, in every mode: the table has [n_valid]
    rows, labelled [0 .. n_valid - 1]; its columns are those of the input,
    in order, followed by [X_ETRS89], [Y_ETRS89], [EPSG_destino] and
    [Huso]; and every column has one entry per row. *)
Theorem output_shape s df f lat_col lon_col mode fz dc ie d out n_valid n_drop :
  nth_error (heap s) df = Some f -> wf_frame f -> coherent s ->
  fst (convert_dataframe df lat_col lon_col mode fz dc ie d s) = inr (out, n_valid, n_drop) ->
  Z.of_nat (List.length (f_index out)) = n_valid /\
  f_index out = map Z.of_nat (seq 0 (List.length (f_index out))) /\
  col_names out = (col_names f ++ ["X_ETRS89"; "Y_ETRS89"; "EPSG_destino"; "Huso"])%list /\
  wf_frame out.
Proof.
  intros Hf Hwf Hc Hres.
  destruct (returns_inputs s df lat_col lon_col mode fz dc ie d _ Hres)
    as (f' & Hf' & Hlat & Hlon & Hn).
  rewrite Hf in Hf'. injection Hf' as <-.
  destruct (returns_mode s df lat_col lon_col mode fz dc ie d _ Hres)
    as [Hm|[Hm|(Hm & z & Hfz & Hz)]].
  - rewrite (single_mode_run s df f lat_col lon_col mode fz 31 dc ie d Hf Hwf Hc Hlat Hlon Hn
               (or_introl (conj Hm eq_refl))) in Hres.
    destruct (from_crs ie (epsg_of 31)) as [msg|h]; [discriminate|].
    destruct (transform_fails h _ _); [discriminate|].
    injection Hres as <- <- _. apply single_out_shape; assumption.
  - subst mode. rewrite (auto_mode_run s df f lat_col lon_col fz dc ie d Hf Hwf Hc Hlat Hlon Hn) in Hres.
    destruct (_ =? 0); [discriminate|].
    injection Hres as <- <- _. apply auto_out_shape; assumption.
  - rewrite (single_mode_run s df f lat_col lon_col mode fz z dc ie d Hf Hwf Hc Hlat Hlon Hn
               (or_intror (conj Hm (conj Hfz Hz)))) in Hres.
    destruct (from_crs ie (epsg_of z)) as [msg|h]; [discriminate|].
    destruct (transform_fails h _ _); [discriminate|].
    injection Hres as <- <- _. apply single_out_shape; assumption.
Qed.

(* ------------------------------------------------------------------ *)
(** ** The cache of [_get_transformer] *)

Lemma grows_refl s : grows s s.
Proof. split; [auto|]. exists []. rewrite app_nil_r. split; [reflexivity|]. intros ? ? _ []. Qed.

Lemma grows_trans s1 s2 s3 : grows s1 s2 -> grows s2 s3 -> grows s1 s3.
Proof.
  intros [C1 (n1 & T1 & N1)] [C2 (n2 & T2 & N2)]. split; [auto|].
  exists (n1 ++ n2)%list. split; [rewrite T2, T1, app_assoc; reflexivity|].
  intros i o Hk Hin. apply in_app_or in Hin as [Hin|Hin]; [exact (N1 i o Hk Hin)|].
  destruct (cache_lookup (i, o) (cache s1)) as [h|] eqn:E; [|contradiction].
  apply (N2 i o); [rewrite (C1 _ _ E); discriminate|exact Hin].
Qed.

Lemma grows_same_cache s s' :
  cache s' = cache s -> (exists new, trace s' = (trace s ++ new)%list /\
                          forall i o, ~ In (EFromCrs i o) new) -> grows s s'.
Proof.
  intros Hc (new & Ht & Hn). split; [intros k h; rewrite Hc; auto|].
  exists new. split; [exact Ht|]. intros i o _. apply Hn.
Qed.

Lemma mono_ret {A} (a : A) : mono (ret a).
Proof. intros s. apply grows_refl. Qed.

Lemma mono_raise {A} e : mono (@raise A e).
Proof. intros s. apply grows_refl. Qed.

Lemma mono_bind {A B} (m : M A) (k : A -> M B) :
  mono m -> (forall a, mono (k a)) -> mono (bind m k).
Proof.
  intros Hm Hk s. unfold bind. specialize (Hm s).
  destruct (m s) as [[e|a] s'] eqn:E; [exact Hm|].
  eapply grows_trans; [exact Hm|apply Hk].
Qed.

Lemma mono_read l : mono (read l).
Proof. intros s. unfold read. destruct (nth_error (heap s) l); apply grows_refl. Qed.

Lemma mono_alloc f : mono (alloc f).
Proof.
  intros s. apply grows_same_cache; [reflexivity|]. exists []. cbn.
  rewrite app_nil_r. split; [reflexivity|]. intros ? ? [].
Qed.

Lemma mono_write l f : mono (write l f).
Proof.
  intros s. apply grows_same_cache; [reflexivity|]. exists []. cbn.
  rewrite app_nil_r. split; [reflexivity|]. intros ? ? [].
Qed.

Lemma mono_log_transform src dst n : mono (log (ETransform src dst n)).
Proof.
  intros s. apply grows_same_cache; [reflexivity|]. exists [ETransform src dst n].
  split; [reflexivity|]. intros i o [H|[]]. discriminate H.
Qed.

Lemma mono_get_transformer i o : mono (get_transformer i o).
Proof.
  intros s. unfold get_transformer.
  destruct (cache_lookup (i, o) (cache s)) as [h|] eqn:Hl; [apply grows_refl|].
  assert (T : forall c', (forall k h', cache_lookup k (cache s) = Some h' ->
                                       cache_lookup k c' = Some h') ->
             grows s (mkSt (heap s) c' (trace s ++ [EFromCrs i o])%list)).
  { intros c' Hc'. split; [exact Hc'|]. exists [EFromCrs i o]. split; [reflexivity|].
    intros i' o' Hk [H|[]]. injection H as -> ->. contradiction. }
  destruct (from_crs i o) as [msg|h]; cbn [snd]; apply T; [auto|].
  intros k h' Hk. cbn [cache_lookup fst snd cache heap].
  destruct (String.eqb (fst k) i && String.eqb (snd k) o) eqn:E; [|exact Hk].
  apply andb_true_iff in E as [E1 E2]. apply String.eqb_eq in E1, E2.
  destruct k as [ki ko]. cbn in E1, E2. subst. congruence.
Qed.

Lemma mono_transform src dst h lons lats : mono (transform src dst h lons lats).
Proof.
  unfold transform. apply mono_bind; [apply mono_log_transform|]. intros _.
  destruct (transform_fails h lons lats); [apply mono_raise|apply mono_ret].
Qed.

Lemma mono_catch_proj {A} (m : M A) : mono m -> mono (catch_proj m).
Proof.
  intros Hm s. unfold catch_proj. specialize (Hm s).
  destruct (m s) as [[[]|a] s']; exact Hm.
Qed.

Lemma mono_massign {A} (arr : list A) m vals : mono (massign arr m vals).
Proof. unfold massign. destruct (assign_mask arr m vals); [apply mono_ret|apply mono_raise]. Qed.

Lemma mono_set_col l name v : mono (set_col l name v).
Proof.
  unfold set_col. apply mono_bind; [apply mono_read|]. intros f.
  destruct (Nat.eqb _ _); [apply mono_write|apply mono_raise].
Qed.

Lemma mono_set_scalar l name c : mono (set_scalar l name c).
Proof. unfold set_scalar. apply mono_bind; [apply mono_read|]. intros f. apply mono_set_col. Qed.

Ltac mono_tac :=
  repeat first
    [ progress cbv zeta
    | apply mono_ret | apply mono_raise | apply mono_read | apply mono_alloc
    | apply mono_write | apply mono_get_transformer | apply mono_transform
    | apply mono_log_transform
    | apply mono_massign | apply mono_set_col | apply mono_set_scalar
    | apply mono_catch_proj
    | apply mono_bind; [|intro]
    | match goal with
      | |- mono (if ?b then _ else _) => destruct b
      | |- mono (match ?x with _ => _ end) => destruct x
      end ].

Lemma mono_auto_step ie zones lon_v lat_v acc z : mono (auto_step ie zones lon_v lat_v acc z).
Proof. unfold auto_step. mono_tac. Qed.

Lemma mono_auto_loop ie zones lon_v lat_v zs acc : mono (auto_loop ie zones lon_v lat_v zs acc).
Proof.
  revert acc. induction zs as [|z zs IH]; intros acc; cbn [auto_loop]; [apply mono_ret|].
  apply mono_bind; [apply mono_auto_step|]. intros a. apply IH.
Qed.

Lemma mono_auto_results o xs ys e hs : mono (auto_results o xs ys e hs).
Proof. unfold auto_results. mono_tac. Qed.

(** [_get_transformer] is an unbounded [lru_cache]: during a call, in
    every mode and whatever the outcome, no cached transformer is dropped
    or replaced, and [Transformer.from_crs] is never called for a CRS pair
    whose transformer was already cached. *)
Theorem transformer_cache_reuse s df lat_col lon_col mode fz dc ie d :
  let s' := snd (convert_dataframe df lat_col lon_col mode fz dc ie d s) in
  (forall k h, cache_lookup k (cache s) = Some h -> cache_lookup k (cache s') = Some h) /\
  exists new, trace s' = (trace s ++ new)%list /\
    forall i o, cache_lookup (i, o) (cache s) <> None -> ~ In (EFromCrs i o) new.
Proof.
  cbv zeta. revert s.
  change (mono (convert_dataframe df lat_col lon_col mode fz dc ie d)).
  unfold convert_dataframe. mono_tac.
  all: first [apply mono_auto_loop | apply mono_auto_results].
Qed.

(* ------------------------------------------------------------------ *)
(** ** The legacy converter *)

Lemma wp_legacy_from_crs i o (Q : Handle -> St -> Prop) E s :
  (forall s', heap s' = heap s -> cache s' = cache s ->
     trace s' = (trace s ++ [EFromCrs i o])%list ->
     match from_crs i o with
     | inr h => Q h s'
     | inl msg => E (ProjError msg) s'
     end) ->
  wp (legacy_from_crs i o) Q E s.
Proof.
  intros H. unfold wp, legacy_from_crs.
  specialize (H (mkSt (heap s) (cache s) (trace s ++ [EFromCrs i o])%list) eq_refl eq_refl eq_refl).
  destruct (from_crs i o); exact H.
Qed.

Lemma wp_catch_all {A} (m : M A) (Q : exn + A -> St -> Prop) E s :
  wp m (fun a => Q (inr a)) (fun e => Q (inl e)) s -> wp (catch_all m) Q E s.
Proof. unfold wp, catch_all. destruct (m s) as [[e|a] s']; auto. Qed.

Lemma wp_transform_tr src dst h lons lats Q E s :
  (forall s', heap s' = heap s -> cache s' = cache s ->
     trace s' = (trace s ++ [ETransform src dst (List.length lons)])%list ->
     match transform_fails h lons lats with
     | Some msg => E (ProjError msg) s'
     | None =>
         Q (map fst (map (fun p => transform_point h (fst p) (snd p)) (combine lons lats)),
            map snd (map (fun p => transform_point h (fst p) (snd p)) (combine lons lats))) s'
     end) ->
  wp (transform src dst h lons lats) Q E s.
Proof.
  intros H. unfold transform, wp, bind, log.
  specialize (H (mkSt (heap s) (cache s) (trace s ++ [ETransform src dst (List.length lons)])%list)
                eq_refl eq_refl eq_refl).
  destruct (transform_fails h lons lats); exact H.
Qed.

Lemma legacy_row_spec ie acc r s :
  wp (legacy_row ie acc r)
     (fun a s' =>
        a = mkLAcc (l_xs acc ++ [fst (legacy_row_xy ie r)]) (l_ys acc ++ [snd (legacy_row_xy ie r)])
                   (l_epsgs acc ++ [CStr (epsg_of (legacy_zone (snd r)))])
                   (l_husos acc ++ [legacy_zone (snd r)])
        /\ heap s' = heap s /\ trace s' = (trace s ++ legacy_row_events ie r)%list)
     (fun _ _ => False) s.
Proof.
  destruct r as [[lon lat] zone]. unfold legacy_row, legacy_row_xy, legacy_row_events.
  cbn [snd]. apply wp_bind, wp_catch_all, wp_bind, wp_legacy_from_crs.
  intros s1 Hh1 _ Ht1.
  destruct (from_crs ie (epsg_of (legacy_zone zone))) as [msg|h].
  - cbn. split; [reflexivity|]. split; [exact Hh1|]. rewrite Ht1. reflexivity.
  - apply wp_transform_tr. intros s2 Hh2 _ Ht2.
    destruct (transform_fails h [lon] [lat]); cbn; (split; [reflexivity|]);
      (split; [congruence|]); rewrite Ht2, Ht1, <- app_assoc; reflexivity.
Qed.

Lemma legacy_auto_loop_spec ie rows :
  forall acc s,
  wp (legacy_auto_loop ie acc rows)
     (fun a s' =>
        a = mkLAcc (l_xs acc ++ map (fun r => fst (legacy_row_xy ie r)) rows)
                   (l_ys acc ++ map (fun r => snd (legacy_row_xy ie r)) rows)
                   (l_epsgs acc ++ map (fun r => CStr (epsg_of (legacy_zone (snd r)))) rows)
                   (l_husos acc ++ map (fun r => legacy_zone (snd r)) rows)
        /\ heap s' = heap s /\ trace s' = (trace s ++ flat_map (legacy_row_events ie) rows)%list)
     (fun _ _ => False) s.
Proof.
  induction rows as [|r rows IH]; intros acc s; cbn [legacy_auto_loop map flat_map].
  - apply wp_ret. rewrite !app_nil_r. destruct acc; auto.
  - apply wp_bind. eapply wp_conseq; [| |apply legacy_row_spec]; [|intros ? ? []].
    intros a s1 (-> & Hh1 & Ht1).
    eapply wp_conseq; [| |apply IH]; [|intros ? ? []].
    intros a' s2 (-> & Hh2 & Ht2). cbn [l_xs l_ys l_epsgs l_husos].
    rewrite <- !app_assoc. split; [reflexivity|]. split; [congruence|].
    rewrite Ht2, Ht1, <- app_assoc. reflexivity.
Qed.

Ltac legacy_step :=
  match goal with
  | |- wp (get_col _ _) _ _ _ => unfold get_col
  | |- wp (legacy_auto_loop _ _ _) _ _ _ =>
      let a := fresh "acc" in let s1 := fresh "s" in
      let E := fresh "Hacc" in let Hh := fresh "Hh" in let Ht := fresh "Ht" in
      eapply wp_conseq; [| |apply legacy_auto_loop_spec]; [intros a s1 (E & Hh & Ht); subst a
                                                         | intros ? ? []]
  | |- _ => run_step
  end.

Lemma legacy_lengths f lat_col lon_col dc :
  wf_frame f -> mem_str lat_col (col_names f) = true -> mem_str lon_col (col_names f) = true ->
  List.length (legacy_rows f lat_col lon_col dc)
    = List.length (filter (fun b => b) (valid_rows f lat_col lon_col dc)).
Proof.
  intros Hwf Hlat Hlon. destruct (valid_lengths f lat_col lon_col dc Hwf Hlat Hlon) as [L1 L2].
  unfold legacy_rows. rewrite !length_combine, length_map. lia.
Qed.

Lemma legacy_auto_run s df f lat_col lon_col fz dc ie :
  nth_error (heap s) df = Some f -> wf_frame f ->
  mem_str lat_col (col_names f) = true -> mem_str lon_col (col_names f) = true ->
  count_true (valid_rows f lat_col lon_col dc) <> 0 ->
  wp (legacy_convert_dataframe df lat_col lon_col "auto" fz dc ie)
     (fun r s' =>
        r = (legacy_auto_out ie f lat_col lon_col dc,
             count_true (valid_rows f lat_col lon_col dc),
             Z.of_nat (List.length (f_index f)) - count_true (valid_rows f lat_col lon_col dc))
        /\ trace s' = (trace s ++ flat_map (legacy_row_events ie) (legacy_rows f lat_col lon_col dc))%list)
     (fun _ _ => False) s.
Proof.
  intros Hf Hwf Hlat Hlon Hn.
  pose proof (valid_rows_length f lat_col lon_col dc Hwf Hlat Hlon) as HV.
  pose proof (legacy_lengths f lat_col lon_col dc Hwf Hlat Hlon) as Lr.
  unfold legacy_convert_dataframe.
  repeat (lazymatch goal with |- wp (legacy_auto_loop _ _ _) _ _ _ => fail | _ => legacy_step end).
  all: try (match goal with H : _ = false |- _ => rewrite ?Hlat, ?Hlon in H; discriminate H end).
  all: try (match goal with H : (_ =? 0) = true |- _ =>
              apply Z.eqb_eq in H; unfold valid_rows in Hn; contradiction end).
  change (valid_mask (to_float_series dc (col_get f lat_col))
            (to_float_series dc (col_get f lon_col)))
    with (valid_rows f lat_col lon_col dc) in *.
  change (filter_mask (to_float_series dc (col_get f lon_col)) (valid_rows f lat_col lon_col dc))
    with (lon_valid f lat_col lon_col dc) in *.
  change (filter_mask (to_float_series dc (col_get f lat_col)) (valid_rows f lat_col lon_col dc))
    with (lat_valid f lat_col lon_col dc) in *.
  change (combine (combine (lon_valid f lat_col lon_col dc) (lat_valid f lat_col lon_col dc))
            (map raw_zone (lon_valid f lat_col lon_col dc)))
    with (legacy_rows f lat_col lon_col dc) in *.
  assert (Lidx : List.length (filter_mask (f_index f) (valid_rows f lat_col lon_col dc))
                 = List.length (filter (fun b => b) (valid_rows f lat_col lon_col dc)))
    by (apply length_filter_mask_eq; lia).
  legacy_step.
  repeat legacy_step.
  all: try (match goal with H : Nat.eqb _ _ = false |- _ =>
              exfalso; apply Nat.eqb_neq in H; apply H; clear H end).
  all: try (unfold col_get; cbn [assoc_col assoc_set f_cols f_index String.eqb Ascii.eqb Bool.eqb l_xs l_ys l_epsgs l_husos app];
            len_eq).
  split; [|exact Ht].
  unfold legacy_auto_out; cbv zeta.
  unfold col_get; cbn [assoc_col assoc_set f_cols f_index String.eqb Ascii.eqb Bool.eqb l_xs l_ys l_epsgs l_husos app].
  rewrite ?map_map. reflexivity.
Qed.

Lemma legacy_single_run s df f lat_col lon_col mode fz z dc ie :
  nth_error (heap s) df = Some f -> wf_frame f ->
  mem_str lat_col (col_names f) = true -> mem_str lon_col (col_names f) = true ->
  count_true (valid_rows f lat_col lon_col dc) <> 0 ->
  (mode = "force_31n" /\ z = 31) \/ (mode = "fixed" /\ fz = Some z) ->
  fst (legacy_convert_dataframe df lat_col lon_col mode fz dc ie s)
  = match from_crs ie (epsg_of z) with
    | inl msg => inl (ProjError msg)
    | inr h =>
        match transform_fails h (lon_valid f lat_col lon_col dc) (lat_valid f lat_col lon_col dc) with
        | Some msg => inl (ProjError msg)
        | None =>
            inr (single_out f lat_col lon_col dc 3 z h,
                 count_true (valid_rows f lat_col lon_col dc),
                 Z.of_nat (List.length (f_index f)) - count_true (valid_rows f lat_col lon_col dc))
        end
    end.
Proof.
  intros Hf Hwf Hlat Hlon Hn Hm.
  match goal with |- _ = ?rhs => set (res := rhs) end.
  assert (W : wp (legacy_convert_dataframe df lat_col lon_col mode fz dc ie)
                 (fun r _ => inr r = res) (fun e _ => inl e = res) s).
  { pose proof (valid_rows_length f lat_col lon_col dc Hwf Hlat Hlon) as HV.
    destruct (valid_lengths f lat_col lon_col dc Hwf Hlat Hlon) as [Llon Llat].
    unfold legacy_convert_dataframe.
    repeat (lazymatch goal with |- wp (if String.eqb mode _ then _ else _) _ _ _ => fail
            | _ => legacy_step end).
    all: try (match goal with H : _ = false |- _ => rewrite ?Hlat, ?Hlon in H; discriminate H end).
    all: try (match goal with H : (_ =? 0) = true |- _ =>
                apply Z.eqb_eq in H; unfold valid_rows in Hn; contradiction end).
    change (valid_mask (to_float_series dc (col_get f lat_col))
              (to_float_series dc (col_get f lon_col)))
      with (valid_rows f lat_col lon_col dc) in *.
    change (filter_mask (to_float_series dc (col_get f lon_col)) (valid_rows f lat_col lon_col dc))
      with (lon_valid f lat_col lon_col dc) in *.
    change (filter_mask (to_float_series dc (col_get f lat_col)) (valid_rows f lat_col lon_col dc))
      with (lat_valid f lat_col lon_col dc) in *.
    assert (Lidx : List.length (filter_mask (f_index f) (valid_rows f lat_col lon_col dc))
                   = List.length (filter (fun b => b) (valid_rows f lat_col lon_col dc)))
      by (apply length_filter_mask_eq; lia).
    destruct Hm as [(-> & ->)|(-> & ->)].
    all: repeat (lazymatch goal with |- wp (legacy_from_crs _ _) _ _ _ => fail
                 | _ => legacy_step end).
    all: apply wp_legacy_from_crs; intros s1 Hh1 _ _.
    all: unfold res.
    all: try (change "EPSG:25831" with (epsg_of 31)).
    all: destruct (from_crs ie (epsg_of _)) as [msg|h] eqn:Hfc; [reflexivity|].
    all: apply wp_bind, wp_transform; intros s2 Hh2 Hc2.
    all: destruct (transform_fails h _ _) as [msg|] eqn:Ht; [reflexivity|].
    all: repeat legacy_step.
    all: try (match goal with H : Nat.eqb _ _ = false |- _ =>
                exfalso; apply Nat.eqb_neq in H; apply H; clear H end).
    all: try (unfold col_get; cbn [assoc_col assoc_set f_cols f_index String.eqb Ascii.eqb Bool.eqb]; len_eq).
    all: unfold single_out; cbv zeta.
    all: unfold col_get; cbn [assoc_col assoc_set f_cols f_index String.eqb Ascii.eqb Bool.eqb].
    all: rewrite ?map_map; reflexivity. }
  unfold wp in W.
  destruct (legacy_convert_dataframe df lat_col lon_col mode fz dc ie s) as [[e|a] s']; exact W.
Qed.

Lemma from_crs_calls_app t1 t2 :
  from_crs_calls (t1 ++ t2) = (from_crs_calls t1 ++ from_crs_calls t2)%list.
Proof.
  induction t1 as [|[i o|i o n] t1 IH]; cbn [app from_crs_calls]; [reflexivity| |exact IH].
  rewrite IH. reflexivity.
Qed.

Lemma from_crs_calls_rows ie rows :
  from_crs_calls (flat_map (legacy_row_events ie) rows)
  = map (fun r => (ie, epsg_of (legacy_zone (snd r)))) rows.
Proof.
  induction rows as [|[[lon lat] z] rows IH]; cbn [flat_map map]; [reflexivity|].
  rewrite from_crs_calls_app, IH. unfold legacy_row_events.
  destruct (from_crs ie (epsg_of (legacy_zone z))); reflexivity.
Qed.

(** The earlier converter of [src/converter.py], [auto] mode: once both
    columns exist and some row is in range, the call always returns,
    even when pyproj fails for some or all rows. Every row that passed
    the range filter is kept, with its own zone and [EPSG:258zz]; a row
    whose [from_crs] or [transform] raised gets NaN coordinates. The
    counters are [n_valid] and [n_all - n_valid]. *)
Theorem legacy_auto_keeps_rows s df f lat_col lon_col fz dc ie :
  nth_error (heap s) df = Some f -> wf_frame f ->
  mem_str lat_col (col_names f) = true -> mem_str lon_col (col_names f) = true ->
  count_true (valid_rows f lat_col lon_col dc) <> 0 ->
  fst (legacy_convert_dataframe df lat_col lon_col "auto" fz dc ie s)
  = inr (legacy_auto_out ie f lat_col lon_col dc,
         count_true (valid_rows f lat_col lon_col dc),
         Z.of_nat (List.length (f_index f)) - count_true (valid_rows f lat_col lon_col dc)).
Proof.
  intros Hf Hwf Hlat Hlon Hn.
  pose proof (legacy_auto_run s df f lat_col lon_col fz dc ie Hf Hwf Hlat Hlon Hn) as W.
  unfold wp in W.
  destruct (legacy_convert_dataframe df lat_col lon_col "auto" fz dc ie s) as [[e|a] s'];
    [contradiction|]. destruct W as [-> _]. reflexivity.
Qed.

(** The earlier converter, [auto] mode: [Transformer.from_crs] is called
    once for every row that passed the range filter, in row order, with
    the CRS of that row's zone; nothing is cached. *)
Theorem legacy_from_crs_per_row s df f lat_col lon_col fz dc ie :
  nth_error (heap s) df = Some f -> wf_frame f ->
  mem_str lat_col (col_names f) = true -> mem_str lon_col (col_names f) = true ->
  count_true (valid_rows f lat_col lon_col dc) <> 0 ->
  exists new,
    trace (snd (legacy_convert_dataframe df lat_col lon_col "auto" fz dc ie s))
      = (trace s ++ new)%list /\
    from_crs_calls new
      = map (fun r => (ie, epsg_of (legacy_zone (snd r)))) (legacy_rows f lat_col lon_col dc).
Proof.
  intros Hf Hwf Hlat Hlon Hn.
  pose proof (legacy_auto_run s df f lat_col lon_col fz dc ie Hf Hwf Hlat Hlon Hn) as W.
  unfold wp in W.
  destruct (legacy_convert_dataframe df lat_col lon_col "auto" fz dc ie s) as [[e|a] s'];
    [contradiction|]. destruct W as [_ Ht].
  eexists. split; [exact Ht|]. apply from_crs_calls_rows.
Qed.

(** The earlier converter, [force_31n] mode, or [fixed] mode with any
    [fixed_zone] (no range check): once both columns exist and some row
    is in range, it builds the transformer for [EPSG:258zz], raises the
    pyproj error of [from_crs] or [transform] if either fails, and
    otherwise returns the valid rows with X/Y rounded to 3 decimals, the
    CRS and the zone. *)
Theorem legacy_single_zone_result s df f lat_col lon_col mode fz z dc ie :
  nth_error (heap s) df = Some f -> wf_frame f ->
  mem_str lat_col (col_names f) = true -> mem_str lon_col (col_names f) = true ->
  count_true (valid_rows f lat_col lon_col dc) <> 0 ->
  (mode = "force_31n" /\ z = 31) \/ (mode = "fixed" /\ fz = Some z) ->
  fst (legacy_convert_dataframe df lat_col lon_col mode fz dc ie s)
  = match from_crs ie (epsg_of z) with
    | inl msg => inl (ProjError msg)
    | inr h =>
        match transform_fails h (lon_valid f lat_col lon_col dc) (lat_valid f lat_col lon_col dc) with
        | Some msg => inl (ProjError msg)
        | None =>
            inr (single_out f lat_col lon_col dc 3 z h,
                 count_true (valid_rows f lat_col lon_col dc),
                 Z.of_nat (List.length (f_index f)) - count_true (valid_rows f lat_col lon_col dc))
        end
    end.
Proof. exact (legacy_single_run s df f lat_col lon_col mode fz z dc ie). Qed.

(** In [force_31n] mode, and in [fixed] mode with zone 29, 30 or 31, the
    earlier converter and the current one with [round_decimals = 3] give
    the same outcome (the same table and counters, or the same error)
    whenever both columns exist and some row is in range. *)
Theorem legacy_agrees_single_zone s df f lat_col lon_col mode fz z dc ie :
  nth_error (heap s) df = Some f -> wf_frame f -> coherent s ->
  mem_str lat_col (col_names f) = true -> mem_str lon_col (col_names f) = true ->
  count_true (valid_rows f lat_col lon_col dc) <> 0 ->
  (mode = "force_31n" /\ z = 31) \/ (mode = "fixed" /\ fz = Some z /\ In z [29; 30; 31]) ->
  fst (legacy_convert_dataframe df lat_col lon_col mode fz dc ie s)
  = fst (convert_dataframe df lat_col lon_col mode fz dc ie 3 s).
Proof.
  intros Hf Hwf Hc Hlat Hlon Hn Hm.
  rewrite (single_mode_run s df f lat_col lon_col mode fz z dc ie 3 Hf Hwf Hc Hlat Hlon Hn Hm).
  apply (legacy_single_run s df f lat_col lon_col mode fz z dc ie Hf Hwf Hlat Hlon Hn).
  destruct Hm as [H|(H1 & H2 & _)]; [left; exact H|right; split; assumption].
Qed.

(** The earlier converter reads the columns with [df2[col]]: a missing
    latitude column raises [KeyError(lat_col)], and a missing longitude
    column (with the latitude column present) raises [KeyError(lon_col)],
    before any call into pyproj. *)
Theorem legacy_missing_column s df f lat_col lon_col mode fz dc ie :
  nth_error (heap s) df = Some f ->
  (mem_str lat_col (col_names f) = false ->
   fst (legacy_convert_dataframe df lat_col lon_col mode fz dc ie s) = inl (KeyError lat_col) /\
   trace (snd (legacy_convert_dataframe df lat_col lon_col mode fz dc ie s)) = trace s) /\
  (mem_str lat_col (col_names f) = true -> mem_str lon_col (col_names f) = false ->
   fst (legacy_convert_dataframe df lat_col lon_col mode fz dc ie s) = inl (KeyError lon_col) /\
   trace (snd (legacy_convert_dataframe df lat_col lon_col mode fz dc ie s)) = trace s).
Proof.
  intros Hf.
  assert (W : forall e, mem_str lat_col (col_names f) = true \/ e = KeyError lat_col ->
                (mem_str lat_col (col_names f) = true ->
                 mem_str lon_col (col_names f) = true \/ e = KeyError lon_col) ->
                (mem_str lat_col (col_names f) = false \/ mem_str lon_col (col_names f) = false) ->
              wp (legacy_convert_dataframe df lat_col lon_col mode fz dc ie)
                 (fun _ _ => False) (fun e' s' => e' = e /\ trace s' = trace s) s).
  { intros e Ha Hb Hc. unfold legacy_convert_dataframe.
    repeat (lazymatch goal with
            | |- wp (read _) _ _ _ => run_step
            | |- wp (get_col _ _) _ _ _ => legacy_step
            | |- wp (bind _ _) _ _ _ => legacy_step
            | |- wp (if mem_str _ _ then _ else _) _ _ _ => legacy_step
            | |- wp (raise _) _ _ _ => legacy_step
            | |- wp (ret _) _ _ _ => legacy_step
            | |- wp (alloc _) _ _ _ => legacy_step
            end).
    all: try (exfalso; destruct Hc; congruence).
    all: split; [|reflexivity].
    all: first [ destruct Ha as [X| ->]; [congruence|reflexivity]
               | destruct Hb as [X| ->]; [assumption|congruence|reflexivity] ]. }
  split.
  - intros H. specialize (W (KeyError lat_col) (or_intror eq_refl)
                            (fun H' => ltac:(congruence)) (or_introl H)).
    unfold wp in W. destruct (legacy_convert_dataframe df lat_col lon_col mode fz dc ie s)
      as [[e|a] s']; [|contradiction]. destruct W as [-> Ht]. split; [reflexivity|exact Ht].
  - intros H1 H2. specialize (W (KeyError lon_col) (or_introl H1) (fun _ => or_intror eq_refl)
                                (or_intror H2)).
    unfold wp in W. destruct (legacy_convert_dataframe df lat_col lon_col mode fz dc ie s)
      as [[e|a] s']; [|contradiction]. destruct W as [-> Ht]. split; [reflexivity|exact Ht].
Qed.

(** The legacy per-row zone ([if zone < 29] then [if zone > 31]) is the
    zone of the current converter ([np.clip(..., 29, 31)]), for every
    longitude. *)
Theorem legacy_zone_agrees lon : legacy_zone (raw_zone lon) = auto_zone lon.
Proof.
  unfold legacy_zone, auto_zone, clip. cbv zeta. rewrite !Z.gtb_ltb.
  destruct (Z.ltb_spec (raw_zone lon) 29);
    [destruct (Z.ltb_spec 31 29)|destruct (Z.ltb_spec 31 (raw_zone lon))]; lia.
Qed.

(** The earlier converter never modifies the objects that exist before
    the call (the caller's DataFrame among them), whether it returns or
    raises: it works on a copy and writes only to the frames it creates. *)
Theorem legacy_input_unchanged s df lat_col lon_col mode fz dc ie l :
  (l < List.length (heap s))%nat ->
  nth_error (heap (snd (legacy_convert_dataframe df lat_col lon_col mode fz dc ie s))) l
  = nth_error (heap s) l.
Proof.
  intros Hl.
  assert (W : wp (legacy_convert_dataframe df lat_col lon_col mode fz dc ie)
                 (fun _ s' => hkeep (heap s) (heap s'))
                 (fun _ s' => hkeep (heap s) (heap s')) s).
  { unfold legacy_convert_dataframe.
    repeat (match goal with
            | |- wp (legacy_from_crs _ _) _ _ _ =>
                apply wp_legacy_from_crs; intros ? ? ? ?; destruct (from_crs _ _)
            | |- wp (legacy_auto_loop _ _ _) _ _ _ =>
                eapply wp_conseq; [| |apply legacy_auto_loop_spec];
                [intros ? ? (_ & ? & _)|intros ? ? []]
            | |- wp (get_col _ _) _ _ _ => unfold get_col
            | |- _ => wp_step
            end; cbv beta iota zeta; cbn [fst snd heap cache trace] in *).
    all: solve_hkeep. }
  unfold wp in W.
  destruct (legacy_convert_dataframe df lat_col lon_col mode fz dc ie s) as [[e|a] s'];
    apply W; exact Hl.
Qed.

End Converter.

(* ------------------------------------------------------------------ *)
(** ** The converter run on the samples *)

Lemma counters_sum_witness :
  match fst (convert_dataframe string demo_from_crs demo_transform_fails demo_transform_point
               0%nat "Lat" "Lon" "auto" None false "EPSG:4258" 6
               (mkSt string [demo_table] [] [])) with
  | inr (_, n_valid, n_drop) => n_valid = 2 /\ n_drop = 3 /\ n_valid + n_drop = 5
  | inl _ => False
  end.
Proof.
  destruct (fst (convert_dataframe string demo_from_crs demo_transform_fails demo_transform_point
               0%nat "Lat" "Lon" "auto" None false "EPSG:4258" 6
               (mkSt string [demo_table] [] []))) as [e|[[out nv] nd]] eqn:E.
  - vm_compute in E. discriminate E.
  - split; [|split].
    + vm_compute in E. congruence.
    + vm_compute in E. congruence.
    + exact (counters_sum string demo_from_crs demo_transform_fails demo_transform_point
               (mkSt string [demo_table] [] []) 0%nat demo_table "Lat" "Lon" "auto" None false "EPSG:4258" 6 out nv nd eq_refl E).
Defined.

Lemma auto_group_failure_witness :
  count_true (valid_rows demo_table "Lat" "Lon" false) = 3 /\
  count_true (auto_failed string demo_from_crs demo_transform_fails "EPSG:4258"
                demo_table "Lat" "Lon" false) = 1 /\
  fst (convert_dataframe string demo_from_crs demo_transform_fails demo_transform_point
               0%nat "Lat" "Lon" "auto" None false "EPSG:4258" 6
               (mkSt string [demo_table] [] []))
  = inr (auto_out string demo_from_crs demo_transform_fails demo_transform_point "EPSG:4258" demo_table "Lat" "Lon" false 6, 2, 3).
Proof.
  split; [vm_compute; reflexivity|split; [vm_compute; reflexivity|]].
  destruct (auto_group_failure string demo_from_crs demo_transform_fails demo_transform_point (mkSt string [demo_table] [] [])
              0%nat demo_table "Lat" "Lon" None false "EPSG:4258" 6 eq_refl
              ltac:(unfold wf_frame; repeat constructor)
              ltac:(intros k h H; discriminate H)
              eq_refl eq_refl ltac:(vm_compute; discriminate)) as (_ & H & _).
  rewrite H by (vm_compute; reflexivity). reflexivity.
Defined.

Lemma auto_zone_of_longitude_witness :
  match fst (convert_dataframe string demo_from_crs demo_transform_fails demo_transform_point
               0%nat "Lat" "Lon" "auto" None false "EPSG:4258" 6
               (mkSt string [demo_table] [] [])) with
  | inr (out, _, _) =>
      exists cols_in xs ys lons qs,
        f_cols out = (cols_in ++
          [("X_ETRS89", xs); ("Y_ETRS89", ys);
           ("EPSG_destino", map (fun q => CStr (epsg_of (auto_zone (PFin q)))) qs);
           ("Huso", map (fun q => CInt (auto_zone (PFin q))) qs)])%list /\
        assoc_col "Lon" cols_in = Some lons /\
        map (to_float_cell false) lons = map PFin qs /\
        Forall (fun q => -180 <= q <= 180)%Q qs
  | inl _ => False
  end.
Proof.
  destruct (fst (convert_dataframe string demo_from_crs demo_transform_fails demo_transform_point
               0%nat "Lat" "Lon" "auto" None false "EPSG:4258" 6
               (mkSt string [demo_table] [] []))) as [e|[[out nv] nd]] eqn:E.
  - vm_compute in E. discriminate E.
  - exact (proj1 (auto_zone_of_longitude string demo_from_crs demo_transform_fails demo_transform_point (mkSt string [demo_table] [] [])
              0%nat demo_table "Lat" "Lon" None false "EPSG:4258" 6 out nv nd eq_refl
              ltac:(unfold wf_frame; repeat constructor)
              ltac:(intros k h H; discriminate H) E)).
Defined.

(** The longitude -1e-16 lies in zone 30 by the exact formula, but the
    double [-1e-16 + 180.0] is [180.0], so the call puts the row in zone
    31. *)
Lemma auto_zone_of_longitude_counterexample :
  (exists q, to_float_cell false (CStr "-1e-16") = PFin q /\
             (q == - (1 # 10000000000000000))%Q /\ spec_zone q = 30) /\
  match fst (convert_dataframe string demo_from_crs demo_transform_fails demo_transform_point
               0%nat "Lat" "Lon" "auto" None false "EPSG:4258" 6
               (mkSt string [demo_edge_table] [] [])) with
  | inr (out, _, _) =>
      assoc_col "EPSG_destino" (f_cols out) = Some [CStr "EPSG:25831"] /\
      assoc_col "Huso" (f_cols out) = Some [CInt 31]
  | inl _ => False
  end.
Proof.
  split.
  - eexists. split; [vm_compute; reflexivity|]. split; vm_compute; reflexivity.
  - vm_compute. split; reflexivity.
Qed.

Lemma no_valid_rows_error_witness :
  fst (convert_dataframe string demo_from_crs demo_transform_fails demo_transform_point
               0%nat "Lat" "Lon" "force_31n" None false "EPSG:4258" 6
               (mkSt string [demo_comma_table] [] []))
  = inl (ValueError "No valid rows with latitudes/longitudes in range.") /\
  trace string (snd (convert_dataframe string demo_from_crs demo_transform_fails demo_transform_point
               0%nat "Lat" "Lon" "force_31n" None false "EPSG:4258" 6
               (mkSt string [demo_comma_table] [] []))) = [] /\
  cache string (snd (convert_dataframe string demo_from_crs demo_transform_fails demo_transform_point
               0%nat "Lat" "Lon" "force_31n" None false "EPSG:4258" 6
               (mkSt string [demo_comma_table] [] []))) = [].
Proof.
  exact (no_valid_rows_error string demo_from_crs demo_transform_fails demo_transform_point (mkSt string [demo_comma_table] [] [])
           0%nat demo_comma_table "Lat" "Lon" "force_31n" None false "EPSG:4258" 6
           eq_refl eq_refl eq_refl ltac:(vm_compute; reflexivity)).
Defined.

Lemma fixed_mode_zone_witness :
  (exists msg, fst (convert_dataframe string demo_from_crs demo_transform_fails demo_transform_point
               0%nat "Lat" "Lon" "fixed" None false "EPSG:4258" 6
               (mkSt string [demo_table] [] [])) = inl (ValueError msg)) /\
  fst (convert_dataframe string demo_from_crs demo_transform_fails demo_transform_point
               0%nat "Lat" "Lon" "fixed" (Some 28) false "EPSG:4258" 6
               (mkSt string [demo_table] [] []))
  = inl (ValueError "fixed_zone must be one of 29, 30, or 31").
Proof.
  destruct (fixed_mode_zone string demo_from_crs demo_transform_fails demo_transform_point (mkSt string [demo_table] [] [])
              0%nat demo_table "Lat" "Lon" false "EPSG:4258" 6 eq_refl) as (Hbad & _ & _).
  split.
  - exact (proj1 (Hbad None (or_introl eq_refl))).
  - refine (proj2 (proj2 (proj2 (proj2 (Hbad (Some 28)
              (or_intror (ex_intro _ 28 (conj eq_refl _))))))) eq_refl eq_refl _).
    + simpl. intuition discriminate.
    + vm_compute. discriminate.
Defined.

Lemma fixed_mode_zone_counterexample :
  fst (convert_dataframe string demo_from_crs demo_transform_fails demo_transform_point
               0%nat "Lat" "Lon" "fixed" None false "EPSG:4258" 6
               (mkSt string [demo_comma_table] [] []))
  = inl (ValueError "No valid rows with latitudes/longitudes in range.") /\
  fst (convert_dataframe string demo_from_crs demo_transform_fails demo_transform_point
               0%nat "Lat" "Lon" "fixed" (Some 28) false "EPSG:4258" 6
               (mkSt string [demo_comma_table] [] []))
  = inl (ValueError "No valid rows with latitudes/longitudes in range.").
Proof. split; vm_compute; reflexivity. Qed.

(** Without the decimal-comma option, a table whose rows are either
    comma-written or unparseable has no valid row. *)
Lemma decimal_comma_parsing_witness :
  fst (convert_dataframe string demo_from_crs demo_transform_fails demo_transform_point
         0%nat "Lat" "Lon" "auto" None false "EPSG:4258" 6
         (mkSt string [demo_mixed_comma_table] [] []))
  = inl (ValueError "No valid rows with latitudes/longitudes in range.").
Proof.
  destruct (decimal_comma_parsing string demo_from_crs demo_transform_fails demo_transform_point)
    as (_ & _ & _ & _ & _ & _ & _ & _ & H).
  apply (H (mkSt string [demo_mixed_comma_table] [] []) 0%nat demo_mixed_comma_table
           "Lat" "Lon" "auto" None "EPSG:4258" 6 eq_refl eq_refl eq_refl).
  intros [|[|i]] ca cb Ha Hb; cbn in Ha, Hb.
  - injection Ha as <-. left. exists "41,84346". split; [reflexivity|]. simpl. tauto.
  - right. right. injection Ha as <-. injection Hb as <-. vm_compute. reflexivity.
  - destruct i; discriminate Ha.
Defined.

Lemma valid_filter_exact_witness :
  nth_error (valid_rows demo_table "Lat" "Lon" false) 1 = Some true /\
  nth_error (valid_rows demo_table "Lat" "Lon" false) 2 = Some false.
Proof.
  split.
  - apply (proj1 (valid_filter_exact demo_table "Lat" "Lon" false 1
                    (CStr "41.8") (CStr "1.0") eq_refl eq_refl)).
    exists (418 # 10), (10 # 10).
    split; [vm_compute; reflexivity|split; [vm_compute; reflexivity|]].
    split; split; vm_compute; discriminate.
  - apply (proj1 (proj2 (valid_filter_exact demo_table "Lat" "Lon" false 2
                           (CStr "n/d") (CInt 0) eq_refl eq_refl))).
    left. vm_compute. reflexivity.
Defined.

Lemma force_31n_columns_witness :
  match fst (convert_dataframe string demo_from_crs demo_transform_fails demo_transform_point
               0%nat "Lat" "Lon" "force_31n" None false "EPSG:4258" 6
               (mkSt string [demo_table] [] [])) with
  | inr (out, _, _) =>
      exists cols_in xs ys,
        f_cols out = (cols_in ++
          [("X_ETRS89", xs); ("Y_ETRS89", ys);
           ("EPSG_destino", repeat (CStr "EPSG:25831") (List.length (f_index out)));
           ("Huso", repeat (CInt 31) (List.length (f_index out)))])%list
  | inl _ => False
  end.
Proof.
  destruct (fst (convert_dataframe string demo_from_crs demo_transform_fails demo_transform_point
               0%nat "Lat" "Lon" "force_31n" None false "EPSG:4258" 6
               (mkSt string [demo_table] [] []))) as [e|[[out nv] nd]] eqn:E.
  - vm_compute in E. discriminate E.
  - exact (force_31n_columns string demo_from_crs demo_transform_fails demo_transform_point (mkSt string [demo_table] [] [])
              0%nat "Lat" "Lon" None false "EPSG:4258" 6 out nv nd E).
Defined.

Lemma missing_column_error_witness :
  convert_dataframe string demo_from_crs demo_transform_fails demo_transform_point
               0%nat "Latitud" "Lon" "auto" None false "EPSG:4258" 6
               (mkSt string [demo_table] [] [])
  = (inl (ValueError "Column 'Latitud' not found in DataFrame"), (mkSt string [demo_table] [] [])) /\
  convert_dataframe string demo_from_crs demo_transform_fails demo_transform_point
               0%nat "Lat" "Longitud" "auto" None false "EPSG:4258" 6
               (mkSt string [demo_table] [] [])
  = (inl (ValueError "Column 'Longitud' not found in DataFrame"), (mkSt string [demo_table] [] [])).
Proof.
  split.
  - exact (proj1 (missing_column_error string demo_from_crs demo_transform_fails demo_transform_point (mkSt string [demo_table] [] [])
                    0%nat demo_table "Latitud" "Lon" "auto" None false "EPSG:4258" 6 eq_refl)
                 eq_refl).
  - exact (proj2 (missing_column_error string demo_from_crs demo_transform_fails demo_transform_point (mkSt string [demo_table] [] [])
                    0%nat demo_table "Lat" "Longitud" "auto" None false "EPSG:4258" 6 eq_refl)
                 eq_refl eq_refl).
Defined.

Lemma input_unchanged_witness :
  nth_error (heap string (snd (convert_dataframe string demo_from_crs demo_transform_fails demo_transform_point
               0%nat "Lat" "Lon" "auto" None false "EPSG:4258" 6
               (mkSt string [demo_table] [] [])))) 0 = Some demo_table.
Proof.
  exact (input_unchanged string demo_from_crs demo_transform_fails demo_transform_point (mkSt string [demo_table] [] [])
           0%nat "Lat" "Lon" "auto" None false "EPSG:4258" 6 0 ltac:(simpl; lia)).
Defined.

(* ------------------------------------------------------------------ *)
(** ** Instances of the whole-call properties *)

(** [fixed] mode with zone 30 on [demo_table]: the demo transformer for
    EPSG:25830 fails, and the call raises that pyproj error. *)
Lemma single_zone_result_witness :
  fst (convert_dataframe string demo_from_crs demo_transform_fails demo_transform_point
         0%nat "Lat" "Lon" "fixed" (Some 30) false "EPSG:4258" 6
         (mkSt string [demo_table] [] []))
  = inl (ProjError "grid not found").
Proof.
  rewrite (single_zone_result string demo_from_crs demo_transform_fails demo_transform_point
             (mkSt string [demo_table] [] []) 0%nat demo_table "Lat" "Lon" "fixed" (Some 30) 30
             false "EPSG:4258" 6 eq_refl
             ltac:(unfold wf_frame; repeat constructor)
             ltac:(intros k h H; discriminate H) eq_refl eq_refl
             ltac:(vm_compute; discriminate)
             (or_intror (conj eq_refl (conj eq_refl (or_intror (or_introl eq_refl)))))).
  vm_compute. reflexivity.
Defined.

(** Mode "manual" on [demo_table]. *)
Lemma unknown_mode_error_witness :
  fst (convert_dataframe string demo_from_crs demo_transform_fails demo_transform_point
         0%nat "Lat" "Lon" "manual" None false "EPSG:4258" 6
         (mkSt string [demo_table] [] []))
  = inl (ValueError "Unknown mode: manual") /\
  trace string (snd (convert_dataframe string demo_from_crs demo_transform_fails demo_transform_point
         0%nat "Lat" "Lon" "manual" None false "EPSG:4258" 6
         (mkSt string [demo_table] [] []))) = [] /\
  cache string (snd (convert_dataframe string demo_from_crs demo_transform_fails demo_transform_point
         0%nat "Lat" "Lon" "manual" None false "EPSG:4258" 6
         (mkSt string [demo_table] [] []))) = [].
Proof.
  exact (unknown_mode_error string demo_from_crs demo_transform_fails demo_transform_point
           (mkSt string [demo_table] [] []) 0%nat demo_table "Lat" "Lon" "manual" None
           false "EPSG:4258" 6 eq_refl eq_refl eq_refl
           ltac:(vm_compute; discriminate)
           ltac:(discriminate) ltac:(discriminate) ltac:(discriminate)).
Defined.

(** [auto] mode on [demo_table]: two rows are returned, with the four
    result columns after the input ones. *)
Lemma output_shape_witness :
  match fst (convert_dataframe string demo_from_crs demo_transform_fails demo_transform_point
               0%nat "Lat" "Lon" "auto" None false "EPSG:4258" 6
               (mkSt string [demo_table] [] [])) with
  | inr (out, n_valid, _) =>
      Z.of_nat (List.length (f_index out)) = n_valid /\
      f_index out = map Z.of_nat (seq 0 (List.length (f_index out))) /\
      col_names out = (col_names demo_table ++ ["X_ETRS89"; "Y_ETRS89"; "EPSG_destino"; "Huso"])%list /\
      wf_frame out
  | inl _ => False
  end.
Proof.
  destruct (fst (convert_dataframe string demo_from_crs demo_transform_fails demo_transform_point
               0%nat "Lat" "Lon" "auto" None false "EPSG:4258" 6
               (mkSt string [demo_table] [] []))) as [e|[[out nv] nd]] eqn:E.
  - vm_compute in E. discriminate E.
  - exact (output_shape string demo_from_crs demo_transform_fails demo_transform_point
             (mkSt string [demo_table] [] []) 0%nat demo_table "Lat" "Lon" "auto" None false
             "EPSG:4258" 6 out nv nd eq_refl
             ltac:(unfold wf_frame; repeat constructor)
             ltac:(intros k h H; discriminate H) E).
Defined.

(* ------------------------------------------------------------------ *)
(** ** Instances of the legacy converter's properties *)

(** Legacy [auto] mode on [demo_table]: the three rows in range are kept,
    the zone-30 row with NaN coordinates. *)
Lemma legacy_auto_keeps_rows_witness :
  fst (legacy_convert_dataframe string demo_from_crs demo_transform_fails demo_transform_point
         0%nat "Lat" "Lon" "auto" None false "EPSG:4258" (mkSt string [demo_table] [] []))
  = inr (legacy_auto_out string demo_from_crs demo_transform_fails demo_transform_point
           "EPSG:4258" demo_table "Lat" "Lon" false, 3, 2).
Proof.
  exact (legacy_auto_keeps_rows string demo_from_crs demo_transform_fails demo_transform_point
           (mkSt string [demo_table] [] []) 0%nat demo_table "Lat" "Lon" None false "EPSG:4258"
           eq_refl ltac:(unfold wf_frame; repeat constructor) eq_refl eq_refl
           ltac:(vm_compute; discriminate)).
Defined.

(** Legacy [auto] mode on [demo_table]: three calls of [from_crs], one
    per row in range. *)
Lemma legacy_from_crs_per_row_witness :
  exists new,
    trace string (snd (legacy_convert_dataframe string demo_from_crs demo_transform_fails
                         demo_transform_point 0%nat "Lat" "Lon" "auto" None false "EPSG:4258"
                         (mkSt string [demo_table] [] [])))
      = ([] ++ new)%list /\
    from_crs_calls new
      = [("EPSG:4258", "EPSG:25830"); ("EPSG:4258", "EPSG:25831"); ("EPSG:4258", "EPSG:25829")].
Proof.
  destruct (legacy_from_crs_per_row string demo_from_crs demo_transform_fails demo_transform_point
              (mkSt string [demo_table] [] []) 0%nat demo_table "Lat" "Lon" None false "EPSG:4258"
              eq_refl ltac:(unfold wf_frame; repeat constructor) eq_refl eq_refl
              ltac:(vm_compute; discriminate)) as (new & Ht & Hc).
  exists new. split; [exact Ht|]. rewrite Hc. vm_compute. reflexivity.
Defined.

(** Legacy [fixed] mode with zone 28 on [demo_table]: accepted, every row
    gets [EPSG:25828]. *)
Lemma legacy_single_zone_result_witness :
  fst (legacy_convert_dataframe string demo_from_crs demo_transform_fails demo_transform_point
         0%nat "Lat" "Lon" "fixed" (Some 28) false "EPSG:4258" (mkSt string [demo_table] [] []))
  = inr (single_out string demo_transform_point demo_table "Lat" "Lon" false 3 28 "EPSG:25828",
         3, 2).
Proof.
  rewrite (legacy_single_zone_result string demo_from_crs demo_transform_fails demo_transform_point
             (mkSt string [demo_table] [] []) 0%nat demo_table "Lat" "Lon" "fixed" (Some 28) 28
             false "EPSG:4258" eq_refl ltac:(unfold wf_frame; repeat constructor) eq_refl eq_refl
             ltac:(vm_compute; discriminate) (or_intror (conj eq_refl eq_refl))).
  vm_compute. reflexivity.
Defined.

(** [force_31n] on [demo_table]: both converters agree. *)
Lemma legacy_agrees_single_zone_witness :
  fst (legacy_convert_dataframe string demo_from_crs demo_transform_fails demo_transform_point
         0%nat "Lat" "Lon" "force_31n" None false "EPSG:4258" (mkSt string [demo_table] [] []))
  = fst (convert_dataframe string demo_from_crs demo_transform_fails demo_transform_point
         0%nat "Lat" "Lon" "force_31n" None false "EPSG:4258" 3 (mkSt string [demo_table] [] [])).
Proof.
  exact (legacy_agrees_single_zone string demo_from_crs demo_transform_fails demo_transform_point
           (mkSt string [demo_table] [] []) 0%nat demo_table "Lat" "Lon" "force_31n" None 31
           false "EPSG:4258" eq_refl ltac:(unfold wf_frame; repeat constructor)
           ltac:(intros k h H; discriminate H) eq_refl eq_refl
           ltac:(vm_compute; discriminate) (or_introl (conj eq_refl eq_refl))).
Defined.

(** The legacy converter asked for a column "Lonx" of [demo_table]. *)
Lemma legacy_missing_column_witness :
  fst (legacy_convert_dataframe string demo_from_crs demo_transform_fails demo_transform_point
         0%nat "Lat" "Lonx" "auto" None false "EPSG:4258" (mkSt string [demo_table] [] []))
  = inl (KeyError "Lonx") /\
  trace string (snd (legacy_convert_dataframe string demo_from_crs demo_transform_fails
         demo_transform_point 0%nat "Lat" "Lonx" "auto" None false "EPSG:4258"
         (mkSt string [demo_table] [] []))) = [].
Proof.
  destruct (legacy_missing_column string demo_from_crs demo_transform_fails demo_transform_point
              (mkSt string [demo_table] [] []) 0%nat demo_table "Lat" "Lonx" "auto" None false
              "EPSG:4258" eq_refl) as [_ H].
  exact (H eq_refl eq_refl).
Defined.

(** The legacy [auto] run on [demo_table] leaves the caller's frame as it
    was. *)
Lemma legacy_input_unchanged_witness :
  (0 < List.length (heap string (mkSt string [demo_table] [] [])))%nat /\
  nth_error (heap string (snd (legacy_convert_dataframe string demo_from_crs demo_transform_fails
               demo_transform_point 0%nat "Lat" "Lon" "auto" None false "EPSG:4258"
               (mkSt string [demo_table] [] [])))) 0
  = Some demo_table.
Proof.
  split; [cbn; lia|].
  exact (legacy_input_unchanged string demo_from_crs demo_transform_fails demo_transform_point
           (mkSt string [demo_table] [] []) 0%nat "Lat" "Lon" "auto" None false "EPSG:4258" 0%nat
           ltac:(cbn; lia)).
Defined.

(* ------------------------------------------------------------------ *)
(** ** The default columns of the app *)

Lemma default_index_from_spec cols needle_list :
  forall i,
  (existsb (col_matches needle_list) cols = true ->
   exists k, default_index_from i cols needle_list = (i + k)%nat /\ (k < List.length cols)%nat /\
     col_matches needle_list (nth k cols "") = true /\
     forall j, (j < k)%nat -> col_matches needle_list (nth j cols "") = false) /\
  (existsb (col_matches needle_list) cols = false -> default_index_from i cols needle_list = 0%nat).
Proof.
  induction cols as [|c cols IH]; intros i; cbn [existsb default_index_from].
  - split; [discriminate|reflexivity].
  - destruct (col_matches needle_list c) eqn:Ec; cbn [orb].
    + split; [|discriminate]. intros _. exists 0%nat. rewrite Nat.add_0_r.
      split; [reflexivity|]. split; [cbn; lia|]. split; [exact Ec|]. intros j Hj; lia.
    + destruct (IH (S i)) as [IH1 IH2]. split; [|exact IH2].
      intros H. destruct (IH1 H) as (k & Hk & Hl & Hm & Hb).
      exists (S k). split; [rewrite Hk; lia|]. split; [cbn; lia|]. split; [exact Hm|].
      intros [|j] Hj; [exact Ec|]. apply Hb. lia.
Qed.

(** [_default_index] returns the position of the first column whose name,
    lower-cased and with its whitespace removed, contains one of the
    needles (a valid index of [cols]); when no column does, it returns 0. *)
Theorem default_index_first cols needle_list :
  (existsb (col_matches needle_list) cols = true ->
   (default_index cols needle_list < List.length cols)%nat /\
   col_matches needle_list (nth (default_index cols needle_list) cols "") = true /\
   forall j, (j < default_index cols needle_list)%nat ->
     col_matches needle_list (nth j cols "") = false) /\
  (existsb (col_matches needle_list) cols = false -> default_index cols needle_list = 0%nat).
Proof.
  unfold default_index. destruct (default_index_from_spec cols needle_list 0) as [H1 H2].
  split; [|exact H2]. intros H. destruct (H1 H) as (k & -> & Hl & Hm & Hb). cbn.
  split; [exact Hl|]. split; [exact Hm|exact Hb].
Qed.

Lemma prefix_app a b s : prefix (a ++ b) s = true -> prefix a s = true.
Proof.
  revert s. induction a as [|ca a IH]; intros s H; [destruct s; reflexivity|].
  destruct s as [|cs s]; [discriminate H|]. cbn in H |- *.
  destruct (ascii_dec ca cs); [exact (IH s H)|discriminate H].
Qed.

Lemma contains_app a b s : str_contains (a ++ b) s = true -> str_contains a s = true.
Proof.
  induction s as [|c s IH]; intros H; cbn [str_contains] in H |- *;
    apply orb_true_iff in H as [H|H]; apply orb_true_iff.
  - left. exact (prefix_app a b _ H).
  - discriminate H.
  - left. exact (prefix_app a b _ H).
  - right. exact (IH H).
Qed.

(** The longer needles of the app are redundant: a column matches the
    latitude needles exactly when its normalized name contains "lat",
    and the longitude needles exactly when it contains "lon" or "lng";
    so the default columns are the first such columns. *)
Theorem default_index_needles cols :
  default_index cols lat_needles = default_index cols ["lat"] /\
  default_index cols lon_needles = default_index cols ["lon"; "lng"].
Proof.
  assert (Ha : forall c, col_matches lat_needles c = col_matches ["lat"] c).
  { intros c. unfold col_matches, lat_needles. cbv zeta. cbn [existsb].
    set (x := normalize c). rewrite !orb_false_r.
    destruct (str_contains "lat" x) eqn:E; [rewrite !orb_true_r; reflexivity|].
    rewrite orb_false_r.
    destruct (str_contains "latitud" x) eqn:E1;
      [rewrite (contains_app "lat" "itud" x E1) in E; discriminate E|].
    destruct (str_contains "latitude" x) eqn:E2;
      [rewrite (contains_app "lat" "itude" x E2) in E; discriminate E|].
    reflexivity. }
  assert (Ho : forall c, col_matches lon_needles c = col_matches ["lon"; "lng"] c).
  { intros c. unfold col_matches, lon_needles. cbv zeta. cbn [existsb].
    set (x := normalize c). rewrite !orb_false_r.
    destruct (str_contains "lon" x) eqn:E; [rewrite !orb_true_r; reflexivity|].
    cbn [orb].
    destruct (str_contains "longitud" x) eqn:E1;
      [rewrite (contains_app "lon" "gitud" x E1) in E; discriminate E|].
    destruct (str_contains "longitude" x) eqn:E2;
      [rewrite (contains_app "lon" "gitude" x E2) in E; discriminate E|].
    destruct (str_contains "long" x) eqn:E3;
      [rewrite (contains_app "lon" "g" x E3) in E; discriminate E|].
    reflexivity. }
  unfold default_index. generalize 0%nat.
  induction cols as [|c cols IH]; intros i; cbn [default_index_from]; [split; reflexivity|].
  rewrite Ha, Ho. destruct (IH (S i)) as [IH1 IH2]. rewrite IH1, IH2. split; reflexivity.
Qed.
